(** * Bed inventory, booking state machine and directory sync

    A shallow embedding of [server/storage.ts] (class [MemStorage]),
    [server/services/hospitalApi.ts] (class [HospitalApiService]) and the
    hospital, bed and booking handlers of [server/routes.ts], with the
    properties of the inventory store, the booking state machine and the
    directory sync.

    Conventions of the embedding:
    - a JS [Map<number, V>] is an association list in insertion order
      ([JsMap]); [Array.from(m.values()).find(p)] is [find p (values m)];
    - the plain object that [processHospitalBeds] uses as a dictionary is a
      list of own properties read through the prototype chain ([Js.get]);
    - an [async] method is a computation in the state monad [M] over the
      store; the awaits of the storage methods never suspend on I/O, so a
      method runs to completion before another request is served;
    - the only suspension points, the HTTP calls to the external provider,
      are answered by a [Remote] value passed to the service, and the
      configuration [apiConfig] is passed with it;
    - numbers are integers ([Z]): identifiers and bed counts stay far below
      2^53, where JS arithmetic is exact;
    - [new Date()] is a parameter [now] of the operation that reads it;
    - a handler is modelled from the point where the session and the
      request body have been accepted. *)

From Stdlib Require Import ZArith List String Ascii Bool Lia Permutation.
Import ListNotations.

Local Open Scope Z_scope.
Local Open Scope string_scope.

(** ** JavaScript values *)

Module Js.

(** [String.prototype.toLowerCase], on the ASCII letters. The theorems
    below use only that it is a function; the examples compute with it. *)
Definition lower_ascii (c : ascii) : ascii :=
  let n := nat_of_ascii c in
  if (Nat.leb 65 n && Nat.leb n 90)%bool then ascii_of_nat (n + 32) else c.

Fixpoint toLowerCase (s : string) : string :=
  match s with
  | EmptyString => EmptyString
  | String c s' => String (lower_ascii c) (toLowerCase s')
  end.

(** [x || d] for an optional string: [undefined], [null] and [''] are falsy. *)
Definition orElse (x : option string) (d : string) : string :=
  match x with
  | Some s => if s =? "" then d else s
  | None => d
  end.

(** [x || null] for an optional string. *)
Definition orNull (x : option string) : option string :=
  match x with
  | Some s => if s =? "" then None else Some s
  | None => None
  end.

(** What reading [o[k]] from a plain object [o = {}] used as a dictionary
    of numbers gives: an own number, a member of [Object.prototype] reached
    through the prototype chain, or [undefined]. *)
Inductive Value :=
| PNum (n : Z)
| PProto (k : string)
| PUndefined.

(** The property names every plain object inherits from [Object.prototype]. *)
Definition objectPrototypeKeys : list string :=
  [ "constructor"; "hasOwnProperty"; "isPrototypeOf"; "propertyIsEnumerable";
    "toLocaleString"; "toString"; "valueOf";
    "__defineGetter__"; "__defineSetter__"; "__lookupGetter__";
    "__lookupSetter__"; "__proto__" ].

Definition inherited (k : string) : bool :=
  existsb (String.eqb k) objectPrototypeKeys.

(** Own properties of the object, most recent assignment per key. *)
Definition Obj := list (string * Z).

Fixpoint own (o : Obj) (k : string) : option Z :=
  match o with
  | [] => None
  | (k', n) :: o' => if k' =? k then Some n else own o' k
  end.

(** [o[k]]. ["__proto__"] is an accessor on [Object.prototype]: it is never
    an own property of an object built by assignment. *)
Definition get (o : Obj) (k : string) : Value :=
  if k =? "__proto__" then PProto k
  else match own o k with
       | Some n => PNum n
       | None => if inherited k then PProto k else PUndefined
       end.

(** [o[k] = n]. Assigning a number to ["__proto__"] is ignored. *)
Definition set (o : Obj) (k : string) (n : Z) : Obj :=
  if k =? "__proto__" then o else (k, n) :: o.

End Js.

(** ** [Map<number, V>] *)

Module JsMap.

Definition t (V : Type) := list (Z * V).

Definition empty {V} : t V := [].

Fixpoint get {V} (m : t V) (k : Z) : option V :=
  match m with
  | [] => None
  | (k', v) :: m' => if (k' =? k)%Z then Some v else get m' k
  end.

(** [m.set(k, v)]: an existing key keeps its position, a new key goes last. *)
Fixpoint set {V} (m : t V) (k : Z) (v : V) : t V :=
  match m with
  | [] => [(k, v)]
  | (k', v') :: m' =>
      if (k' =? k)%Z then (k, v) :: m' else (k', v') :: set m' k v
  end.

Definition keys {V} (m : t V) : list Z := map fst m.

(** [Array.from(m.values())] *)
Definition values {V} (m : t V) : list V := map snd m.

End JsMap.

(** ** The records of [shared/schema]

    One module per table, so that fields keep the names of the source:
    [Bed.availableBeds b] is [b.availableBeds]. *)

Module Hospital.
Record t := mk {
  id : Z;
  username : string;
  password : string;
  name : string;
  email : string;
  address : string;
  city : string;
  state : string;
  zipCode : string;
  phone : string;
  website : option string;
  latitude : option string;
  longitude : option string;
  approved : bool
}.
End Hospital.

Module InsertHospital.
Record t := mk {
  username : string;
  password : string;
  name : string;
  email : string;
  address : string;
  city : string;
  state : string;
  zipCode : string;
  phone : string;
  website : option string;
  latitude : option string;
  longitude : option string
}.
End InsertHospital.

Module BedType.
Record t := mk {
  id : Z;
  name : string;
  description : option string;
  icon : option string
}.
End BedType.

Module InsertBedType.
Record t := mk {
  name : string;
  description : option string;
  icon : option string
}.
End InsertBedType.

(** The value held by [bedTypeId] of a stored bed. The request handlers store
    a validated integer. [processHospitalBeds] stores what it read from its
    name dictionary, which for an inherited key is a member of
    [Object.prototype]. [===] on these values is [TypeRef.eqb]. *)
Module TypeRef.
Inductive t :=
| Id (n : Z)
| Proto (k : string).

Definition eqb (a b : t) : bool :=
  match a, b with
  | Id n, Id m => (n =? m)%Z
  | Proto k, Proto l => k =? l
  | _, _ => false
  end.
End TypeRef.

Module Bed.
Record t := mk {
  id : Z;
  hospitalId : Z;
  bedTypeId : TypeRef.t;
  totalBeds : Z;
  availableBeds : Z;
  pricePerNight : option Z
}.
End Bed.

(** [pricePerNight] may be absent ([None]), [null] ([Some None]) or a number. *)
Module InsertBed.
Record t := mk {
  hospitalId : Z;
  bedTypeId : TypeRef.t;
  totalBeds : Z;
  availableBeds : Z;
  pricePerNight : option (option Z)
}.
End InsertBed.

(** [Partial<InsertBed>]: [None] is an absent key. *)
Module PartialBed.
Record t := mk {
  hospitalId : option Z;
  bedTypeId : option TypeRef.t;
  totalBeds : option Z;
  availableBeds : option Z;
  pricePerNight : option (option Z)
}.
End PartialBed.

Module Booking.
Record t := mk {
  id : Z;
  userId : Z;
  hospitalId : Z;
  bedTypeId : Z;
  patientName : string;
  patientPhone : option string;
  notes : option string;
  status : string;
  createdAt : Z
}.
End Booking.

(** [status], [patientPhone] and [notes] are optional in the insert schema. *)
Module InsertBooking.
Record t := mk {
  userId : Z;
  hospitalId : Z;
  bedTypeId : Z;
  patientName : string;
  patientPhone : option string;
  notes : option string;
  status : option string
}.
End InsertBooking.

(** ** [MemStorage] *)

Module Storage.

(** The fields of [MemStorage] that hold hospitals, bed types, beds and
    bookings. User accounts ([users], [userCurrentId]) are read only by the
    login and registration routes and are left out. *)
Record MemStorage := mkStore {
  hospitals : JsMap.t Hospital.t;
  bedTypes : JsMap.t BedType.t;
  beds : JsMap.t Bed.t;
  bookings : JsMap.t Booking.t;
  hospitalCurrentId : Z;
  bedTypeCurrentId : Z;
  bedCurrentId : Z;
  bookingCurrentId : Z
}.

(** An [async] method: a computation over the store. *)
Definition M (A : Type) : Type := MemStorage -> A * MemStorage.

Definition ret {A} (a : A) : M A := fun s => (a, s).

Definition bind {A B} (c : M A) (f : A -> M B) : M B :=
  fun s => let (a, s') := c s in f a s'.

Definition gets {A} (f : MemStorage -> A) : M A := fun s => (f s, s).

Definition modify (f : MemStorage -> MemStorage) : M unit :=
  fun s => (tt, f s).

Definition evalM {A} (c : M A) (s : MemStorage) : A := fst (c s).

Definition execM {A} (c : M A) (s : MemStorage) : MemStorage := snd (c s).

Declare Scope store_scope.
Delimit Scope store_scope with store.
Notation "x <- c ;; k" := (bind c (fun x => k))
  (at level 61, c at next level, right associativity) : store_scope.
Notation "c ;;; k" := (bind c (fun _ => k))
  (at level 61, right associativity) : store_scope.
Local Open Scope store_scope.

(** *** Hospitals *)

Definition getHospital (id : Z) : M (option Hospital.t) :=
  gets (fun s => JsMap.get (hospitals s) id).

Definition getHospitalByUsername (username : string) : M (option Hospital.t) :=
  gets (fun s =>
    find (fun hospital =>
            Js.toLowerCase (Hospital.username hospital) =? Js.toLowerCase username)
         (JsMap.values (hospitals s))).

Definition createHospital (insertHospital : InsertHospital.t) : M Hospital.t :=
  fun s =>
    let id := hospitalCurrentId s in
    let hospital :=
      Hospital.mk id
        (InsertHospital.username insertHospital)
        (InsertHospital.password insertHospital)
        (InsertHospital.name insertHospital)
        (InsertHospital.email insertHospital)
        (InsertHospital.address insertHospital)
        (InsertHospital.city insertHospital)
        (InsertHospital.state insertHospital)
        (InsertHospital.zipCode insertHospital)
        (InsertHospital.phone insertHospital)
        (InsertHospital.website insertHospital)
        (InsertHospital.latitude insertHospital)
        (InsertHospital.longitude insertHospital)
        false in
    (hospital,
     mkStore (JsMap.set (hospitals s) id hospital) (bedTypes s) (beds s)
             (bookings s) (id + 1) (bedTypeCurrentId s) (bedCurrentId s)
             (bookingCurrentId s)).

Definition setApproved (hospital : Hospital.t) (approved : bool) : Hospital.t :=
  Hospital.mk (Hospital.id hospital) (Hospital.username hospital)
    (Hospital.password hospital) (Hospital.name hospital)
    (Hospital.email hospital) (Hospital.address hospital)
    (Hospital.city hospital) (Hospital.state hospital)
    (Hospital.zipCode hospital) (Hospital.phone hospital)
    (Hospital.website hospital) (Hospital.latitude hospital)
    (Hospital.longitude hospital) approved.

Definition putHospital (id : Z) (hospital : Hospital.t) : M unit :=
  modify (fun s =>
    mkStore (JsMap.set (hospitals s) id hospital) (bedTypes s) (beds s)
            (bookings s) (hospitalCurrentId s) (bedTypeCurrentId s)
            (bedCurrentId s) (bookingCurrentId s)).

Definition updateHospitalApproval (id : Z) (approved : bool)
  : M (option Hospital.t) :=
  hospital <- getHospital id ;;
  match hospital with
  | None => ret None
  | Some hospital =>
      let updatedHospital := setApproved hospital approved in
      putHospital id updatedHospital ;;;
      ret (Some updatedHospital)
  end.

Definition getAllHospitals : M (list Hospital.t) :=
  gets (fun s => JsMap.values (hospitals s)).

Definition getApprovedHospitals : M (list Hospital.t) :=
  gets (fun s => filter Hospital.approved (JsMap.values (hospitals s))).

Definition getPendingHospitals : M (list Hospital.t) :=
  gets (fun s =>
    filter (fun hospital => negb (Hospital.approved hospital))
           (JsMap.values (hospitals s))).

(** *** Bed types *)

Definition getBedType (id : Z) : M (option BedType.t) :=
  gets (fun s => JsMap.get (bedTypes s) id).

Definition getBedTypeByName (name : string) : M (option BedType.t) :=
  gets (fun s =>
    find (fun bedType =>
            Js.toLowerCase (BedType.name bedType) =? Js.toLowerCase name)
         (JsMap.values (bedTypes s))).

Definition createBedType (insertBedType : InsertBedType.t) : M BedType.t :=
  fun s =>
    let id := bedTypeCurrentId s in
    let bedType :=
      BedType.mk id (InsertBedType.name insertBedType)
        (InsertBedType.description insertBedType)
        (InsertBedType.icon insertBedType) in
    (bedType,
     mkStore (hospitals s) (JsMap.set (bedTypes s) id bedType) (beds s)
             (bookings s) (hospitalCurrentId s) (id + 1) (bedCurrentId s)
             (bookingCurrentId s)).

Definition getAllBedTypes : M (list BedType.t) :=
  gets (fun s => JsMap.values (bedTypes s)).

(** *** Beds *)

Definition getBed (id : Z) : M (option Bed.t) :=
  gets (fun s => JsMap.get (beds s) id).

Definition getBedsByHospital (hospitalId : Z) : M (list Bed.t) :=
  gets (fun s =>
    filter (fun bed => (Bed.hospitalId bed =? hospitalId)%Z)
           (JsMap.values (beds s))).

(** [insertBed.pricePerNight ?? null] *)
Definition priceOrNull (p : option (option Z)) : option Z :=
  match p with
  | Some (Some n) => Some n
  | _ => None
  end.

Definition putBed (id : Z) (bed : Bed.t) : M unit :=
  modify (fun s =>
    mkStore (hospitals s) (bedTypes s) (JsMap.set (beds s) id bed)
            (bookings s) (hospitalCurrentId s) (bedTypeCurrentId s)
            (bedCurrentId s) (bookingCurrentId s)).

Definition createBed (insertBed : InsertBed.t) : M Bed.t :=
  fun s =>
    let id := bedCurrentId s in
    let bed :=
      Bed.mk id (InsertBed.hospitalId insertBed)
        (InsertBed.bedTypeId insertBed) (InsertBed.totalBeds insertBed)
        (InsertBed.availableBeds insertBed)
        (priceOrNull (InsertBed.pricePerNight insertBed)) in
    (bed,
     mkStore (hospitals s) (bedTypes s) (JsMap.set (beds s) id bed)
             (bookings s) (hospitalCurrentId s) (bedTypeCurrentId s)
             (id + 1) (bookingCurrentId s)).

(** [{ ...bed, ...bedData }] *)
Definition over {A} (new : option A) (old : A) : A :=
  match new with
  | Some a => a
  | None => old
  end.

Definition mergeBed (bed : Bed.t) (bedData : PartialBed.t) : Bed.t :=
  Bed.mk (Bed.id bed)
    (over (PartialBed.hospitalId bedData) (Bed.hospitalId bed))
    (over (PartialBed.bedTypeId bedData) (Bed.bedTypeId bed))
    (over (PartialBed.totalBeds bedData) (Bed.totalBeds bed))
    (over (PartialBed.availableBeds bedData) (Bed.availableBeds bed))
    (over (PartialBed.pricePerNight bedData) (Bed.pricePerNight bed)).

Definition updateBed (id : Z) (bedData : PartialBed.t) : M (option Bed.t) :=
  bed <- getBed id ;;
  match bed with
  | None => ret None
  | Some bed =>
      let updatedBed := mergeBed bed bedData in
      putBed id updatedBed ;;;
      ret (Some updatedBed)
  end.

Definition getBedByHospitalAndType (hospitalId : Z) (bedTypeId : TypeRef.t)
  : M (option Bed.t) :=
  gets (fun s =>
    find (fun bed =>
            (Bed.hospitalId bed =? hospitalId)%Z
            && TypeRef.eqb (Bed.bedTypeId bed) bedTypeId)
         (JsMap.values (beds s))).

(** *** Bookings *)

Definition getBooking (id : Z) : M (option Booking.t) :=
  gets (fun s => JsMap.get (bookings s) id).

Definition putBooking (id : Z) (booking : Booking.t) : M unit :=
  modify (fun s =>
    mkStore (hospitals s) (bedTypes s) (beds s)
            (JsMap.set (bookings s) id booking) (hospitalCurrentId s)
            (bedTypeCurrentId s) (bedCurrentId s) (bookingCurrentId s)).

Definition nextBookingId : M Z :=
  fun s =>
    (bookingCurrentId s,
     mkStore (hospitals s) (bedTypes s) (beds s) (bookings s)
             (hospitalCurrentId s) (bedTypeCurrentId s) (bedCurrentId s)
             (bookingCurrentId s + 1)).

Definition availableOnly (n : Z) : PartialBed.t :=
  PartialBed.mk None None None (Some n) None.

Definition createBooking (insertBooking : InsertBooking.t) (now : Z)
  : M Booking.t :=
  id <- nextBookingId ;;
  let booking :=
    Booking.mk id (InsertBooking.userId insertBooking)
      (InsertBooking.hospitalId insertBooking)
      (InsertBooking.bedTypeId insertBooking)
      (InsertBooking.patientName insertBooking)
      (Js.orNull (InsertBooking.patientPhone insertBooking))
      (Js.orNull (InsertBooking.notes insertBooking))
      (Js.orElse (InsertBooking.status insertBooking) "pending")
      now in
  putBooking id booking ;;;
  bed <- getBedByHospitalAndType (Booking.hospitalId booking)
           (TypeRef.Id (Booking.bedTypeId booking)) ;;
  match bed with
  | Some bed =>
      if (Bed.availableBeds bed >? 0)%Z
      then updateBed (Bed.id bed) (availableOnly (Bed.availableBeds bed - 1)) ;;;
           ret booking
      else ret booking
  | None => ret booking
  end.

Definition setStatus (booking : Booking.t) (status : string) : Booking.t :=
  Booking.mk (Booking.id booking) (Booking.userId booking)
    (Booking.hospitalId booking) (Booking.bedTypeId booking)
    (Booking.patientName booking) (Booking.patientPhone booking)
    (Booking.notes booking) status (Booking.createdAt booking).

Definition updateBookingStatus (id : Z) (status : string)
  : M (option Booking.t) :=
  booking <- getBooking id ;;
  match booking with
  | None => ret None
  | Some booking =>
      (if (Booking.status booking =? "pending") && (status =? "canceled")
       then
         bed <- getBedByHospitalAndType (Booking.hospitalId booking)
                  (TypeRef.Id (Booking.bedTypeId booking)) ;;
         match bed with
         | Some bed =>
             updateBed (Bed.id bed) (availableOnly (Bed.availableBeds bed + 1)) ;;;
             ret tt
         | None => ret tt
         end
       else ret tt) ;;;
      let updatedBooking := setStatus booking status in
      putBooking id updatedBooking ;;;
      ret (Some updatedBooking)
  end.

Definition getBookingsByHospital (hospitalId : Z) : M (list Booking.t) :=
  gets (fun s =>
    filter (fun booking => (Booking.hospitalId booking =? hospitalId)%Z)
           (JsMap.values (bookings s))).

Definition getBookingsByUser (userId : Z) : M (list Booking.t) :=
  gets (fun s =>
    filter (fun booking => (Booking.userId booking =? userId)%Z)
           (JsMap.values (bookings s))).

Definition getAllBookings : M (list Booking.t) :=
  gets (fun s => JsMap.values (bookings s)).

(** *** [new MemStorage()] *)

Definition emptyStore : MemStorage :=
  mkStore JsMap.empty JsMap.empty JsMap.empty JsMap.empty 1 1 1 1.

Definition defaultBedTypes : list string :=
  ["ICU"; "General"; "Emergency"; "Pediatric"; "Maternity"].

(** [list.forEach(f)] *)
Fixpoint forEach {A} (l : list A) (f : A -> M unit) : M unit :=
  match l with
  | [] => ret tt
  | x :: rest => f x ;;; forEach rest f
  end.

Definition initDefaultBedTypes : M unit :=
  forEach defaultBedTypes
    (fun name => createBedType (InsertBedType.mk name None None) ;;; ret tt).

Definition newMemStorage : MemStorage := execM initDefaultBedTypes emptyStore.

End Storage.

Import Storage.
Local Open Scope store_scope.

(** ** [HospitalApiService] *)

Module HospitalApi.

Record ApiConfig := mkConfig {
  apiKey : string;
  apiUrl : string
}.

Module ApiBed.
Record t := mk {
  type : string;
  total : Z;
  available : Z
}.
End ApiBed.

(** [location.lat] and [location.lng] are kept as the text that
    [toString()] prints for them. *)
Module ApiHospital.
Record t := mk {
  id : string;
  name : string;
  street : string;
  city : string;
  state : string;
  zipCode : string;
  phone : string;
  email : string;
  website : option string;
  beds : list ApiBed.t;
  lat : string;
  lng : string
}.
End ApiHospital.

(** What the external provider answers during one call of the service.
    [health] is the status of the response to [GET /health], [None] when
    the request throws; [listHospitals params] is the body of the response
    to [GET /hospitals], [None] when the request throws. *)
Record Remote := mkRemote {
  health : option Z;
  listHospitals : option string -> option (list ApiHospital.t)
}.

(** [`hospital_${id}`] *)
Definition localUsername (id : string) : string := "hospital_" ++ id.

Definition transformHospitalData (apiHospital : ApiHospital.t)
  : InsertHospital.t :=
  InsertHospital.mk
    (localUsername (ApiHospital.id apiHospital))
    "temporary_password"
    (ApiHospital.name apiHospital)
    (ApiHospital.email apiHospital)
    (ApiHospital.street apiHospital)
    (ApiHospital.city apiHospital)
    (ApiHospital.state apiHospital)
    (ApiHospital.zipCode apiHospital)
    (ApiHospital.phone apiHospital)
    (Some (Js.orElse (ApiHospital.website apiHospital) ""))
    (Some (ApiHospital.lat apiHospital))
    (Some (ApiHospital.lng apiHospital)).

Definition isApiAvailable (apiConfig : ApiConfig) (remote : Remote) : bool :=
  if apiKey apiConfig =? "" then false
  else match health remote with
       | Some status => (status =? 200)%Z
       | None => false
       end.

(** [location ? { location } : {}] *)
Definition params (location : option string) : option string :=
  match location with
  | Some l => if l =? "" then None else Some l
  | None => None
  end.

(** The dictionary built at the start of [processHospitalBeds]. *)
Definition buildBedTypeMap (bedTypes : list BedType.t) : Js.Obj :=
  fold_left
    (fun bedTypeMap bedType =>
       Js.set bedTypeMap (Js.toLowerCase (BedType.name bedType))
              (BedType.id bedType))
    bedTypes [].

(** "Find or create the bed type": the first half of the loop body.
    [!bedTypeId] holds for [undefined] and for the number 0. *)
Definition resolveBedType (bedTypeMap : Js.Obj) (apiBed : ApiBed.t)
  : M (TypeRef.t * Js.Obj) :=
  let key := Js.toLowerCase (ApiBed.type apiBed) in
  let create :=
    newBedType <- createBedType (InsertBedType.mk (ApiBed.type apiBed) None None) ;;
    ret (TypeRef.Id (BedType.id newBedType),
         Js.set bedTypeMap key (BedType.id newBedType)) in
  match Js.get bedTypeMap key with
  | Js.PNum n => if (n =? 0)%Z then create else ret (TypeRef.Id n, bedTypeMap)
  | Js.PProto k => ret (TypeRef.Proto k, bedTypeMap)
  | Js.PUndefined => create
  end.

Definition remoteCounts (apiBed : ApiBed.t) : PartialBed.t :=
  PartialBed.mk None None (Some (ApiBed.total apiBed))
    (Some (ApiBed.available apiBed)) None.

(** "Find existing bed or create new one": the second half. *)
Definition storeBed (hospitalId : Z) (bedTypeId : TypeRef.t) (apiBed : ApiBed.t)
  : M unit :=
  existingBed <- getBedByHospitalAndType hospitalId bedTypeId ;;
  match existingBed with
  | Some existingBed =>
      updateBed (Bed.id existingBed) (remoteCounts apiBed) ;;; ret tt
  | None =>
      createBed (InsertBed.mk hospitalId bedTypeId (ApiBed.total apiBed)
                   (ApiBed.available apiBed) None) ;;;
      ret tt
  end.

(** One turn of [for (const apiBed of apiBeds)]. *)
Definition ingestBed (hospitalId : Z) (bedTypeMap : Js.Obj) (apiBed : ApiBed.t)
  : M Js.Obj :=
  r <- resolveBedType bedTypeMap apiBed ;;
  storeBed hospitalId (fst r) apiBed ;;;
  ret (snd r).

Fixpoint ingestBeds (hospitalId : Z) (bedTypeMap : Js.Obj)
         (apiBeds : list ApiBed.t) : M unit :=
  match apiBeds with
  | [] => ret tt
  | apiBed :: rest =>
      bedTypeMap' <- ingestBed hospitalId bedTypeMap apiBed ;;
      ingestBeds hospitalId bedTypeMap' rest
  end.

Definition processHospitalBeds (hospitalId : Z) (apiBeds : list ApiBed.t)
  : M unit :=
  bedTypes <- getAllBedTypes ;;
  ingestBeds hospitalId (buildBedTypeMap bedTypes) apiBeds.

(** One turn of [for (const apiHospital of response.data)]. *)
Definition syncHospital (apiHospital : ApiHospital.t) : M Hospital.t :=
  hospital <- getHospitalByUsername (localUsername (ApiHospital.id apiHospital)) ;;
  match hospital with
  | Some hospital => ret hospital
  | None =>
      created <- createHospital (transformHospitalData apiHospital) ;;
      updated <- updateHospitalApproval (Hospital.id created) true ;;
      let hospital := match updated with Some u => u | None => created end in
      processHospitalBeds (Hospital.id hospital) (ApiHospital.beds apiHospital) ;;;
      ret hospital
  end.

Fixpoint syncHospitals (data : list ApiHospital.t) (hospitals : list Hospital.t)
  : M (list Hospital.t) :=
  match data with
  | [] => ret hospitals
  | apiHospital :: rest =>
      hospital <- syncHospital apiHospital ;;
      syncHospitals rest (hospitals ++ [hospital])
  end.

Definition getHospitalsByLocation (apiConfig : ApiConfig) (remote : Remote)
           (location : option string) : M (list Hospital.t) :=
  if negb (isApiAvailable apiConfig remote) then getApprovedHospitals
  else match listHospitals remote (params location) with
       | Some data => syncHospitals data []
       | None => getApprovedHospitals
       end.

End HospitalApi.

Import HospitalApi.

(** ** The bed and booking handlers of [registerRoutes]

    A handler is given the session's identity and the request body as the
    schema returned it ([insertBedSchema.parse], [insertBookingSchema.parse]):
    requests stopped by [isAuthenticated] or by a validation error never reach
    the store. *)

Module Routes.

Inductive Json :=
| JError (error : string)
| JHospital (hospital : option Hospital.t)
| JRegistered (id : Z) (name : string)
| JBed (bed : option Bed.t)
| JBooking (booking : option Booking.t).

Record Response := mkResponse {
  status : Z;
  body : Json
}.

(** [res.json(x)] and [res.status(n).json(x)] *)
Definition json (x : Json) : Response := mkResponse 200 x.
Definition statusJson (n : Z) (x : Json) : Response := mkResponse n x.

Module BedForm.
Record t := mk {
  bedTypeId : Z;
  totalBeds : Z;
  availableBeds : Z;
  pricePerNight : option (option Z)
}.
End BedForm.

Module BookingForm.
Record t := mk {
  hospitalId : Z;
  bedTypeId : Z;
  patientName : string;
  patientPhone : option string;
  notes : option string;
  status : option string
}.
End BookingForm.

(** POST /api/hospitals/register *)
Definition postHospitalsRegister (data : InsertHospital.t) : M Response :=
  existingHospital <- getHospitalByUsername (InsertHospital.username data) ;;
  match existingHospital with
  | Some _ => ret (statusJson 400 (JError "Username already exists"))
  | None =>
      newHospital <- createHospital data ;;
      ret (statusJson 201
             (JRegistered (Hospital.id newHospital) (Hospital.name newHospital)))
  end.

(** PATCH /api/admin/hospitals/:id/approve and .../reject *)
Definition patchAdminHospital (hospitalId : Z) (approved : bool) : M Response :=
  hospital <- getHospital hospitalId ;;
  match hospital with
  | None => ret (statusJson 404 (JError "Hospital not found"))
  | Some _ =>
      updatedHospital <- updateHospitalApproval hospitalId approved ;;
      ret (json (JHospital updatedHospital))
  end.

Definition bedData (hospitalId : Z) (form : BedForm.t) : InsertBed.t :=
  InsertBed.mk hospitalId (TypeRef.Id (BedForm.bedTypeId form))
    (BedForm.totalBeds form) (BedForm.availableBeds form)
    (BedForm.pricePerNight form).

(** An [InsertBed] passed where [Partial<InsertBed>] is expected. *)
Definition asPartial (data : InsertBed.t) : PartialBed.t :=
  PartialBed.mk (Some (InsertBed.hospitalId data))
    (Some (InsertBed.bedTypeId data)) (Some (InsertBed.totalBeds data))
    (Some (InsertBed.availableBeds data)) (InsertBed.pricePerNight data).

(** POST /api/hospital/beds *)
Definition postHospitalBeds (hospitalId : Z) (form : BedForm.t) : M Response :=
  let data := bedData hospitalId form in
  existingBed <- getBedByHospitalAndType hospitalId (InsertBed.bedTypeId data) ;;
  match existingBed with
  | Some existingBed =>
      updatedBed <- updateBed (Bed.id existingBed) (asPartial data) ;;
      ret (json (JBed updatedBed))
  | None =>
      newBed <- createBed data ;;
      ret (statusJson 201 (JBed (Some newBed)))
  end.

(** PATCH /api/hospital/bookings/:id *)
Definition patchHospitalBooking (hospitalId bookingId : Z) (status : string)
  : M Response :=
  if negb (existsb (String.eqb status) ["approved"; "rejected"; "canceled"])
  then ret (statusJson 400 (JError "Invalid status"))
  else
    booking <- getBooking bookingId ;;
    match booking with
    | None => ret (statusJson 404 (JError "Booking not found"))
    | Some booking =>
        if negb (Booking.hospitalId booking =? hospitalId)%Z
        then ret (statusJson 403 (JError "Forbidden"))
        else
          updatedBooking <- updateBookingStatus bookingId status ;;
          ret (json (JBooking updatedBooking))
    end.

Definition bookingData (userId : Z) (form : BookingForm.t) : InsertBooking.t :=
  InsertBooking.mk userId (BookingForm.hospitalId form)
    (BookingForm.bedTypeId form) (BookingForm.patientName form)
    (BookingForm.patientPhone form) (BookingForm.notes form)
    (BookingForm.status form).

(** POST /api/bookings *)
Definition postBookings (userId : Z) (form : BookingForm.t) (now : Z)
  : M Response :=
  let data := bookingData userId form in
  hospital <- getHospital (InsertBooking.hospitalId data) ;;
  match hospital with
  | None => ret (statusJson 404 (JError "Hospital not found"))
  | Some hospital =>
      if negb (Hospital.approved hospital)
      then ret (statusJson 404 (JError "Hospital not found"))
      else
        bed <- getBedByHospitalAndType (InsertBooking.hospitalId data)
                 (TypeRef.Id (InsertBooking.bedTypeId data)) ;;
        match bed with
        | None =>
            ret (statusJson 404 (JError "Bed type not available at this hospital"))
        | Some bed =>
            if (Bed.availableBeds bed <=? 0)%Z
            then ret (statusJson 400 (JError "No beds available of this type"))
            else
              newBooking <- createBooking data now ;;
              ret (statusJson 201 (JBooking (Some newBooking)))
        end
  end.

(** PATCH /api/user/bookings/:id/cancel *)
Definition patchUserBookingCancel (userId bookingId : Z) : M Response :=
  booking <- getBooking bookingId ;;
  match booking with
  | None => ret (statusJson 404 (JError "Booking not found"))
  | Some booking =>
      if negb (Booking.userId booking =? userId)%Z
      then ret (statusJson 403 (JError "Forbidden"))
      else if negb (Booking.status booking =? "pending")
      then ret (statusJson 400 (JError "Can only cancel pending bookings"))
      else
        updatedBooking <- updateBookingStatus bookingId "canceled" ;;
        ret (json (JBooking updatedBooking))
  end.

(** A request that reaches one of the handlers above. *)
Inductive Request :=
| RegisterHospital (data : InsertHospital.t)
| SetHospitalApproval (hospitalId : Z) (approved : bool)
| PostHospitalBed (hospitalId : Z) (form : BedForm.t)
| PatchHospitalBooking (hospitalId bookingId : Z) (status : string)
| PostBooking (userId : Z) (form : BookingForm.t) (now : Z)
| CancelBooking (userId bookingId : Z).

Definition handle (r : Request) : M Response :=
  match r with
  | RegisterHospital data => postHospitalsRegister data
  | SetHospitalApproval hospitalId approved => patchAdminHospital hospitalId approved
  | PostHospitalBed hospitalId form => postHospitalBeds hospitalId form
  | PatchHospitalBooking hospitalId bookingId status =>
      patchHospitalBooking hospitalId bookingId status
  | PostBooking userId form now => postBookings userId form now
  | CancelBooking userId bookingId => patchUserBookingCancel userId bookingId
  end.

(** The requests of a list served one after the other. *)
Fixpoint serve (rs : list Request) : M (list Response) :=
  match rs with
  | [] => ret []
  | r :: rest =>
      response <- handle r ;;
      responses <- serve rest ;;
      ret (response :: responses)
  end.

End Routes.

Import Routes.

(** ** Sample data *)

Definition cityHospital : InsertHospital.t :=
  InsertHospital.mk "city" "secret" "City Hospital" "city@example.org"
    "1 Main St" "Springfield" "IL" "62701" "555-0100" None None None.

Definition patientForm : BookingForm.t :=
  BookingForm.mk 1 1 "Ada" None None None.

(** An approved hospital (id 1) with one ICU bed record: 1 bed, 1 free. *)
Definition oneBedStore : MemStorage :=
  execM (serve [RegisterHospital cityHospital;
                SetHospitalApproval 1 true;
                PostHospitalBed 1 (BedForm.mk 1 1 1 None)])
        newMemStorage.

(** The same store after user 7 booked the bed: booking 1 is pending. *)
Definition bookedStore : MemStorage :=
  execM (postBookings 7 patientForm 0) oneBedStore.

(** A pending booking for a hospital that has no bed record. *)
Definition orphanStore : MemStorage :=
  execM (createBooking (bookingData 7 patientForm) 0) newMemStorage.

Definition noKey : ApiConfig := mkConfig "" "https://api.healthcare.gov/api/v1".
Definition withKey : ApiConfig := mkConfig "k" "https://api.healthcare.gov/api/v1".

Definition remoteHospital (id : string) (beds : list ApiBed.t) : ApiHospital.t :=
  ApiHospital.mk id "Remote" "2 High St" "Shelbyville" "IL" "62565" "555-0199"
    "remote@example.org" None beds "39.4" "-88.8".

Definition remoteOf (data : list ApiHospital.t) : Remote :=
  mkRemote (Some 200) (fun _ => Some data).

Definition remoteDown : Remote := mkRemote None (fun _ => None).

(** Store methods called without the handlers' checks: one bed record with 1
    bed, two bookings for it (the second finds it exhausted), both canceled. *)
Definition twoBookingsOneBed : M unit :=
  createBed (InsertBed.mk 1 (TypeRef.Id 1) 1 1 None) ;;;
  createBooking (bookingData 7 patientForm) 0 ;;;
  createBooking (bookingData 8 patientForm) 1 ;;;
  updateBookingStatus 1 "canceled" ;;;
  updateBookingStatus 2 "canceled" ;;;
  ret tt.

(** Requests through the handlers: the hospital posts its bed record again
    while a booking is pending, then the booking is canceled. *)
Definition repostedBed : list Request :=
  [RegisterHospital cityHospital;
   SetHospitalApproval 1 true;
   PostHospitalBed 1 (BedForm.mk 1 1 1 None);
   PostBooking 7 patientForm 0;
   PostHospitalBed 1 (BedForm.mk 1 1 1 None);
   CancelBooking 7 1].

(** Five beds, six booking requests, one cancellation. *)
Definition fiveBeds : list Request :=
  [RegisterHospital cityHospital;
   SetHospitalApproval 1 true;
   PostHospitalBed 1 (BedForm.mk 1 5 5 None);
   PostBooking 7 patientForm 0;
   PostBooking 7 patientForm 1;
   PostBooking 7 patientForm 2;
   PostBooking 7 patientForm 3;
   PostBooking 7 patientForm 4;
   PostBooking 7 patientForm 5;
   CancelBooking 7 1].

(** A remote hospital whose only bed type is named after a member of
    [Object.prototype]. *)
Definition constructorBeds : Remote :=
  remoteOf [remoteHospital "42" [ApiBed.mk "Constructor" 3 2]].

Definition protoBeds : Remote :=
  remoteOf [remoteHospital "42" [ApiBed.mk "__PROTO__" 3 2]].

(** A remote hospital with a known bed type in another case and a new one. *)
Definition ordinaryBeds : Remote :=
  remoteOf [remoteHospital "42" [ApiBed.mk "icu" 3 2; ApiBed.mk "Burn" 4 4]].

(** ** Vocabulary of the properties *)

Fixpoint distinct (l : list Z) : bool :=
  match l with
  | [] => true
  | x :: l' => negb (existsb (Z.eqb x) l') && distinct l'
  end.

(** Every record of the map is stored under its own id, once. *)
Definition keyed {V} (idOf : V -> Z) (m : JsMap.t V) : bool :=
  distinct (JsMap.keys m) && forallb (fun kv => (idOf (snd kv) =? fst kv)%Z) m.

(** Every key of the map was handed out by a counter that now reads [next]. *)
Definition below {V} (next : Z) (m : JsMap.t V) : bool :=
  forallb (fun kv => (fst kv <? next)%Z) m.

(** The hospitals whose username matches [username] the way
    [getHospitalByUsername] compares them. *)
Definition sameUsername (username : string) (hospital : Hospital.t) : bool :=
  Js.toLowerCase (Hospital.username hospital) =? Js.toLowerCase username.

Definition recordsFor (username : string) (s : MemStorage) : nat :=
  List.length (filter (sameUsername username) (JsMap.values (hospitals s))).

(** One call of the directory sync: the configuration in force, what the
    provider answers, and the location asked for. *)
Record SyncCall := mkCall {
  callConfig : ApiConfig;
  callRemote : Remote;
  callLocation : option string
}.

Fixpoint syncs (calls : list SyncCall) : M unit :=
  match calls with
  | [] => ret tt
  | call :: rest =>
      getHospitalsByLocation (callConfig call) (callRemote call)
        (callLocation call) ;;;
      syncs rest
  end.

(** Bed ingestion leaves the hospitals alone. *)
Definition sameHospitals (s s' : MemStorage) : Prop :=
  hospitals s' = hospitals s /\ hospitalCurrentId s' = hospitalCurrentId s.

(** The two bounds on the number of records for a username, with the
    well-formedness they rest on. *)
Definition noDouble (username : string) (s s' : MemStorage) : Prop :=
  below (hospitalCurrentId s') (hospitals s') = true
  /\ (recordsFor username s <= recordsFor username s')%nat
  /\ (recordsFor username s' <= Nat.max 1 (recordsFor username s))%nat.

(** The test of [getBedByHospitalAndType]. *)
Definition bedFor (hospitalId : Z) (bedTypeId : TypeRef.t) (bed : Bed.t) : bool :=
  (Bed.hospitalId bed =? hospitalId)%Z && TypeRef.eqb (Bed.bedTypeId bed) bedTypeId.

(** A booking that still holds a bed of the pair. *)
Definition pendingFor (hospitalId : Z) (bedTypeId : TypeRef.t) (booking : Booking.t)
  : bool :=
  (Booking.status booking =? "pending")
  && (Booking.hospitalId booking =? hospitalId)%Z
  && TypeRef.eqb (TypeRef.Id (Booking.bedTypeId booking)) bedTypeId.

Definition pending (s : MemStorage) (hospitalId : Z) (bedTypeId : TypeRef.t) : Z :=
  Z.of_nat (List.length (filter (pendingFor hospitalId bedTypeId)
                           (JsMap.values (bookings s)))).

(** [0 <= availableBeds <= totalBeds] *)
Definition bedOk (bed : Bed.t) : bool :=
  (0 <=? Bed.availableBeds bed)%Z && (Bed.availableBeds bed <=? Bed.totalBeds bed)%Z.

Definition inventoryOk (s : MemStorage) : bool :=
  forallb bedOk (JsMap.values (beds s)).

Definition validCounts (form : BedForm.t) : bool :=
  (0 <=? BedForm.availableBeds form)%Z
  && (BedForm.availableBeds form <=? BedForm.totalBeds form)%Z.

(** A bed request creates a record, with counts in range, when the pair has
    none at the time it is served; any other request passes. *)
Definition createsOnly (r : Request) (s : MemStorage) : bool :=
  match r with
  | PostHospitalBed hospitalId form =>
      validCounts form
      && match evalM (getBedByHospitalAndType hospitalId
                        (TypeRef.Id (BedForm.bedTypeId form))) s with
         | Some _ => false
         | None => true
         end
  | _ => true
  end.

Fixpoint noOverwrite (rs : list Request) (s : MemStorage) : bool :=
  match rs with
  | [] => true
  | r :: rest => createsOnly r s && noOverwrite rest (execM (handle r) s)
  end.

(** What the store keeps true between requests: bed records are stored once
    under their id, ids come from the counters, a pair has one record, every
    record has room for the bookings that are pending on it, and a pending
    booking has a record. *)
Record consistent (s : MemStorage) : Prop := mkConsistent {
  c_keyed : keyed Bed.id (beds s) = true;
  c_bedIds : below (bedCurrentId s) (beds s) = true;
  c_bookingIds : below (bookingCurrentId s) (bookings s) = true;
  c_unique :
    forall b1 b2,
      In b1 (JsMap.values (beds s)) -> In b2 (JsMap.values (beds s)) ->
      Bed.hospitalId b1 = Bed.hospitalId b2 ->
      Bed.bedTypeId b1 = Bed.bedTypeId b2 -> b1 = b2;
  c_held :
    forall bed,
      In bed (JsMap.values (beds s)) ->
      0 <= Bed.availableBeds bed
      /\ Bed.availableBeds bed + pending s (Bed.hospitalId bed) (Bed.bedTypeId bed)
         <= Bed.totalBeds bed;
  c_backed :
    forall hospitalId bedTypeId,
      0 < pending s hospitalId bedTypeId ->
      exists bed,
        In bed (JsMap.values (beds s)) /\ bedFor hospitalId bedTypeId bed = true
}.

(** The id that the name dictionary of [processHospitalBeds] holds for a
    key: that of the last stored bed type whose lower-cased name is the key. *)
Definition lastNamed (key : string) (bedTypes : list BedType.t) : option Z :=
  fold_left
    (fun found bedType =>
       if Js.toLowerCase (BedType.name bedType) =? key
       then Some (BedType.id bedType) else found)
    bedTypes None.

Definition reflects (bedTypeMap : Js.Obj) (s : MemStorage) : Prop :=
  forall key,
    key <> "__proto__" ->
    Js.own bedTypeMap key = lastNamed key (JsMap.values (bedTypes s)).

(** Bed type ids came from a counter that started above 0. *)
Definition typesOk (s : MemStorage) : bool :=
  (0 <? bedTypeCurrentId s)%Z
  && forallb (fun kv => (0 <? BedType.id (snd kv))%Z
                        && (fst kv <? bedTypeCurrentId s)%Z)
             (bedTypes s).

(** What a turn of the ingestion loop relies on. *)
Record ingestible (bedTypeMap : Js.Obj) (s : MemStorage) : Prop := mkIngestible {
  i_reflects : reflects bedTypeMap s;
  i_types : typesOk s = true;
  i_keyed : keyed Bed.id (beds s) = true;
  i_bedIds : below (bedCurrentId s) (beds s) = true
}.

(** Ids came from the counters, and a bed is stored once under its id. *)
Definition wellKeyed (s : MemStorage) : bool :=
  keyed Bed.id (beds s)
  && below (bedCurrentId s) (beds s)
  && below (hospitalCurrentId s) (hospitals s).

(** A computation that keeps a store well keyed. *)
Definition keeps {A} (c : M A) : Prop :=
  forall s, wellKeyed s = true -> wellKeyed (execM c s) = true.

(** Anything that reaches the store: a request to a handler or a call of the
    directory sync. *)
Inductive Event :=
| Served (r : Request)
| Synced (call : SyncCall).

Fixpoint play (events : list Event) : M unit :=
  match events with
  | [] => ret tt
  | Served r :: rest => handle r ;;; play rest
  | Synced call :: rest =>
      getHospitalsByLocation (callConfig call) (callRemote call)
        (callLocation call) ;;;
      play rest
  end.

(** ** The rest of the server

    The user accounts of [MemStorage], the verify callbacks and the session
    callbacks given to passport, the three guards of [routes.ts], the
    run-time configuration and the per-hospital calls of
    [HospitalApiService], and the routes that read through them. *)

Module JsString.

(** [s.startsWith(p)] *)
Fixpoint startsWith (p s : string) : bool :=
  match p, s with
  | EmptyString, _ => true
  | String a p', String b s' => Ascii.eqb a b && startsWith p' s'
  | String _ _, EmptyString => false
  end.

Fixpoint drop (n : nat) (s : string) : string :=
  match n, s with
  | O, _ => s
  | S n', String _ s' => drop n' s'
  | S _, EmptyString => EmptyString
  end.

(** [s.replace(p, '')] with a string pattern: the first occurrence of [p]
    goes, the rest stays. *)
Fixpoint removeFirst (p s : string) : string :=
  if startsWith p s then drop (String.length p) s
  else match s with
       | EmptyString => EmptyString
       | String c s' => String c (removeFirst p s')
       end.

End JsString.

Module User.
Record t := mk {
  id : Z;
  username : string;
  password : string;
  email : string;
  name : string;
  phone : option string;
  role : string
}.
End User.

(** [phone] and [role] are optional in the insert schema. *)
Module InsertUser.
Record t := mk {
  username : string;
  password : string;
  email : string;
  name : string;
  phone : option string;
  role : option string
}.
End InsertUser.

(** The fields [users] and [userCurrentId] of [MemStorage] and the methods on
    them. No other method reads or writes these two fields, and these
    methods touch no other field, so they are given a state of their own. *)
Module Accounts.

Record UserStore := mkUsers {
  users : JsMap.t User.t;
  userCurrentId : Z
}.

Definition getUser (us : UserStore) (id : Z) : option User.t :=
  JsMap.get (users us) id.

Definition getUserByUsername (us : UserStore) (username : string)
  : option User.t :=
  find (fun user => Js.toLowerCase (User.username user) =? Js.toLowerCase username)
       (JsMap.values (users us)).

Definition getUserByEmail (us : UserStore) (email : string) : option User.t :=
  find (fun user => Js.toLowerCase (User.email user) =? Js.toLowerCase email)
       (JsMap.values (users us)).

Definition createUser (us : UserStore) (insertUser : InsertUser.t)
  : User.t * UserStore :=
  let id := userCurrentId us in
  let user :=
    User.mk id (InsertUser.username insertUser) (InsertUser.password insertUser)
      (InsertUser.email insertUser) (InsertUser.name insertUser)
      (Js.orNull (InsertUser.phone insertUser))
      (Js.orElse (InsertUser.role insertUser) "user") in
  (user, mkUsers (JsMap.set (users us) id user) (id + 1)).

Definition adminUser : InsertUser.t :=
  InsertUser.mk "admin" "admin123" "admin@medbeds.com" "System Administrator"
    None (Some "admin").

(** The accounts of [new MemStorage()]: [initAdminUser]. *)
Definition newUserStore : UserStore :=
  snd (createUser (mkUsers JsMap.empty 1) adminUser).

End Accounts.

Import Accounts.

Module Auth.

Inductive UserJson :=
| UError (error : string)
| URegistered (id : Z) (username email name : string).

Record UserResponse := mkUserResponse {
  userStatus : Z;
  userBody : UserJson
}.

(** POST /api/users/register *)
Definition postUsersRegister (us : UserStore) (data : InsertUser.t)
  : UserResponse * UserStore :=
  match getUserByUsername us (InsertUser.username data) with
  | Some _ => (mkUserResponse 400 (UError "Username already exists"), us)
  | None =>
      match getUserByEmail us (InsertUser.email data) with
      | Some _ => (mkUserResponse 400 (UError "Email already exists"), us)
      | None =>
          let (newUser, us') := createUser us data in
          (mkUserResponse 201
             (URegistered (User.id newUser) (User.username newUser)
                (User.email newUser) (User.name newUser)),
           us')
      end
  end.

(** What a verify callback hands to [done]. *)
Inductive Verified (A : Type) :=
| Accepted (a : A)
| Refused (message : string).

Arguments Accepted {A} a.
Arguments Refused {A} message.

(** The verify callback of the "user-local" strategy. *)
Definition userLocal (us : UserStore) (username password : string)
  : Verified User.t :=
  match getUserByUsername us username with
  | None => Refused "Incorrect username or password"
  | Some user =>
      if negb (User.password user =? password)
      then Refused "Incorrect username or password"
      else Accepted user
  end.

(** The verify callback of the "hospital-local" strategy. *)
Definition hospitalLocal (username password : string) : M (Verified Hospital.t) :=
  hospital <- getHospitalByUsername username ;;
  match hospital with
  | None => ret (Refused "Incorrect username or password")
  | Some hospital =>
      if negb (Hospital.password hospital =? password)
      then ret (Refused "Incorrect username or password")
      else ret (Accepted hospital)
  end.

(** What [serializeUser] keeps in the session: [{ id, isHospital }]. *)
Record Session := mkSession {
  sessionId : Z;
  isHospitalSession : bool
}.

(** Who a request is made as: what [deserializeUser] puts in [req.user]. A
    hospital carries the flag [isHospital: true] and has no [role]. *)
Inductive Principal :=
| AsUser (user : User.t)
| AsHospital (hospital : Hospital.t).

Definition principalId (p : Principal) : Z :=
  match p with
  | AsUser user => User.id user
  | AsHospital hospital => Hospital.id hospital
  end.

Definition serializeUser (p : Principal) : Session :=
  match p with
  | AsUser user => mkSession (User.id user) false
  | AsHospital hospital => mkSession (Hospital.id hospital) true
  end.

Definition deserializeUser (us : UserStore) (data : Session)
  : M (option Principal) :=
  if isHospitalSession data then
    hospital <- getHospital (sessionId data) ;;
    match hospital with
    | None => ret None
    | Some hospital => ret (Some (AsHospital hospital))
    end
  else
    match getUser us (sessionId data) with
    | None => ret None
    | Some user => ret (Some (AsUser user))
    end.

(** [LInvalid] is the answer of [apiErrorHandler] to a [ZodError]; its
    message is left out. *)
Inductive LoginJson :=
| LError (error : string)
| LInvalid
| LHospital (id : Z) (username name : string).

Record LoginResponse := mkLoginResponse {
  loginStatus : Z;
  loginBody : LoginJson;
  loginSession : option Session
}.

(** [loginSchema]: both strings have at least one character. *)
Definition loginSchema (username password : string) : bool :=
  negb (username =? "") && negb (password =? "").

(** POST /api/auth/hospital/login, for a body with two strings. *)
Definition postAuthHospitalLogin (username password : string) : M LoginResponse :=
  if negb (loginSchema username password)
  then ret (mkLoginResponse 400 LInvalid None)
  else
    verified <- hospitalLocal username password ;;
    match verified with
    | Refused message => ret (mkLoginResponse 401 (LError message) None)
    | Accepted hospital =>
        if negb (Hospital.approved hospital)
        then ret (mkLoginResponse 403 (LError "Hospital not approved yet") None)
        else ret (mkLoginResponse 200
                    (LHospital (Hospital.id hospital) (Hospital.username hospital)
                       (Hospital.name hospital))
                    (Some (serializeUser (AsHospital hospital))))
    end.

(** The guards. [req.isAuthenticated()] holds when [req.user] is set. *)
Definition isAuthenticated (user : option Principal) : bool :=
  match user with
  | Some _ => true
  | None => false
  end.

Definition isAdmin (user : option Principal) : bool :=
  match user with
  | Some (AsUser user) => User.role user =? "admin"
  | _ => false
  end.

Definition isHospital (user : option Principal) (path : string) : bool :=
  isAuthenticated user && JsString.startsWith "/api/hospital" path.

(** POST /api/hospital/beds behind [isAuthenticated, isHospital], for a
    request path written as the route is. *)
Definition routePostHospitalBeds (user : option Principal) (form : BedForm.t)
  : M Response :=
  match user with
  | None => ret (statusJson 401 (JError "Unauthorized"))
  | Some p =>
      if isHospital user "/api/hospital/beds"
      then postHospitalBeds (principalId p) form
      else ret (statusJson 403 (JError "Forbidden"))
  end.

(** PATCH /api/admin/hospitals/:id/approve and .../reject behind
    [isAuthenticated, isAdmin]. *)
Definition routePatchAdminHospital (user : option Principal) (hospitalId : Z)
           (approved : bool) : M Response :=
  match user with
  | None => ret (statusJson 401 (JError "Unauthorized"))
  | Some _ =>
      if isAdmin user
      then patchAdminHospital hospitalId approved
      else ret (statusJson 403 (JError "Forbidden"))
  end.

End Auth.

Import Auth.

Module Config.

(** [updateApiConfig(config)] with [config : Partial<ApiConfig>]. *)
Definition updateApiConfig (apiConfig : ApiConfig) (newKey newUrl : option string)
  : ApiConfig :=
  mkConfig (over newKey (apiKey apiConfig)) (over newUrl (apiUrl apiConfig)).

(** [getApiConfig()]: [{ apiUrl, hasApiKey }] *)
Definition getApiConfig (apiConfig : ApiConfig) : string * bool :=
  (apiUrl apiConfig, negb (apiKey apiConfig =? "")).

Inductive ConfigJson :=
| CError (error : string)
| CUpdated (apiUrl : string) (hasApiKey : bool) (apiAvailable : bool).

(** [x && { x }] under a spread, for a string of the body: nothing when the
    string is missing or empty. *)
Definition whenSet (x : option string) : option string :=
  match x with
  | Some s => if s =? "" then None else Some s
  | None => None
  end.

(** POST /api/config/api-key, for an administrator. [remote] is what the
    provider answers to the probe made with the new configuration. *)
Definition postConfigApiKey (apiConfig : ApiConfig) (remote : Remote)
           (bodyKey bodyUrl : option string) : Z * ConfigJson * ApiConfig :=
  match whenSet bodyKey with
  | None => (400, CError "API key is required", apiConfig)
  | Some key =>
      let apiConfig' := updateApiConfig apiConfig (Some key) (whenSet bodyUrl) in
      let isAvailable := isApiAvailable apiConfig' remote in
      (200,
       CUpdated (fst (getApiConfig apiConfig')) (snd (getApiConfig apiConfig'))
         isAvailable,
       apiConfig')
  end.

Fixpoint postConfigApiKeys (apiConfig : ApiConfig)
         (posts : list (Remote * option string * option string)) : ApiConfig :=
  match posts with
  | [] => apiConfig
  | (remote, bodyKey, bodyUrl) :: rest =>
      postConfigApiKeys (snd (postConfigApiKey apiConfig remote bodyKey bodyUrl)) rest
  end.

End Config.

Import Config.

Module HospitalDetail.

(** What the provider answers to [GET /hospitals/<id>]: [None] when the
    request throws, [Some None] when the body is empty. *)
Definition Detail := string -> option (option ApiHospital.t).

(** [localHospital.username.replace('hospital_', '')] *)
Definition remoteId (username : string) : string :=
  JsString.removeFirst "hospital_" username.

Definition getHospitalById (apiConfig : ApiConfig) (remote : Remote)
           (detail : Detail) (id : Z) : M (option Hospital.t) :=
  localHospital <- getHospital id ;;
  match localHospital with
  | None => ret None
  | Some localHospital =>
      if negb (isApiAvailable apiConfig remote) then ret (Some localHospital)
      else match detail (remoteId (Hospital.username localHospital)) with
           | None => getHospital id
           | Some None => ret (Some localHospital)
           | Some (Some data) =>
               processHospitalBeds id (ApiHospital.beds data) ;;;
               getHospital id
           end
  end.

Definition getHospitalBeds (apiConfig : ApiConfig) (remote : Remote)
           (detail : Detail) (hospitalId : Z) : M (list Bed.t) :=
  if negb (isApiAvailable apiConfig remote) then getBedsByHospital hospitalId
  else
    hospital <- getHospital hospitalId ;;
    match hospital with
    | None => ret []
    | Some hospital =>
        match detail (remoteId (Hospital.username hospital)) with
        | None => getBedsByHospital hospitalId
        | Some None => getBedsByHospital hospitalId
        | Some (Some data) =>
            processHospitalBeds hospitalId (ApiHospital.beds data) ;;;
            getBedsByHospital hospitalId
        end
    end.

Module EnhancedBed.
Record t := mk {
  bed : Bed.t;
  bedTypeName : string
}.
End EnhancedBed.

Inductive Listed (A : Type) :=
| Listing (items : list A)
| NotListed (status : Z) (error : string).

Arguments Listing {A} items.
Arguments NotListed {A} status error.

(** [bedTypes.find(type => type.id === bed.bedTypeId)] and the name it
    yields. *)
Definition nameOfType (bedTypes : list BedType.t) (bed : Bed.t) : string :=
  match find (fun type => TypeRef.eqb (TypeRef.Id (BedType.id type))
                            (Bed.bedTypeId bed)) bedTypes with
  | Some bedType => BedType.name bedType
  | None => "Unknown"
  end.

(** GET /api/hospitals/:hospitalId/beds *)
Definition getHospitalsBeds (apiConfig : ApiConfig) (remote : Remote)
           (detail : Detail) (hospitalId : Z) : M (Listed EnhancedBed.t) :=
  hospital <- getHospital hospitalId ;;
  match hospital with
  | None => ret (NotListed 404 "Hospital not found")
  | Some hospital =>
      if negb (Hospital.approved hospital)
      then ret (NotListed 404 "Hospital not found")
      else
        beds <- getHospitalBeds apiConfig remote detail hospitalId ;;
        bedTypes <- getAllBedTypes ;;
        ret (Listing (map (fun bed => EnhancedBed.mk bed (nameOfType bedTypes bed))
                          beds))
  end.

End HospitalDetail.

Import HospitalDetail.

(** Everything that reaches the store of hospitals, beds and bookings. *)
Record DetailCall := mkDetailCall {
  detailConfig : ApiConfig;
  detailRemote : Remote;
  detailAnswer : Detail;
  detailHospital : Z
}.

Inductive Action :=
| Handle (r : Request)
| ListHospitals (call : SyncCall)
| HospitalBeds (call : DetailCall)
| HospitalById (call : DetailCall).

Definition perform (a : Action) : M unit :=
  match a with
  | Handle r => handle r ;;; ret tt
  | ListHospitals call =>
      getHospitalsByLocation (callConfig call) (callRemote call)
        (callLocation call) ;;; ret tt
  | HospitalBeds call =>
      getHospitalBeds (detailConfig call) (detailRemote call) (detailAnswer call)
        (detailHospital call) ;;; ret tt
  | HospitalById call =>
      getHospitalById (detailConfig call) (detailRemote call) (detailAnswer call)
        (detailHospital call) ;;; ret tt
  end.

Fixpoint performAll (actions : list Action) : M unit :=
  match actions with
  | [] => ret tt
  | a :: rest => perform a ;;; performAll rest
  end.

(** The store after the server has started and gone through [actions]. *)
Definition reached (actions : list Action) : MemStorage :=
  execM (performAll actions) newMemStorage.

(** ** Vocabulary of the further properties *)

(** A second sample store: [oneBedStore] with a second, unapproved hospital. *)
Definition villageHospital : InsertHospital.t :=
  InsertHospital.mk "Village" "hush" "Village Hospital" "village@example.org"
    "3 Low St" "Ogdenville" "IL" "62000" "555-0111" None None None.

Definition twoHospitalStore : MemStorage :=
  execM (serve [RegisterHospital villageHospital]) oneBedStore.

(** A relation between the store before and the store after that every run
    of a computation satisfies. *)
Definition steps (R : MemStorage -> MemStorage -> Prop) {A} (c : M A) : Prop :=
  forall s, R s (execM c s).

Definition sameBookings (s s' : MemStorage) : Prop :=
  bookings s' = bookings s /\ bookingCurrentId s' = bookingCurrentId s.

(** Bookings stay: each one is still stored under its id, changed in its
    status at most. *)
Definition persists (s s' : MemStorage) : Prop :=
  below (bookingCurrentId s) (bookings s) = true ->
  below (bookingCurrentId s') (bookings s') = true
  /\ forall id booking,
       JsMap.get (bookings s) id = Some booking ->
       exists status, JsMap.get (bookings s') id = Some (setStatus booking status).

(** Usernames stay single, where hospital ids came from the counter. *)
Definition singleNames (s s' : MemStorage) : Prop :=
  below (hospitalCurrentId s) (hospitals s) = true ->
  forall username, noDouble username s s'.

(** One record per (hospital, bed type) pair. *)
Definition uniquePairs (s : MemStorage) : Prop :=
  forall b1 b2,
    In b1 (JsMap.values (beds s)) -> In b2 (JsMap.values (beds s)) ->
    Bed.hospitalId b1 = Bed.hospitalId b2 ->
    Bed.bedTypeId b1 = Bed.bedTypeId b2 -> b1 = b2.

(** A test [q totalBeds availableBeds] passed by every bed record. *)
Definition countsAll (q : Z -> Z -> bool) (s : MemStorage) : Prop :=
  forall bed,
    In bed (JsMap.values (beds s)) ->
    q (Bed.totalBeds bed) (Bed.availableBeds bed) = true.

Definition tidy (q : Z -> Z -> bool) (s : MemStorage) : Prop :=
  wellKeyed s = true /\ uniquePairs s /\ countsAll q s.

Definition staysTidy (q : Z -> Z -> bool) (s s' : MemStorage) : Prop :=
  tidy q s -> tidy q s'.

(** The counts that an action brings into the store pass the test: those of
    a bed request, and those the provider answers for the hospitals an
    action asks it about. *)
Definition bedsPass (q : Z -> Z -> bool) (apiBeds : list ApiBed.t) : bool :=
  forallb (fun apiBed => q (ApiBed.total apiBed) (ApiBed.available apiBed)) apiBeds.

Definition detailPasses (q : Z -> Z -> bool) (call : DetailCall) (s : MemStorage)
  : bool :=
  match evalM (getHospital (detailHospital call)) s with
  | Some hospital =>
      match detailAnswer call (remoteId (Hospital.username hospital)) with
      | Some (Some data) => bedsPass q (ApiHospital.beds data)
      | _ => true
      end
  | None => true
  end.

Definition offer (q : Z -> Z -> bool) (a : Action) (s : MemStorage) : bool :=
  match a with
  | Handle (PostHospitalBed _ form) =>
      q (BedForm.totalBeds form) (BedForm.availableBeds form)
  | Handle _ => true
  | ListHospitals call =>
      match listHospitals (callRemote call) (params (callLocation call)) with
      | Some data =>
          forallb (fun apiHospital => bedsPass q (ApiHospital.beds apiHospital)) data
      | None => true
      end
  | HospitalBeds call => detailPasses q call s
  | HospitalById call => detailPasses q call s
  end.

Fixpoint offers (q : Z -> Z -> bool) (actions : list Action) (s : MemStorage)
  : bool :=
  match actions with
  | [] => true
  | a :: rest => offer q a s && offers q rest (execM (perform a) s)
  end.

Definition anyCounts (totalBeds availableBeds : Z) : bool := true.

Definition noneNegative (totalBeds availableBeds : Z) : bool :=
  (0 <=? availableBeds)%Z.

(** A day at the server: a sync, a bed request, a booking, a refresh of the
    beds of hospital 1 that the provider answers with new counts. *)
Definition busyDay : list Action :=
  [ListHospitals (mkCall withKey ordinaryBeds None);
   Handle (PostHospitalBed 1 (BedForm.mk 2 6 6 None));
   Handle (PostBooking 7 patientForm 0);
   HospitalBeds (mkDetailCall withKey (remoteOf [])
                   (fun _ => Some (Some (remoteHospital "42" [ApiBed.mk "ICU" 9 0])))
                   1);
   Handle (CancelBooking 7 1)].

(** The type name of a remote entry is not a member of [Object.prototype]. *)
Definition ordinary (apiBed : ApiBed.t) : bool :=
  negb (Js.inherited (Js.toLowerCase (ApiBed.type apiBed))).

(** What the directory sync adds to the hospitals: records at the end, each
    approved and with the password that [transformHospitalData] gives. *)
Definition syncMade (hospital : Hospital.t) : Prop :=
  Hospital.approved hospital = true
  /\ Hospital.password hospital = "temporary_password".

Definition appendsHospitals (s s' : MemStorage) : Prop :=
  below (hospitalCurrentId s) (hospitals s) = true ->
  below (hospitalCurrentId s') (hospitals s') = true
  /\ exists added,
       hospitals s' = (hospitals s ++ added)%list
       /\ Forall (fun kv => syncMade (snd kv)) added.

(** ** Vocabulary of the account properties *)

(** The tests of [getUserByUsername] and [getUserByEmail]. *)
Definition sameUserName (username : string) (user : User.t) : bool :=
  Js.toLowerCase (User.username user) =? Js.toLowerCase username.

Definition sameUserEmail (email : string) (user : User.t) : bool :=
  Js.toLowerCase (User.email user) =? Js.toLowerCase email.

Definition accountsNamed (username : string) (us : UserStore) : nat :=
  List.length (filter (sameUserName username) (JsMap.values (users us))).

Definition accountsMailed (email : string) (us : UserStore) : nat :=
  List.length (filter (sameUserEmail email) (JsMap.values (users us))).

(** The accounts after a sequence of requests to POST /api/users/register. *)
Fixpoint registerAll (us : UserStore) (datas : list InsertUser.t) : UserStore :=
  match datas with
  | [] => us
  | data :: rest => registerAll (snd (postUsersRegister us data)) rest
  end.

Definition singleAccounts (us : UserStore) : Prop :=
  below (userCurrentId us) (users us) = true
  /\ (forall username, (accountsNamed username us <= 1)%nat)
  /\ (forall email, (accountsMailed email us <= 1)%nat).

(** Accounts stay, and new ones go last. *)
Definition appendsUsers (us us' : UserStore) : Prop :=
  below (userCurrentId us) (users us) = true ->
  below (userCurrentId us') (users us') = true
  /\ exists added, users us' = (users us ++ added)%list.

Definition ada : InsertUser.t :=
  InsertUser.mk "Ada" "lovelace" "ada@example.org" "Ada Lovelace" None None.

Definition root : InsertUser.t :=
  InsertUser.mk "root" "toor" "root@example.org" "Root" None (Some "admin").

(** * Properties *)

(** ** [Map] lemmas *)

Section JsMapFacts.

Context {V : Type}.
Implicit Types (m : JsMap.t V) (k : Z) (v : V).

Lemma get_set_same m k v : JsMap.get (JsMap.set m k v) k = Some v.
Proof.
  induction m as [|[k' v'] m IH]; cbn.
  - now rewrite Z.eqb_refl.
  - destruct (k' =? k)%Z eqn:E; cbn.
    + now rewrite Z.eqb_refl.
    + now rewrite E.
Qed.

Lemma get_set_other m k k' v :
  k <> k' -> JsMap.get (JsMap.set m k v) k' = JsMap.get m k'.
Proof.
  intros Hne. induction m as [|[k0 v0] m IH]; cbn.
  - destruct (k =? k')%Z eqn:E; [apply Z.eqb_eq in E; contradiction | reflexivity].
  - destruct (k0 =? k)%Z eqn:E; cbn.
    + apply Z.eqb_eq in E. subst k0.
      destruct (k =? k')%Z eqn:E'; [apply Z.eqb_eq in E'; contradiction | reflexivity].
    + now rewrite IH.
Qed.

(** Writing back what is stored changes nothing. *)
Lemma set_same m k v : JsMap.get m k = Some v -> JsMap.set m k v = m.
Proof.
  induction m as [|[k' v'] m IH]; cbn; [discriminate|].
  destruct (k' =? k)%Z eqn:E.
  - intros [= ->]. apply Z.eqb_eq in E. now subst.
  - intros H. now rewrite IH.
Qed.

Lemma set_set m k v v' : JsMap.set (JsMap.set m k v) k v' = JsMap.set m k v'.
Proof.
  induction m as [|[k0 v0] m IH]; cbn.
  - now rewrite Z.eqb_refl.
  - destruct (k0 =? k)%Z eqn:E; cbn.
    + now rewrite Z.eqb_refl.
    + now rewrite E, IH.
Qed.

Lemma get_In m k v : JsMap.get m k = Some v -> In (k, v) m.
Proof.
  induction m as [|[k' v'] m IH]; cbn; [discriminate|].
  destruct (k' =? k)%Z eqn:E.
  - intros [= ->]. apply Z.eqb_eq in E. subst. now left.
  - intros H. right. now apply IH.
Qed.

Lemma get_None_keys m k : JsMap.get m k = None <-> ~ In k (JsMap.keys m).
Proof.
  induction m as [|[k' v'] m IH]; cbn.
  - tauto.
  - destruct (k' =? k)%Z eqn:E.
    + apply Z.eqb_eq in E. split; [discriminate | intros H; exfalso; apply H; now left].
    + apply Z.eqb_neq in E. rewrite IH. tauto.
Qed.

(** A new key is appended. *)
Lemma set_fresh m k v : JsMap.get m k = None -> JsMap.set m k v = (m ++ [(k, v)])%list.
Proof.
  induction m as [|[k' v'] m IH]; cbn; [reflexivity|].
  destruct (k' =? k)%Z; [discriminate|].
  intros H. now rewrite IH.
Qed.

Lemma keys_set_present m k v v0 :
  JsMap.get m k = Some v0 -> JsMap.keys (JsMap.set m k v) = JsMap.keys m.
Proof.
  unfold JsMap.keys.
  induction m as [|[k' v'] m IH]; cbn; [discriminate|].
  destruct (k' =? k)%Z eqn:E; cbn.
  - intros _. apply Z.eqb_eq in E. now subst.
  - intros H. f_equal. now apply IH.
Qed.

Lemma In_set m k v x :
  In x (JsMap.set m k v) -> x = (k, v) \/ In x m.
Proof.
  induction m as [|[k' v'] m IH]; cbn.
  - intros [H|[]]. now left.
  - destruct (k' =? k)%Z; cbn.
    + intros [H|H]; [now left | right; now right].
    + intros [H|H]; [right; now left |].
      destruct (IH H); [now left | right; now right].
Qed.

End JsMapFacts.

(** Names that stay folded while a proof computes. *)
Arguments Js.toLowerCase : simpl never.
Arguments localUsername : simpl never.
Arguments processHospitalBeds : simpl never.

(** Running the monad: unfold the plumbing and compute. *)
Ltac run :=
  unfold evalM, execM, bind, ret, gets, modify, JsMap.values in *; cbn in *.

(** ** The booking state machine *)

(** C2. A booking request whose target bed record has [availableBeds = 0] is
    refused by POST /api/bookings: the response is an error (404 when the
    hospital is missing or not approved, 400 otherwise) and the store is left
    as it was, so no booking record is created and no bed record changes. *)
Theorem booking_refused_when_exhausted
        (userId : Z) (form : BookingForm.t) (now : Z) (s : MemStorage) (bed : Bed.t) :
  evalM (getBedByHospitalAndType (BookingForm.hospitalId form)
           (TypeRef.Id (BookingForm.bedTypeId form))) s = Some bed ->
  Bed.availableBeds bed = 0 ->
  (evalM (postBookings userId form now) s
     = statusJson 404 (JError "Hospital not found")
   \/ evalM (postBookings userId form now) s
     = statusJson 400 (JError "No beds available of this type"))
  /\ execM (postBookings userId form now) s = s
  /\ bookings (execM (postBookings userId form now) s) = bookings s
  /\ beds (execM (postBookings userId form now) s) = beds s.
Proof.
  intros Hbed Hzero.
  unfold postBookings, getHospital, getBedByHospitalAndType in *. run.
  destruct (JsMap.get (hospitals s) (BookingForm.hospitalId form)) as [h|]; cbn;
    [|now auto].
  destruct (Hospital.approved h); cbn; [|now auto].
  rewrite Hbed, Hzero. cbn. now auto.
Qed.

Lemma booking_refused_when_exhausted_witness :
  let s := execM (postBookings 8 patientForm 1) bookedStore in
  evalM (postBookings 8 patientForm 1) bookedStore
    = statusJson 400 (JError "No beds available of this type")
  /\ s = bookedStore.
Proof.
  destruct (booking_refused_when_exhausted 8 patientForm 1 bookedStore
              (Bed.mk 1 1 (TypeRef.Id 1) 1 0 None) eq_refl eq_refl)
    as [[H|H] [Hs _]].
  - discriminate H.
  - split; [exact H | exact Hs].
Defined.

(** C4. Moving a pending booking to 'approved' or 'rejected' leaves the map
    of bed records as it was, and whenever [updateBookingStatus] does change a
    bed record the booking was 'pending' and the new status is 'canceled'. *)
Theorem only_cancel_adjusts_inventory
        (id : Z) (status : string) (s : MemStorage) (booking : Booking.t) :
  evalM (getBooking id) s = Some booking ->
  (Booking.status booking = "pending" ->
   status = "approved" \/ status = "rejected" ->
   evalM (updateBookingStatus id status) s = Some (setStatus booking status)
   /\ beds (execM (updateBookingStatus id status) s) = beds s)
  /\ (beds (execM (updateBookingStatus id status) s) <> beds s ->
      Booking.status booking = "pending" /\ status = "canceled").
Proof.
  intros Hget.
  unfold updateBookingStatus, getBooking in *. run. rewrite Hget.
  split.
  - intros _ [-> | ->]; rewrite andb_false_r; cbn; auto.
  - destruct (Booking.status booking =? "pending") eqn:E1;
      destruct (status =? "canceled") eqn:E2; cbn;
      try (intros H; now elim H).
    intros _. apply String.eqb_eq in E1, E2. now split.
Qed.

Lemma only_cancel_adjusts_inventory_witness :
  evalM (getBooking 1) bookedStore
    = Some (Booking.mk 1 7 1 1 "Ada" None None "pending" 0)
  /\ beds (execM (updateBookingStatus 1 "rejected") bookedStore) = beds bookedStore.
Proof.
  split; [reflexivity|].
  apply (only_cancel_adjusts_inventory 1 "rejected" bookedStore
           (Booking.mk 1 7 1 1 "Ada" None None "pending" 0) eq_refl);
    [reflexivity | right; reflexivity].
Defined.

(** C10. Canceling a pending booking whose (hospital, bed type) pair has no
    bed record succeeds: the booking comes back with status 'canceled', it is
    stored under its id, and the maps of beds, bed types and hospitals are as
    they were. *)
Theorem cancel_without_bed_record (id : Z) (s : MemStorage) (booking : Booking.t) :
  evalM (getBooking id) s = Some booking ->
  Booking.status booking = "pending" ->
  evalM (getBedByHospitalAndType (Booking.hospitalId booking)
           (TypeRef.Id (Booking.bedTypeId booking))) s = None ->
  evalM (updateBookingStatus id "canceled") s = Some (setStatus booking "canceled")
  /\ beds (execM (updateBookingStatus id "canceled") s) = beds s
  /\ evalM (getBooking id) (execM (updateBookingStatus id "canceled") s)
     = Some (setStatus booking "canceled")
  /\ bedTypes (execM (updateBookingStatus id "canceled") s) = bedTypes s
  /\ hospitals (execM (updateBookingStatus id "canceled") s) = hospitals s.
Proof.
  intros Hget Hpending Hbed.
  unfold updateBookingStatus, getBooking, getBedByHospitalAndType in *. run.
  rewrite Hget, Hpending. cbn. rewrite Hbed. cbn.
  repeat split; try reflexivity.
  apply get_set_same.
Qed.

Lemma cancel_without_bed_record_witness :
  evalM (updateBookingStatus 1 "canceled") orphanStore
    = Some (Booking.mk 1 7 1 1 "Ada" None None "canceled" 0)
  /\ beds (execM (updateBookingStatus 1 "canceled") orphanStore) = beds orphanStore.
Proof.
  destruct (cancel_without_bed_record 1 orphanStore
              (Booking.mk 1 7 1 1 "Ada" None None "pending" 0)
              eq_refl eq_refl eq_refl) as (H1 & H2 & _).
  split; [exact H1 | exact H2].
Defined.

(** ** The directory sync *)

Lemma isApiAvailable_false_iff (apiConfig : ApiConfig) (remote : Remote) :
  isApiAvailable apiConfig remote = false
  <-> apiKey apiConfig = ""
      \/ health remote = None
      \/ exists status, health remote = Some status /\ status <> 200.
Proof.
  unfold isApiAvailable.
  destruct (apiKey apiConfig =? "") eqn:K.
  - apply String.eqb_eq in K. tauto.
  - apply String.eqb_neq in K.
    destruct (health remote) as [st|].
    + destruct (st =? 200)%Z eqn:E.
      * apply Z.eqb_eq in E. subst.
        split; [discriminate|].
        intros [H|[H|(st & [= <-] & H)]]; congruence.
      * apply Z.eqb_neq in E. split; [|reflexivity].
        intros _. right. right. now exists st.
    + tauto.
Qed.

(** C6. When no non-empty API key is configured, or the health probe throws,
    or it answers with a status other than 200, [getHospitalsByLocation]
    returns the stored hospitals with [approved = true], in store order, and
    the store (hospitals, bed types, beds, bookings, counters) is unchanged. *)
Theorem unavailable_serves_local
        (apiConfig : ApiConfig) (remote : Remote) (location : option string)
        (s : MemStorage) :
  apiKey apiConfig = ""
  \/ health remote = None
  \/ (exists status, health remote = Some status /\ status <> 200) ->
  getHospitalsByLocation apiConfig remote location s
  = (filter Hospital.approved (JsMap.values (hospitals s)), s).
Proof.
  intros H. apply isApiAvailable_false_iff in H.
  unfold getHospitalsByLocation. now rewrite H.
Qed.

Lemma unavailable_serves_local_witness :
  getHospitalsByLocation noKey (remoteOf []) (Some "Springfield") oneBedStore
  = (filter Hospital.approved (JsMap.values (hospitals oneBedStore)), oneBedStore).
Proof.
  apply (unavailable_serves_local noKey (remoteOf []) (Some "Springfield") oneBedStore).
  left. reflexivity.
Defined.

(** C9. When the external source is unavailable, [getHospitalsByLocation]
    gives the same hospitals and the same store for any two values of
    [location]. *)
Theorem unavailable_ignores_location
        (apiConfig : ApiConfig) (remote : Remote) (location1 location2 : option string)
        (s : MemStorage) :
  isApiAvailable apiConfig remote = false ->
  getHospitalsByLocation apiConfig remote location1 s
  = getHospitalsByLocation apiConfig remote location2 s.
Proof.
  intros H. unfold getHospitalsByLocation. now rewrite H.
Qed.

Lemma unavailable_ignores_location_witness :
  getHospitalsByLocation withKey remoteDown None oneBedStore
  = getHospitalsByLocation withKey remoteDown (Some "Springfield") oneBedStore.
Proof.
  apply (unavailable_ignores_location withKey remoteDown None (Some "Springfield")
           oneBedStore).
  reflexivity.
Defined.

(** ** Lookups in a keyed map *)

Lemma distinct_NoDup (l : list Z) : distinct l = true <-> NoDup l.
Proof.
  induction l as [|x l IH]; cbn.
  - split; [constructor | reflexivity].
  - rewrite andb_true_iff, negb_true_iff, IH. split.
    + intros [Hx Hl]. constructor; [|assumption].
      intros Hin. assert (existsb (Z.eqb x) l = true) as E; [|congruence].
      apply existsb_exists. exists x. split; [assumption | apply Z.eqb_refl].
    + intros H. inversion H as [|? ? Hx Hl]; subst. split; [|assumption].
      destruct (existsb (Z.eqb x) l) eqn:E; [|reflexivity].
      apply existsb_exists in E. destruct E as (y & Hy & Exy).
      apply Z.eqb_eq in Exy. subst. contradiction.
Qed.

Section Keyed.

Context {V : Type} (idOf : V -> Z).
Implicit Types (m : JsMap.t V) (v : V).

Lemma keyed_cons k v m :
  keyed idOf ((k, v) :: m) = true
  <-> idOf v = k /\ ~ In k (JsMap.keys m) /\ keyed idOf m = true.
Proof.
  unfold keyed. cbn [JsMap.keys map fst snd forallb].
  rewrite !andb_true_iff, Z.eqb_eq, !distinct_NoDup, NoDup_cons_iff.
  tauto.
Qed.

Lemma keyed_In m k v : keyed idOf m = true -> In (k, v) m -> idOf v = k.
Proof.
  unfold keyed. rewrite andb_true_iff, forallb_forall. intros [_ H] Hin.
  apply H in Hin. now apply Z.eqb_eq in Hin.
Qed.

Lemma In_values_key m v :
  keyed idOf m = true -> In v (JsMap.values m) -> In (idOf v) (JsMap.keys m).
Proof.
  intros Hk Hin. apply in_map_iff in Hin. destruct Hin as ([k v'] & <- & Hin).
  cbn. rewrite (keyed_In m k v' Hk Hin). apply in_map_iff. now exists (k, v').
Qed.

(** What [find] returns is stored under its own id. *)
Lemma find_get m (p : V -> bool) v :
  keyed idOf m = true ->
  find p (JsMap.values m) = Some v ->
  JsMap.get m (idOf v) = Some v.
Proof.
  induction m as [|[k0 v0] m IH]; cbn; [discriminate|].
  intros Hk. apply keyed_cons in Hk. destruct Hk as (Hid & Hnew & Hk).
  destruct (p v0).
  - intros [= <-]. now rewrite Hid, Z.eqb_refl.
  - intros Hfind. destruct (k0 =? idOf v)%Z eqn:E.
    + apply Z.eqb_eq in E. exfalso. apply Hnew. rewrite E.
      apply In_values_key; [assumption|]. exact (proj1 (find_some _ _ Hfind)).
    + now apply IH.
Qed.

(** Replacing the record that [find] returns by one that still satisfies the
    test makes [find] return the replacement. *)
Lemma find_set m (p : V -> bool) v v' :
  keyed idOf m = true ->
  find p (JsMap.values m) = Some v ->
  p v' = true ->
  find p (JsMap.values (JsMap.set m (idOf v) v')) = Some v'.
Proof.
  induction m as [|[k0 v0] m IH]; cbn; [discriminate|].
  intros Hk. apply keyed_cons in Hk. destruct Hk as (Hid & Hnew & Hk).
  destruct (p v0) eqn:P.
  - intros [= <-] Hp. rewrite Hid, Z.eqb_refl. cbn. now rewrite Hp.
  - intros Hfind Hp. destruct (k0 =? idOf v)%Z eqn:E.
    + apply Z.eqb_eq in E. exfalso. apply Hnew. rewrite E.
      apply In_values_key; [assumption|]. exact (proj1 (find_some _ _ Hfind)).
    + cbn. rewrite P. now apply IH.
Qed.

Lemma keyed_set m k v v0 :
  keyed idOf m = true -> JsMap.get m k = Some v0 -> idOf v = k ->
  keyed idOf (JsMap.set m k v) = true.
Proof.
  intros Hk Hget Hid. unfold keyed in *.
  rewrite andb_true_iff in *. destruct Hk as [Hd Hf].
  rewrite (keys_set_present m k v v0 Hget). split; [assumption|].
  rewrite forallb_forall in *. intros x Hx.
  apply In_set in Hx. destruct Hx as [-> | Hx]; [|now apply Hf].
  cbn. now apply Z.eqb_eq.
Qed.

End Keyed.

(** ** Book, cancel, cancel again *)

(** C3. A booking request for an approved hospital whose bed record has
    [availableBeds = a > 0] is accepted and takes one bed; canceling the
    booking while it is pending gives back exactly the map of bed records
    from before the booking, so [availableBeds] is [a] again; canceling it
    a second time is refused with status 400, and nothing in the store
    changes. *)
Theorem book_cancel_restores_once
        (userId : Z) (form : BookingForm.t) (now : Z) (s : MemStorage)
        (hospital : Hospital.t) (bed : Bed.t) :
  evalM (getHospital (BookingForm.hospitalId form)) s = Some hospital ->
  Hospital.approved hospital = true ->
  evalM (getBedByHospitalAndType (BookingForm.hospitalId form)
           (TypeRef.Id (BookingForm.bedTypeId form))) s = Some bed ->
  Bed.availableBeds bed > 0 ->
  keyed Bed.id (beds s) = true ->
  Js.orElse (BookingForm.status form) "pending" = "pending" ->
  let id := bookingCurrentId s in
  let booking :=
    Booking.mk id userId (BookingForm.hospitalId form) (BookingForm.bedTypeId form)
      (BookingForm.patientName form) (Js.orNull (BookingForm.patientPhone form))
      (Js.orNull (BookingForm.notes form)) "pending" now in
  let s1 := execM (postBookings userId form now) s in
  let s2 := execM (patchUserBookingCancel userId id) s1 in
  let s3 := execM (patchUserBookingCancel userId id) s2 in
  evalM (postBookings userId form now) s = statusJson 201 (JBooking (Some booking))
  /\ evalM (getBed (Bed.id bed)) s1
     = Some (mergeBed bed (availableOnly (Bed.availableBeds bed - 1)))
  /\ evalM (patchUserBookingCancel userId id) s1
     = json (JBooking (Some (setStatus booking "canceled")))
  /\ beds s2 = beds s
  /\ evalM (getBed (Bed.id bed)) s2 = Some bed
  /\ evalM (patchUserBookingCancel userId id) s2
     = statusJson 400 (JError "Can only cancel pending bookings")
  /\ s3 = s2.
Proof.
  intros Hhosp Happroved Hbed Hpos Hkeyed Hstatus.
  pose proof (find_get Bed.id (beds s) _ bed Hkeyed Hbed) as Hget.
  assert (Hfree : (Bed.availableBeds bed <=? 0)%Z = false) by (apply Z.leb_gt; lia).
  assert (Hgt : (Bed.availableBeds bed >? 0)%Z = true) by (apply Z.gtb_lt; lia).
  set (bed1 := mergeBed bed (availableOnly (Bed.availableBeds bed - 1))).
  assert (Hbed1 : evalM (getBedByHospitalAndType (BookingForm.hospitalId form)
                     (TypeRef.Id (BookingForm.bedTypeId form)))
                    (execM (postBookings userId form now) s) = Some bed1
                  /\ beds (execM (postBookings userId form now) s)
                     = JsMap.set (beds s) (Bed.id bed) bed1).
  { unfold postBookings, createBooking, getHospital, getBedByHospitalAndType,
      nextBookingId, putBooking, updateBed, getBed, putBed in *. run.
    rewrite Hhosp. cbn. rewrite Happroved. cbn. rewrite Hbed. cbn.
    rewrite Hfree. cbn. rewrite Hbed. cbn. rewrite Hgt. cbn. rewrite Hget. cbn.
    split; [|reflexivity].
    apply (find_set Bed.id); try assumption.
    apply find_some in Hbed. exact (proj2 Hbed). }
  destruct Hbed1 as [Hfind1 Hbeds1].
  cbv zeta.
  unfold postBookings, patchUserBookingCancel, createBooking, updateBookingStatus,
    getHospital, getBedByHospitalAndType, getBooking, nextBookingId, putBooking,
    updateBed, getBed, putBed in *.
  run.
  rewrite Hhosp in *. cbn in *. rewrite Happroved in *. cbn in *.
  rewrite Hbed in *. cbn in *. rewrite Hfree in *. cbn in *.
  rewrite Hbed in *. cbn in *. rewrite Hgt in *. cbn in *.
  rewrite Hget in *. cbn in *. rewrite Hstatus in *.
  rewrite !get_set_same. cbn. rewrite Z.eqb_refl. cbn.
  rewrite !get_set_same. cbn.
  rewrite Hfind1. cbn. rewrite !get_set_same. cbn.
  rewrite !get_set_same. cbn. rewrite Z.eqb_refl. cbn.
  rewrite !set_set.
  assert (Hback : mergeBed bed1 (availableOnly (Bed.availableBeds bed - 1 + 1)) = bed).
  { unfold bed1, mergeBed, availableOnly, over. destruct bed; cbn. f_equal. lia. }
  fold bed1. rewrite Hback.
  rewrite (set_same (beds s) (Bed.id bed) bed Hget).
  repeat split; reflexivity.
Qed.

Lemma book_cancel_restores_once_witness :
  let s1 := execM (postBookings 7 patientForm 0) oneBedStore in
  let s2 := execM (patchUserBookingCancel 7 1) s1 in
  evalM (getBed 1) oneBedStore = Some (Bed.mk 1 1 (TypeRef.Id 1) 1 1 None)
  /\ evalM (getBed 1) s1 = Some (Bed.mk 1 1 (TypeRef.Id 1) 1 0 None)
  /\ beds s2 = beds oneBedStore
  /\ evalM (patchUserBookingCancel 7 1) s2
     = statusJson 400 (JError "Can only cancel pending bookings")
  /\ execM (patchUserBookingCancel 7 1) s2 = s2.
Proof.
  pose proof (book_cancel_restores_once 7 patientForm 0 oneBedStore
                (Hospital.mk 1 "city" "secret" "City Hospital" "city@example.org"
                   "1 Main St" "Springfield" "IL" "62701" "555-0100"
                   None None None true)
                (Bed.mk 1 1 (TypeRef.Id 1) 1 1 None)
                eq_refl eq_refl eq_refl eq_refl eq_refl eq_refl) as H.
  cbv zeta in H. destruct H as (_ & H1 & _ & H2 & _ & H3 & H4).
  cbv zeta. split; [reflexivity|].
  split; [exact H1|]. split; [exact H2|]. split; [exact H3 | exact H4].
Defined.

(** ** Creating bed records *)

Lemma below_get_None {V} (m : JsMap.t V) (next : Z) :
  below next m = true -> JsMap.get m next = None.
Proof.
  unfold below. induction m as [|[k v] m IH]; cbn; [reflexivity|].
  rewrite andb_true_iff, Z.ltb_lt. intros [Hlt Hm].
  destruct (k =? next)%Z eqn:E; [apply Z.eqb_eq in E; lia | now apply IH].
Qed.

Lemma below_fresh {V} (m : JsMap.t V) (next : Z) :
  below next m = true -> ~ In next (JsMap.keys m).
Proof. intros H. apply get_None_keys. now apply below_get_None. Qed.

(** C5, as the code has it. [createBed] makes no check and has no failing
    path: in a store whose bed ids came from the counter it returns a record
    with the next id, which no stored bed has, and appends it, whether or not
    the pair already has a record. The check is in POST /api/hospital/beds:
    when the pair has a record the handler updates that record in place and
    answers 200 with it, creating nothing; when it has none the handler
    answers 201 with the record [createBed] made. *)
Theorem createBed_always_creates
        (hospitalId : Z) (form : BedForm.t) (s : MemStorage) :
  keyed Bed.id (beds s) = true ->
  below (bedCurrentId s) (beds s) = true ->
  let data := bedData hospitalId form in
  let newBed :=
    Bed.mk (bedCurrentId s) hospitalId (TypeRef.Id (BedForm.bedTypeId form))
      (BedForm.totalBeds form) (BedForm.availableBeds form)
      (priceOrNull (BedForm.pricePerNight form)) in
  (evalM (createBed data) s = newBed
   /\ ~ In (Bed.id newBed) (JsMap.keys (beds s))
   /\ beds (execM (createBed data) s) = (beds s ++ [(Bed.id newBed, newBed)])%list
   /\ bedCurrentId (execM (createBed data) s) = bedCurrentId s + 1)
  /\ (forall existingBed,
        evalM (getBedByHospitalAndType hospitalId
                 (TypeRef.Id (BedForm.bedTypeId form))) s = Some existingBed ->
        evalM (postHospitalBeds hospitalId form) s
          = json (JBed (Some (mergeBed existingBed (asPartial data))))
        /\ JsMap.keys (beds (execM (postHospitalBeds hospitalId form) s))
           = JsMap.keys (beds s)
        /\ bedCurrentId (execM (postHospitalBeds hospitalId form) s)
           = bedCurrentId s)
  /\ (evalM (getBedByHospitalAndType hospitalId
               (TypeRef.Id (BedForm.bedTypeId form))) s = None ->
      evalM (postHospitalBeds hospitalId form) s = statusJson 201 (JBed (Some newBed))
      /\ execM (postHospitalBeds hospitalId form) s = execM (createBed data) s).
Proof.
  intros Hkeyed Hbelow. cbv zeta.
  pose proof (below_get_None _ _ Hbelow) as Hnone.
  split; [|split].
  - unfold createBed. run. repeat split.
    + now apply below_fresh.
    + now apply set_fresh.
  - intros existingBed Hfind.
    pose proof (find_get Bed.id (beds s) _ existingBed Hkeyed Hfind) as Hget.
    unfold postHospitalBeds, getBedByHospitalAndType, updateBed, getBed, putBed in *.
    run. rewrite Hfind. cbn. rewrite Hget. cbn.
    repeat split. now apply keys_set_present with (v0 := existingBed).
  - intros Hfind.
    unfold postHospitalBeds, getBedByHospitalAndType, createBed in *.
    run. rewrite Hfind. cbn. now split.
Qed.

Lemma createBed_always_creates_witness :
  evalM (getBedByHospitalAndType 1 (TypeRef.Id 1)) oneBedStore
    = Some (Bed.mk 1 1 (TypeRef.Id 1) 1 1 None)
  /\ evalM (createBed (bedData 1 (BedForm.mk 1 9 9 None))) oneBedStore
     = Bed.mk 2 1 (TypeRef.Id 1) 9 9 None
  /\ evalM (postHospitalBeds 1 (BedForm.mk 1 9 9 None)) oneBedStore
     = json (JBed (Some (Bed.mk 1 1 (TypeRef.Id 1) 9 9 None))).
Proof.
  destruct (createBed_always_creates 1 (BedForm.mk 1 9 9 None) oneBedStore
              eq_refl eq_refl) as ((H1 & _) & H2 & _).
  split; [reflexivity|]. split; [exact H1|].
  exact (proj1 (H2 _ eq_refl)).
Defined.

(** C5, as stated, fails: the pair (hospital 1, bed type 1) has a record in
    [oneBedStore], and [createBed] for that pair returns a new record, with
    id 2, after which the hospital has two records for the pair. *)
Lemma createBed_accepts_existing_pair :
  evalM (getBedByHospitalAndType 1 (TypeRef.Id 1)) oneBedStore
    = Some (Bed.mk 1 1 (TypeRef.Id 1) 1 1 None)
  /\ evalM (createBed (InsertBed.mk 1 (TypeRef.Id 1) 9 9 None)) oneBedStore
     = Bed.mk 2 1 (TypeRef.Id 1) 9 9 None
  /\ evalM (getBedsByHospital 1)
       (execM (createBed (InsertBed.mk 1 (TypeRef.Id 1) 9 9 None)) oneBedStore)
     = [Bed.mk 1 1 (TypeRef.Id 1) 1 1 None; Bed.mk 2 1 (TypeRef.Id 1) 9 9 None].
Proof. repeat split; reflexivity. Qed.

(** ** The directory sync never doubles a hospital *)

Lemma storeBed_hospitals hospitalId bedTypeId apiBed s :
  sameHospitals s (execM (storeBed hospitalId bedTypeId apiBed) s).
Proof.
  unfold sameHospitals, storeBed, getBedByHospitalAndType, updateBed, getBed,
    putBed, createBed. run.
  destruct (find _ _) as [b|]; cbn; [|now split].
  destruct (JsMap.get (beds s) (Bed.id b)); cbn; now split.
Qed.

Lemma resolveBedType_hospitals bedTypeMap apiBed s :
  sameHospitals s (execM (resolveBedType bedTypeMap apiBed) s).
Proof.
  unfold sameHospitals, resolveBedType, createBedType. run.
  destruct (Js.get _ _) as [n| |]; cbn; try now split.
  destruct (n =? 0)%Z; cbn; now split.
Qed.

Lemma ingestBed_hospitals hospitalId bedTypeMap apiBed s :
  sameHospitals s (execM (ingestBed hospitalId bedTypeMap apiBed) s).
Proof.
  unfold ingestBed, execM, bind.
  pose proof (resolveBedType_hospitals bedTypeMap apiBed s) as H1.
  unfold execM in H1. destruct (resolveBedType bedTypeMap apiBed s) as [r s1].
  pose proof (storeBed_hospitals hospitalId (fst r) apiBed s1) as H2.
  unfold execM in H2. destruct (storeBed hospitalId (fst r) apiBed s1) as [u s2].
  cbn in *. unfold sameHospitals in *. destruct H1, H2. split; congruence.
Qed.

Lemma ingestBeds_hospitals hospitalId apiBeds :
  forall bedTypeMap s,
    sameHospitals s (execM (ingestBeds hospitalId bedTypeMap apiBeds) s).
Proof.
  induction apiBeds as [|apiBed rest IH]; intros bedTypeMap s; cbn.
  - now split.
  - unfold execM, bind.
    pose proof (ingestBed_hospitals hospitalId bedTypeMap apiBed s) as H1.
    unfold execM in H1. destruct (ingestBed hospitalId bedTypeMap apiBed s) as [o s1].
    specialize (IH o s1). unfold execM in IH.
    unfold sameHospitals in *. cbn in *. destruct H1, IH. split; congruence.
Qed.

Lemma processHospitalBeds_hospitals hospitalId apiBeds s :
  sameHospitals s (execM (processHospitalBeds hospitalId apiBeds) s).
Proof.
  unfold processHospitalBeds, getAllBedTypes, execM, bind, gets.
  apply ingestBeds_hospitals.
Qed.

Lemma find_none_filter {A} (p : A -> bool) (l : list A) :
  find p l = None -> filter p l = [].
Proof.
  induction l as [|x l IH]; cbn; [reflexivity|].
  destruct (p x); [discriminate | assumption].
Qed.

Lemma find_some_filter {A} (p : A -> bool) (l : list A) (x : A) :
  find p l = Some x -> (1 <= List.length (filter p l))%nat.
Proof.
  induction l as [|y l IH]; cbn; [discriminate|].
  destruct (p y); cbn; [lia | assumption].
Qed.

(** What one turn of the loop over the remote hospitals does to the map of
    hospitals: nothing when the username is taken, one appended record with
    the derived username otherwise. *)
Lemma syncHospital_effect (apiHospital : ApiHospital.t) (s : MemStorage) :
  below (hospitalCurrentId s) (hospitals s) = true ->
  let username := localUsername (ApiHospital.id apiHospital) in
  let s' := execM (syncHospital apiHospital) s in
  (exists found, evalM (getHospitalByUsername username) s = Some found
                 /\ s' = s)
  \/ (evalM (getHospitalByUsername username) s = None
      /\ exists hospital,
           Hospital.username hospital = username
           /\ hospitals s'
              = (hospitals s ++ [(hospitalCurrentId s, hospital)])%list
           /\ hospitalCurrentId s' = hospitalCurrentId s + 1).
Proof.
  intros Hbelow. cbv zeta.
  pose proof (below_get_None _ _ Hbelow) as Hnone.
  unfold syncHospital, execM, evalM, bind.
  unfold getHospitalByUsername at 1 2 3. unfold gets. cbn.
  destruct (find _ _) as [found|] eqn:Hfind.
  - left. exists found. now split.
  - right. split; [reflexivity|].
    unfold createHospital, updateHospitalApproval, getHospital, putHospital,
      bind, gets, modify, ret. cbn.
    rewrite get_set_same. cbn. rewrite set_set.
    match goal with
    | |- context [processHospitalBeds ?h ?l ?st] =>
        pose proof (processHospitalBeds_hospitals h l st) as Hp;
        unfold execM in Hp; destruct (processHospitalBeds h l st) as [u s2]
    end.
    cbn in *. destruct Hp as [Hh Hc].
    eexists. split; [|split].
    2:{ rewrite Hh. now apply set_fresh. }
    + reflexivity.
    + exact Hc.
Qed.

Lemma below_app {V} (m : JsMap.t V) (next k : Z) (v : V) :
  below next m = true -> k = next ->
  below (next + 1) (m ++ [(k, v)])%list = true.
Proof.
  unfold below. rewrite forallb_app, !forallb_forall. intros H ->.
  apply andb_true_iff. split.
  - apply forallb_forall. intros x Hx. specialize (H x Hx).
    apply Z.ltb_lt in H. apply Z.ltb_lt. lia.
  - cbn. rewrite andb_true_r. apply Z.ltb_lt. lia.
Qed.

Lemma noDouble_refl username s :
  below (hospitalCurrentId s) (hospitals s) = true -> noDouble username s s.
Proof. unfold noDouble. intros H. repeat split; [assumption | lia | lia]. Qed.

Lemma noDouble_trans username s1 s2 s3 :
  noDouble username s1 s2 -> noDouble username s2 s3 -> noDouble username s1 s3.
Proof. unfold noDouble. intros (_ & ? & ?) (? & ? & ?). repeat split; [assumption | lia | lia]. Qed.

Lemma syncHospital_noDouble username apiHospital s :
  below (hospitalCurrentId s) (hospitals s) = true ->
  noDouble username s (execM (syncHospital apiHospital) s).
Proof.
  intros Hbelow.
  destruct (syncHospital_effect apiHospital s Hbelow)
    as [(found & _ & ->) | (Hnone & hospital & Hname & Hh & Hc)].
  - now apply noDouble_refl.
  - unfold noDouble, recordsFor. rewrite Hh, Hc.
    split; [now apply below_app|].
    unfold JsMap.values. rewrite map_app, filter_app, length_app.
    cbn [map snd filter].
    destruct (sameUsername username hospital) eqn:E; cbn [List.length]; [|lia].
    unfold getHospitalByUsername, evalM, gets in Hnone. cbn in Hnone.
    apply find_none_filter in Hnone.
    assert (Hsame : filter (sameUsername username) (map snd (hospitals s))
                    = filter (sameUsername (localUsername (ApiHospital.id apiHospital)))
                        (map snd (hospitals s))).
    { apply filter_ext. intros h. unfold sameUsername in *.
      apply String.eqb_eq in E. rewrite Hname in E. now rewrite E. }
    rewrite Hsame. unfold JsMap.values in Hnone.
    fold (sameUsername (localUsername (ApiHospital.id apiHospital))) in Hnone.
    rewrite Hnone. cbn [List.length]. lia.
Qed.

Lemma syncHospitals_noDouble username data :
  forall acc s,
    below (hospitalCurrentId s) (hospitals s) = true ->
    noDouble username s (execM (syncHospitals data acc) s).
Proof.
  induction data as [|apiHospital rest IH]; intros acc s Hbelow; cbn.
  - now apply noDouble_refl.
  - unfold execM, bind.
    pose proof (syncHospital_noDouble username apiHospital s Hbelow) as H1.
    unfold execM in H1. destruct (syncHospital apiHospital s) as [h s1]. cbn in H1.
    apply noDouble_trans with (s2 := s1); [assumption|].
    apply IH. exact (proj1 H1).
Qed.

Lemma getHospitalsByLocation_noDouble username apiConfig remote location s :
  below (hospitalCurrentId s) (hospitals s) = true ->
  noDouble username s (execM (getHospitalsByLocation apiConfig remote location) s).
Proof.
  intros Hbelow. unfold getHospitalsByLocation.
  destruct (isApiAvailable apiConfig remote); cbn; [|now apply noDouble_refl].
  destruct (listHospitals remote (params location)); [|now apply noDouble_refl].
  now apply syncHospitals_noDouble.
Qed.

Lemma syncs_noDouble username calls :
  forall s,
    below (hospitalCurrentId s) (hospitals s) = true ->
    noDouble username s (execM (syncs calls) s).
Proof.
  induction calls as [|call rest IH]; intros s Hbelow; cbn.
  - now apply noDouble_refl.
  - unfold execM, bind.
    pose proof (getHospitalsByLocation_noDouble username (callConfig call)
                  (callRemote call) (callLocation call) s Hbelow) as H1.
    unfold execM in H1.
    destruct (getHospitalsByLocation _ _ _ s) as [l s1]. cbn in H1.
    apply noDouble_trans with (s2 := s1); [assumption|].
    apply IH. exact (proj1 H1).
Qed.

Lemma syncHospital_present apiHospital s :
  below (hospitalCurrentId s) (hospitals s) = true ->
  (1 <= recordsFor (localUsername (ApiHospital.id apiHospital))
          (execM (syncHospital apiHospital) s))%nat.
Proof.
  intros Hbelow.
  destruct (syncHospital_effect apiHospital s Hbelow)
    as [(found & Hfound & ->) | (_ & hospital & Hname & Hh & _)].
  - unfold getHospitalByUsername, evalM, gets in Hfound. cbn in Hfound.
    now apply find_some_filter in Hfound.
  - unfold recordsFor. rewrite Hh.
    unfold JsMap.values. rewrite map_app, filter_app, length_app.
    cbn [map snd filter].
    assert (E : sameUsername (localUsername (ApiHospital.id apiHospital)) hospital = true).
    { unfold sameUsername. rewrite Hname. apply String.eqb_refl. }
    rewrite E. cbn [List.length]. lia.
Qed.

Lemma syncHospitals_present apiHospital data :
  forall acc s,
    below (hospitalCurrentId s) (hospitals s) = true ->
    In apiHospital data ->
    (1 <= recordsFor (localUsername (ApiHospital.id apiHospital))
            (execM (syncHospitals data acc) s))%nat.
Proof.
  induction data as [|first rest IH]; intros acc s Hbelow Hin; [contradiction|].
  cbn [syncHospitals]. unfold execM, bind.
  pose proof (syncHospital_noDouble (localUsername (ApiHospital.id apiHospital))
                first s Hbelow) as H1.
  pose proof (syncHospital_present first s Hbelow) as H2.
  unfold execM in H1, H2. destruct (syncHospital first s) as [h s1].
  cbn [snd] in H1, H2. destruct H1 as (Hbelow1 & _ & _).
  destruct Hin as [-> | Hin].
  - pose proof (syncHospitals_noDouble
                  (localUsername (ApiHospital.id apiHospital)) rest
                  (acc ++ [h])%list s1 Hbelow1) as (_ & Hle & _).
    unfold execM in Hle. lia.
  - now apply IH.
Qed.

(** C7. In a store whose hospital ids came from the counter, any sequence of
    directory syncs leaves every username with at least the records it had
    and with at most one if it had none: no sync adds a record for a
    username that has one. In particular, once an available sync has
    returned a remote hospital, the derived username 'hospital_<id>' has a
    record, and later syncs, whatever they return, keep the number of its
    records as it is. *)
Theorem sync_never_doubles
        (calls : list SyncCall) (username : string) (s : MemStorage) :
  below (hospitalCurrentId s) (hospitals s) = true ->
  ((recordsFor username s <= recordsFor username (execM (syncs calls) s))%nat
   /\ (recordsFor username (execM (syncs calls) s)
       <= Nat.max 1 (recordsFor username s))%nat)
  /\ forall call data apiHospital,
       isApiAvailable (callConfig call) (callRemote call) = true ->
       listHospitals (callRemote call) (params (callLocation call)) = Some data ->
       In apiHospital data ->
       let mapped := localUsername (ApiHospital.id apiHospital) in
       let s1 := execM (syncs [call]) s in
       (1 <= recordsFor mapped s1)%nat
       /\ recordsFor mapped (execM (syncs calls) s1) = recordsFor mapped s1.
Proof.
  intros Hbelow. split.
  - destruct (syncs_noDouble username calls s Hbelow) as (_ & H1 & H2). now split.
  - intros call data apiHospital Havailable Hdata Hin. cbv zeta.
    assert (Hs1 : execM (syncs [call]) s = execM (syncHospitals data []) s).
    { cbn [syncs]. unfold execM, bind, getHospitalsByLocation.
      rewrite Havailable, Hdata. cbn [negb].
      now destruct (syncHospitals data [] s). }
    rewrite Hs1.
    pose proof (syncHospitals_present apiHospital data [] s Hbelow Hin) as Hone.
    split; [assumption|].
    pose proof (syncHospitals_noDouble
                  (localUsername (ApiHospital.id apiHospital)) data [] s Hbelow)
      as (Hbelow1 & _ & _).
    destruct (syncs_noDouble (localUsername (ApiHospital.id apiHospital)) calls
                _ Hbelow1) as (_ & H1 & H2).
    lia.
Qed.

Lemma sync_never_doubles_witness :
  let call := mkCall withKey (remoteOf [remoteHospital "42" []]) None in
  recordsFor (localUsername "42") newMemStorage = 0%nat
  /\ recordsFor (localUsername "42") (execM (syncs [call]) newMemStorage) = 1%nat
  /\ (recordsFor (localUsername "42") (execM (syncs [call; call; call]) newMemStorage)
      <= 1)%nat.
Proof.
  cbv zeta. split; [reflexivity|]. split; [reflexivity|].
  exact (proj2 (proj1 (sync_never_doubles
                         [mkCall withKey (remoteOf [remoteHospital "42" []]) None;
                          mkCall withKey (remoteOf [remoteHospital "42" []]) None;
                          mkCall withKey (remoteOf [remoteHospital "42" []]) None]
                         (localUsername "42") newMemStorage eq_refl))).
Defined.

(** ** More on maps: replacing a record, counting records *)

Section Replace.

Context {V : Type}.
Implicit Types (m : JsMap.t V) (k : Z) (v : V).

Lemma In_set_new m k v : In (k, v) (JsMap.set m k v).
Proof.
  induction m as [|[k0 v0] m IH]; cbn; [now left|].
  destruct (k0 =? k)%Z; [now left | now right].
Qed.

Lemma In_set_old m k v x : In x m -> fst x <> k -> In x (JsMap.set m k v).
Proof.
  induction m as [|[k0 v0] m IH]; cbn; [contradiction|].
  intros [<- | Hin] Hne.
  - cbn in Hne. destruct (k0 =? k)%Z eqn:E; [apply Z.eqb_eq in E; contradiction|].
    now left.
  - destruct (k0 =? k)%Z; right; [assumption | now apply IH].
Qed.

Lemma In_set_cases m k v x :
  NoDup (JsMap.keys m) -> In x (JsMap.set m k v) ->
  x = (k, v) \/ (In x m /\ fst x <> k).
Proof.
  induction m as [|[k0 v0] m IH]; cbn.
  - intros _ [<- | []]. now left.
  - intros Hnd. inversion Hnd as [|? ? Hnew Hnd']; subst.
    destruct (k0 =? k)%Z eqn:E; cbn.
    + apply Z.eqb_eq in E. subst k0. intros [<- | Hin]; [now left|].
      right. split; [now right|]. intros <-. apply Hnew.
      apply in_map_iff. now exists x.
    + apply Z.eqb_neq in E. intros [<- | Hin].
      * right. split; [now left | exact E].
      * destruct (IH Hnd' Hin) as [-> | [H1 H2]]; [now left|].
        right. split; [now right | assumption].
Qed.

Lemma count_set (p : V -> bool) m k v v0 :
  JsMap.get m k = Some v0 ->
  (List.length (filter p (JsMap.values (JsMap.set m k v)))
   + (if p v0 then 1 else 0)
   = List.length (filter p (JsMap.values m)) + (if p v then 1 else 0))%nat.
Proof.
  unfold JsMap.values.
  induction m as [|[k0 v1] m IH]; cbn; [discriminate|].
  destruct (k0 =? k)%Z eqn:E; cbn.
  - intros [= ->]. destruct (p v), (p v0); cbn; lia.
  - intros Hget. specialize (IH Hget). destruct (p v1); cbn; lia.
Qed.

Lemma below_In next m k v : below next m = true -> In (k, v) m -> k < next.
Proof.
  unfold below. rewrite forallb_forall. intros H Hin.
  apply H in Hin. now apply Z.ltb_lt in Hin.
Qed.

Lemma below_set next m k v :
  below next m = true -> k < next -> below next (JsMap.set m k v) = true.
Proof.
  unfold below. rewrite !forallb_forall. intros H Hk x Hx.
  apply In_set in Hx. destruct Hx as [-> | Hx]; [|now apply H].
  cbn. now apply Z.ltb_lt.
Qed.

Lemma keyed_NoDup (idOf : V -> Z) m : keyed idOf m = true -> NoDup (JsMap.keys m).
Proof.
  unfold keyed. rewrite andb_true_iff. intros [H _]. now apply distinct_NoDup.
Qed.

Lemma keyed_app (idOf : V -> Z) m k v :
  keyed idOf m = true -> ~ In k (JsMap.keys m) -> idOf v = k ->
  keyed idOf (m ++ [(k, v)])%list = true.
Proof.
  unfold keyed. rewrite !andb_true_iff, !distinct_NoDup.
  intros [Hnd Hall] Hnew Hid. split.
  - unfold JsMap.keys. rewrite map_app. cbn.
    apply NoDup_app.
    + exact Hnd.
    + repeat constructor. intros [].
    + intros x Hx [<- | []]. now apply Hnew.
  - rewrite forallb_app, Hall. cbn. rewrite andb_true_r. now apply Z.eqb_eq.
Qed.

End Replace.

Lemma typeRef_eqb_eq (a b : TypeRef.t) : TypeRef.eqb a b = true <-> a = b.
Proof.
  destruct a as [n|k], b as [m|l]; cbn.
  - rewrite Z.eqb_eq. split; congruence.
  - split; discriminate.
  - split; discriminate.
  - rewrite String.eqb_eq. split; congruence.
Qed.

Lemma bedFor_true hospitalId bedTypeId bed :
  bedFor hospitalId bedTypeId bed = true
  <-> Bed.hospitalId bed = hospitalId /\ Bed.bedTypeId bed = bedTypeId.
Proof.
  unfold bedFor. now rewrite andb_true_iff, Z.eqb_eq, typeRef_eqb_eq.
Qed.

Lemma pending_nonneg s hospitalId bedTypeId : 0 <= pending s hospitalId bedTypeId.
Proof. unfold pending. lia. Qed.

Lemma In_get {V} (idOf : V -> Z) (m : JsMap.t V) (v : V) :
  keyed idOf m = true -> In v (JsMap.values m) -> JsMap.get m (idOf v) = Some v.
Proof.
  induction m as [|[k0 v0] m IH]; cbn; [contradiction|].
  intros Hk. apply keyed_cons in Hk. destruct Hk as (Hid & Hnew & Hk).
  intros [-> | Hin].
  - now rewrite Hid, Z.eqb_refl.
  - destruct (k0 =? idOf v)%Z eqn:E.
    + apply Z.eqb_eq in E. exfalso. apply Hnew. rewrite E.
      now apply In_values_key.
    + now apply IH.
Qed.

(** ** The store stays consistent *)

Lemma In_values_replaced (m : JsMap.t Bed.t) (bed bed1 x : Bed.t) :
  keyed Bed.id m = true ->
  In x (JsMap.values (JsMap.set m (Bed.id bed) bed1)) ->
  x = bed1 \/ (In x (JsMap.values m) /\ Bed.id x <> Bed.id bed).
Proof.
  intros Hk Hin. apply in_map_iff in Hin. destruct Hin as ([k' x'] & Hx & Hin).
  cbn in Hx. subst x'.
  apply In_set_cases in Hin; [|now apply keyed_NoDup with (idOf := Bed.id)].
  destruct Hin as [[= _ ->] | [Hin Hne]]; [now left|].
  right. cbn in Hne. rewrite <- (keyed_In Bed.id m k' x Hk Hin) in Hne.
  split; [|assumption]. apply in_map_iff. now exists (k', x).
Qed.

Lemma In_values_kept (m : JsMap.t Bed.t) (bed bed1 x : Bed.t) :
  keyed Bed.id m = true ->
  In x (JsMap.values m) -> Bed.id x <> Bed.id bed ->
  In x (JsMap.values (JsMap.set m (Bed.id bed) bed1)).
Proof.
  intros Hk Hin Hne. apply in_map_iff in Hin. destruct Hin as ([k' x'] & Hx & Hin).
  cbn in Hx. subst x'. apply in_map_iff. exists (k', x). split; [reflexivity|].
  apply In_set_old; [assumption|]. cbn.
  now rewrite <- (keyed_In Bed.id m k' x Hk Hin).
Qed.

Lemma In_values_new (m : JsMap.t Bed.t) (k : Z) (bed1 : Bed.t) :
  In bed1 (JsMap.values (JsMap.set m k bed1)).
Proof. apply in_map_iff. exists (k, bed1). split; [reflexivity | apply In_set_new]. Qed.

Lemma consistent_beds_same (s s' : MemStorage) :
  consistent s ->
  beds s' = beds s ->
  bedCurrentId s' = bedCurrentId s ->
  below (bookingCurrentId s') (bookings s') = true ->
  (forall hospitalId bedTypeId,
      pending s' hospitalId bedTypeId <= pending s hospitalId bedTypeId) ->
  consistent s'.
Proof.
  intros [Hk Hb Hbk Hu Hh Hbacked] Hbeds Hnext Hbelow Hle.
  constructor; rewrite ?Hbeds, ?Hnext; try assumption.
  - intros bed Hin. destruct (Hh bed Hin) as [H0 H1]. split; [assumption|].
    specialize (Hle (Bed.hospitalId bed) (Bed.bedTypeId bed)). lia.
  - intros hospitalId bedTypeId Hpos. apply Hbacked.
    specialize (Hle hospitalId bedTypeId). lia.
Qed.

Lemma consistent_bed_replaced
      (s s' : MemStorage) (hospitalId : Z) (bedTypeId : TypeRef.t) (bed : Bed.t)
      (a' : Z) :
  consistent s ->
  find (bedFor hospitalId bedTypeId) (JsMap.values (beds s)) = Some bed ->
  beds s' = JsMap.set (beds s) (Bed.id bed) (mergeBed bed (availableOnly a')) ->
  bedCurrentId s' = bedCurrentId s ->
  below (bookingCurrentId s') (bookings s') = true ->
  0 <= a' ->
  (forall h t, bedFor h t bed = false -> pending s' h t <= pending s h t) ->
  a' + pending s' hospitalId bedTypeId
  <= Bed.availableBeds bed + pending s hospitalId bedTypeId ->
  consistent s'.
Proof.
  intros [Hk Hb Hbk Hu Hh Hbacked] Hfind Hbeds Hnext Hbelow Ha Hother Hpair.
  pose proof (find_get Bed.id (beds s) _ bed Hk Hfind) as Hget.
  apply find_some in Hfind. destruct Hfind as [Hin Hfor].
  apply bedFor_true in Hfor. destruct Hfor as [Hhosp Htype].
  set (bed1 := mergeBed bed (availableOnly a')) in *.
  assert (Hsame : forall h t, bedFor h t bed1 = bedFor h t bed) by reflexivity.
  assert (Hdiff : forall x, In x (JsMap.values (beds s)) -> Bed.id x <> Bed.id bed ->
                            bedFor (Bed.hospitalId x) (Bed.bedTypeId x) bed = false).
  { intros x Hx Hne. destruct (bedFor _ _ bed) eqn:E; [|reflexivity].
    apply bedFor_true in E. destruct E as [E1 E2].
    elim Hne. f_equal. symmetry. now apply Hu. }
  constructor; rewrite ?Hbeds, ?Hnext.
  - now apply keyed_set with (v0 := bed).
  - apply below_set; [assumption|].
    exact (below_In _ _ _ _ Hb (get_In _ _ _ Hget)).
  - assumption.
  - intros b1 b2 H1 H2 Eh Et.
    apply In_values_replaced in H1, H2; try assumption.
    destruct H1 as [-> | [H1 N1]], H2 as [-> | [H2 N2]].
    + reflexivity.
    + exfalso. apply N2. f_equal. apply Hu; [assumption | assumption | |].
      * rewrite <- Eh. reflexivity.
      * rewrite <- Et. reflexivity.
    + exfalso. apply N1. f_equal. apply Hu; [assumption | assumption | |].
      * rewrite Eh. reflexivity.
      * rewrite Et. reflexivity.
    + now apply Hu.
  - intros x Hx. apply In_values_replaced in Hx; [|assumption].
    destruct Hx as [-> | [Hx Hne]].
    + destruct (Hh bed Hin) as [_ Hroom].
      change (Bed.hospitalId bed1) with (Bed.hospitalId bed).
      change (Bed.bedTypeId bed1) with (Bed.bedTypeId bed).
      change (Bed.totalBeds bed1) with (Bed.totalBeds bed).
      change (Bed.availableBeds bed1) with a'.
      rewrite Hhosp, Htype in *. split; [assumption | lia].
    + destruct (Hh x Hx) as [H0 Hroom]. split; [assumption|].
      specialize (Hother _ _ (Hdiff x Hx Hne)). lia.
  - intros h t Hpos.
    destruct (bedFor h t bed) eqn:E.
    + exists bed1. split; [apply In_values_new | now rewrite Hsame].
    + specialize (Hother h t E).
      destruct (Hbacked h t) as (x & Hx & Hfor); [lia|].
      exists x. split; [|assumption].
      apply In_values_kept; try assumption.
      intros Heq. pose proof (In_get Bed.id (beds s) x Hk Hx) as Gx.
      rewrite Heq, Hget in Gx. injection Gx as <-. congruence.
Qed.

Lemma consistent_bed_added (s s' : MemStorage) (bed : Bed.t) :
  consistent s ->
  find (bedFor (Bed.hospitalId bed) (Bed.bedTypeId bed)) (JsMap.values (beds s))
    = None ->
  Bed.id bed = bedCurrentId s ->
  beds s' = (beds s ++ [(Bed.id bed, bed)])%list ->
  bedCurrentId s' = bedCurrentId s + 1 ->
  bookings s' = bookings s ->
  bookingCurrentId s' = bookingCurrentId s ->
  bedOk bed = true ->
  consistent s'.
Proof.
  intros [Hk Hb Hbk Hu Hh Hbacked] Hnone Hid Hbeds Hnext Hbookings Hbnext Hok.
  assert (Hpending : forall h t, pending s' h t = pending s h t).
  { intros h t. unfold pending. now rewrite Hbookings. }
  assert (Hfresh : forall x, In x (JsMap.values (beds s)) ->
                     bedFor (Bed.hospitalId bed) (Bed.bedTypeId bed) x = false).
  { intros x Hx. exact (find_none _ _ Hnone x Hx). }
  assert (Hvalues : forall x, In x (JsMap.values (beds s')) <->
                      In x (JsMap.values (beds s)) \/ x = bed).
  { intros x. rewrite Hbeds. unfold JsMap.values. rewrite map_app, in_app_iff. cbn.
    intuition. }
  constructor; rewrite ?Hbnext, ?Hbookings; try assumption.
  - rewrite Hbeds. apply keyed_app; [assumption | | reflexivity].
    rewrite Hid. now apply below_fresh.
  - rewrite Hbeds, Hnext. apply below_app; assumption.
  - intros b1 b2 H1 H2 Eh Et. apply Hvalues in H1, H2.
    destruct H1 as [H1 | ->], H2 as [H2 | ->].
    + now apply Hu.
    + specialize (Hfresh b1 H1).
      assert (bedFor (Bed.hospitalId bed) (Bed.bedTypeId bed) b1 = true)
        by now apply bedFor_true.
      congruence.
    + specialize (Hfresh b2 H2).
      assert (bedFor (Bed.hospitalId bed) (Bed.bedTypeId bed) b2 = true)
        by now apply bedFor_true.
      congruence.
    + reflexivity.
  - intros x Hx. rewrite Hpending. apply Hvalues in Hx. destruct Hx as [Hx | ->].
    + now apply Hh.
    + unfold bedOk in Hok. apply andb_true_iff in Hok.
      destruct Hok as [H0 H1]. apply Z.leb_le in H0, H1.
      split; [assumption|].
      pose proof (pending_nonneg s (Bed.hospitalId bed) (Bed.bedTypeId bed)) as Hge.
      assert (Hzero : ~ 0 < pending s (Bed.hospitalId bed) (Bed.bedTypeId bed)).
      { intros Hpos. destruct (Hbacked _ _ Hpos) as (x & Hx & Hfor).
        specialize (Hfresh x Hx). congruence. }
      lia.
  - intros h t Hpos. rewrite Hpending in Hpos.
    destruct (Hbacked h t Hpos) as (x & Hx & Hfor).
    exists x. split; [|assumption]. apply Hvalues. now left.
Qed.

Lemma consistent_new : consistent newMemStorage.
Proof.
  constructor; try reflexivity; cbn.
  - intros b1 b2 [].
  - intros bed [].
  - intros h t H. unfold pending in H. cbn in H. lia.
Qed.

(** The count of pending bookings of a pair after a booking changed status. *)
Lemma pending_after_status (s s' : MemStorage) (id : Z) (booking : Booking.t)
      (status : string) h t :
  JsMap.get (bookings s) id = Some booking ->
  bookings s' = JsMap.set (bookings s) id (setStatus booking status) ->
  status <> "pending" ->
  pending s' h t
  = pending s h t - (if pendingFor h t booking then 1 else 0).
Proof.
  intros Hget Hbookings Hstatus. unfold pending. rewrite Hbookings.
  pose proof (count_set (pendingFor h t) (bookings s) id
                (setStatus booking status) booking Hget) as Hcount.
  assert (Hnot : pendingFor h t (setStatus booking status) = false).
  { unfold pendingFor. cbn.
    destruct (status =? "pending") eqn:E; [|reflexivity].
    apply String.eqb_eq in E. contradiction. }
  rewrite Hnot in Hcount. destruct (pendingFor h t booking); lia.
Qed.

Lemma updateBookingStatus_consistent (id : Z) (status : string) (s : MemStorage) :
  consistent s -> status <> "pending" ->
  consistent (execM (updateBookingStatus id status) s).
Proof.
  intros Hc Hstatus.
  unfold updateBookingStatus, getBooking, getBedByHospitalAndType, updateBed,
    getBed, putBed, putBooking. run.
  destruct (JsMap.get (bookings s) id) as [booking|] eqn:Hget; cbn; [|assumption].
  assert (Hbelow : below (bookingCurrentId s)
                     (JsMap.set (bookings s) id (setStatus booking status)) = true).
  { apply below_set; [apply Hc|].
    exact (below_In _ _ _ _ (c_bookingIds s Hc) (get_In _ _ _ Hget)). }
  destruct ((Booking.status booking =? "pending") && (status =? "canceled")) eqn:E;
    cbn.
  - apply andb_true_iff in E. destruct E as [E1 E2]. apply String.eqb_eq in E1, E2.
    fold (bedFor (Booking.hospitalId booking) (TypeRef.Id (Booking.bedTypeId booking))).
    destruct (find _ _) as [bed|] eqn:Hfind; cbn.
    + pose proof (find_get Bed.id (beds s) _ bed (c_keyed s Hc) Hfind) as Hbed.
      rewrite Hbed. cbn.
      pose proof (c_held s Hc bed (proj1 (find_some _ _ Hfind))) as [H0 _].
      eapply consistent_bed_replaced with (bed := bed); cbn;
        [exact Hc | exact Hfind | reflexivity | reflexivity | exact Hbelow | lia | |].
      * intros h t _.
        erewrite pending_after_status; [|exact Hget | reflexivity | exact Hstatus].
        destruct (pendingFor h t booking); lia.
      * erewrite pending_after_status; [|exact Hget | reflexivity | exact Hstatus].
        assert (Hp : pendingFor (Booking.hospitalId booking)
                       (TypeRef.Id (Booking.bedTypeId booking)) booking = true).
        { unfold pendingFor. rewrite E1. cbn. now rewrite !Z.eqb_refl. }
        rewrite Hp. lia.
    + eapply consistent_beds_same; cbn;
        [exact Hc | reflexivity | reflexivity | exact Hbelow |].
      intros h t.
      erewrite pending_after_status; [|exact Hget | reflexivity | exact Hstatus].
      destruct (pendingFor h t booking); lia.
  - eapply consistent_beds_same; cbn;
      [exact Hc | reflexivity | reflexivity | exact Hbelow |].
    intros h t.
    erewrite pending_after_status; [|exact Hget | reflexivity | exact Hstatus].
    destruct (pendingFor h t booking); lia.
Qed.

Lemma pending_after_insert (s s' : MemStorage) (booking : Booking.t) h t :
  below (bookingCurrentId s) (bookings s) = true ->
  bookings s' = JsMap.set (bookings s) (bookingCurrentId s) booking ->
  pending s' h t = pending s h t + (if pendingFor h t booking then 1 else 0).
Proof.
  intros Hbelow Hbookings. unfold pending. rewrite Hbookings.
  rewrite (set_fresh _ _ _ (below_get_None _ _ Hbelow)).
  unfold JsMap.values. rewrite map_app, filter_app, length_app. cbn [map snd filter].
  destruct (pendingFor h t booking); cbn [List.length]; lia.
Qed.

Lemma postBookings_consistent (userId : Z) (form : BookingForm.t) (now : Z)
      (s : MemStorage) :
  consistent s -> consistent (execM (postBookings userId form now) s).
Proof.
  intros Hc.
  unfold postBookings, createBooking, getHospital, getBedByHospitalAndType,
    nextBookingId, putBooking, updateBed, getBed, putBed. run.
  destruct (JsMap.get (hospitals s) (BookingForm.hospitalId form)) as [hospital|];
    cbn; [|assumption].
  destruct (Hospital.approved hospital); cbn; [|assumption].
  fold (bedFor (BookingForm.hospitalId form) (TypeRef.Id (BookingForm.bedTypeId form))).
  destruct (find _ _) as [bed|] eqn:Hfind; cbn; [|assumption].
  destruct (Bed.availableBeds bed <=? 0)%Z eqn:Hfree; cbn; [assumption|].
  apply Z.leb_gt in Hfree.
  rewrite Hfind. cbn.
  assert (Hgt : (Bed.availableBeds bed >? 0)%Z = true) by (apply Z.gtb_lt; lia).
  rewrite Hgt. cbn.
  rewrite (find_get Bed.id (beds s) _ bed (c_keyed s Hc) Hfind). cbn.
  pose proof (find_some _ _ Hfind) as [_ Hfor].
  eapply consistent_bed_replaced with (bed := bed); cbn;
    [exact Hc | exact Hfind | reflexivity | reflexivity | | lia | |].
  - rewrite (set_fresh _ _ _ (below_get_None _ _ (c_bookingIds s Hc))).
    apply below_app; [apply Hc | reflexivity].
  - intros h t Hnot.
    erewrite pending_after_insert; [|apply Hc | reflexivity].
    destruct (pendingFor h t _) eqn:E; [|lia].
    unfold pendingFor in E. cbn in E.
    apply andb_true_iff in E. destruct E as [E E3].
    apply andb_true_iff in E. destruct E as [_ E2].
    apply Z.eqb_eq in E2.
    pose proof (proj1 (typeRef_eqb_eq (TypeRef.Id (BookingForm.bedTypeId form)) t) E3)
      as E4.
    subst h t. congruence.
  - erewrite pending_after_insert; [|apply Hc | reflexivity].
    destruct (pendingFor _ _ _); lia.
Qed.

Lemma postHospitalBeds_consistent (hospitalId : Z) (form : BedForm.t) (s : MemStorage) :
  consistent s ->
  createsOnly (PostHospitalBed hospitalId form) s = true ->
  consistent (execM (postHospitalBeds hospitalId form) s).
Proof.
  intros Hc Hcreates. unfold createsOnly in Hcreates.
  apply andb_true_iff in Hcreates. destruct Hcreates as [Hvalid Hnone].
  unfold postHospitalBeds, getBedByHospitalAndType, createBed in *. run.
  destruct (find _ _) eqn:Hfind; [discriminate|]. cbn.
  eapply consistent_bed_added with
    (bed := Bed.mk (bedCurrentId s) hospitalId (TypeRef.Id (BedForm.bedTypeId form))
              (BedForm.totalBeds form) (BedForm.availableBeds form)
              (priceOrNull (BedForm.pricePerNight form)));
    cbn; try reflexivity; try assumption.
  apply set_fresh. apply below_get_None. apply Hc.
Qed.

Lemma frame_consistent (s s' : MemStorage) :
  consistent s ->
  beds s' = beds s -> bookings s' = bookings s ->
  bedCurrentId s' = bedCurrentId s -> bookingCurrentId s' = bookingCurrentId s ->
  consistent s'.
Proof.
  intros Hc Hbeds Hbookings Hn1 Hn2.
  apply consistent_beds_same with (s := s); try assumption.
  - rewrite Hn2, Hbookings. apply Hc.
  - intros h t. unfold pending. rewrite Hbookings. lia.
Qed.

(** Every handler keeps the store consistent, a bed request provided it
    creates its record. *)
Lemma handle_consistent (r : Request) (s : MemStorage) :
  consistent s -> createsOnly r s = true -> consistent (execM (handle r) s).
Proof.
  intros Hc Hcreates. destruct r as [data | hid approved | hid form | hid bid status
                                    | uid form now | uid bid]; cbn [handle].
  - unfold postHospitalsRegister, getHospitalByUsername, createHospital. run.
    destruct (find _ _); cbn; [assumption|].
    now apply frame_consistent with (s := s).
  - unfold patchAdminHospital, updateHospitalApproval, getHospital, putHospital. run.
    destruct (JsMap.get (hospitals s) hid) eqn:Hget; cbn; [|assumption].
    rewrite Hget. cbn.
    now apply frame_consistent with (s := s).
  - now apply postHospitalBeds_consistent.
  - unfold patchHospitalBooking.
    destruct (existsb (String.eqb status) ["approved"; "rejected"; "canceled"])
      eqn:Hstatus; cbn [negb]; [|assumption].
    unfold execM, bind, getBooking, gets, ret.
    destruct (JsMap.get (bookings s) bid) as [booking|]; [|assumption].
    destruct (Booking.hospitalId booking =? hid)%Z; cbn [negb]; [|assumption].
    pose proof (updateBookingStatus_consistent bid status s Hc) as Hu.
    unfold execM in Hu. destruct (updateBookingStatus bid status s) as [u s'].
    cbn. apply Hu. intros ->. discriminate Hstatus.
  - now apply postBookings_consistent.
  - unfold patchUserBookingCancel.
    unfold execM, bind, getBooking, gets, ret.
    destruct (JsMap.get (bookings s) bid) as [booking|]; [|assumption].
    destruct (Booking.userId booking =? uid)%Z; cbn [negb]; [|assumption].
    destruct (Booking.status booking =? "pending"); cbn [negb]; [|assumption].
    pose proof (updateBookingStatus_consistent bid "canceled" s Hc) as Hu.
    unfold execM in Hu. destruct (updateBookingStatus bid "canceled" s) as [u s'].
    cbn. apply Hu. discriminate.
Qed.

Lemma serve_cons (r : Request) (rest : list Request) (s : MemStorage) :
  execM (serve (r :: rest)) s = execM (serve rest) (execM (handle r) s).
Proof.
  cbn [serve]. unfold execM, bind, ret.
  destruct (handle r s) as [response s1]. cbn.
  now destruct (serve rest s1).
Qed.

Lemma serve_consistent (rs : list Request) :
  forall s,
    consistent s -> noOverwrite rs s = true -> consistent (execM (serve rs) s).
Proof.
  induction rs as [|r rest IH]; intros s Hc Hno.
  - exact Hc.
  - cbn [noOverwrite] in Hno. apply andb_true_iff in Hno. destruct Hno as [H1 H2].
    rewrite serve_cons. apply IH; [|assumption].
    now apply handle_consistent.
Qed.

Lemma consistent_inventoryOk (s : MemStorage) : consistent s -> inventoryOk s = true.
Proof.
  intros Hc. unfold inventoryOk. apply forallb_forall. intros bed Hin.
  destruct (c_held s Hc bed Hin) as [H0 H1].
  pose proof (pending_nonneg s (Bed.hospitalId bed) (Bed.bedTypeId bed)).
  unfold bedOk. apply andb_true_iff. split; apply Z.leb_le; lia.
Qed.

(** ** The inventory bounds *)

(** C1, as the code has it. From a fresh store, requests served by the
    handlers leave every bed record with [0 <= availableBeds <= totalBeds],
    provided each bed request carries counts in that range and creates its
    record, that is, the pair has no record when the request is served.
    Bookings go through POST /api/bookings, which refuses a missing or
    exhausted bed; status changes go through the two PATCH handlers. *)
Theorem inventory_bounds_hold (rs : list Request) :
  noOverwrite rs newMemStorage = true ->
  inventoryOk (execM (serve rs) newMemStorage) = true.
Proof.
  intros Hno. apply consistent_inventoryOk.
  apply serve_consistent; [apply consistent_new | assumption].
Qed.

Lemma inventory_bounds_hold_witness :
  noOverwrite fiveBeds newMemStorage = true
  /\ inventoryOk (execM (serve fiveBeds) newMemStorage) = true.
Proof.
  split; [reflexivity|].
  apply (inventory_bounds_hold fiveBeds). reflexivity.
Defined.

(** The scenario of five beds: the sixth request is refused, and after one
    cancellation one bed is free. *)
Example five_beds_scenario :
  map status (evalM (serve fiveBeds) newMemStorage)
    = [201; 200; 201; 201; 201; 201; 201; 201; 400; 200]
  /\ nth_error (evalM (serve fiveBeds) newMemStorage) 8
     = Some (statusJson 400 (JError "No beds available of this type"))
  /\ JsMap.values (beds (execM (serve fiveBeds) newMemStorage))
     = [Bed.mk 1 1 (TypeRef.Id 1) 5 1 None].
Proof. repeat split; reflexivity. Qed.

(** C1, as stated, fails. With the store methods alone, a bed record created
    with 1 bed of 1 free ends with 2 free after two bookings and two
    cancellations, because [createBooking] records the second booking
    without taking a bed. Through the handlers, every request answered with
    success, a bed record posted again while a booking is pending ends the
    same way once that booking is canceled. *)
Lemma inventory_bounds_broken :
  (JsMap.values (beds (execM twoBookingsOneBed newMemStorage))
     = [Bed.mk 1 1 (TypeRef.Id 1) 1 2 None]
   /\ inventoryOk (execM twoBookingsOneBed newMemStorage) = false)
  /\ (map status (evalM (serve repostedBed) newMemStorage)
        = [201; 200; 201; 201; 200; 200]
      /\ JsMap.values (beds (execM (serve repostedBed) newMemStorage))
         = [Bed.mk 1 1 (TypeRef.Id 1) 1 2 None]
      /\ inventoryOk (execM (serve repostedBed) newMemStorage) = false).
Proof. repeat split; reflexivity. Qed.

(** ** Bed ingestion *)

(** C8 at a failing input. A remote bed type named "Constructor" is looked up
    under "constructor", which every plain object inherits: the lookup gives
    the [Object] function, [!bedTypeId] is false, so no bed type is resolved
    by name and none is created, and the bed record is stored with that
    function as its [bedTypeId]. *)
Theorem inherited_name_skips_bed_type :
  let s := execM (getHospitalsByLocation withKey constructorBeds None) newMemStorage in
  bedTypes s = bedTypes newMemStorage
  /\ map BedType.name (JsMap.values (bedTypes s))
     = ["ICU"; "General"; "Emergency"; "Pediatric"; "Maternity"]
  /\ evalM (getBedTypeByName "Constructor") s = None
  /\ JsMap.values (beds s) = [Bed.mk 1 1 (TypeRef.Proto "constructor") 3 2 None].
Proof. cbv zeta. repeat split; reflexivity. Qed.

(** The same with a bed type named "__PROTO__". *)
Example proto_name_skips_bed_type :
  let s := execM (getHospitalsByLocation withKey protoBeds None) newMemStorage in
  bedTypes s = bedTypes newMemStorage
  /\ JsMap.values (beds s) = [Bed.mk 1 1 (TypeRef.Proto "__proto__") 3 2 None].
Proof. cbv zeta. split; reflexivity. Qed.

(** For contrast, names that are not inherited: "icu" resolves to the stored
    type ICU, "Burn" is created as type 6. *)
Example ordinary_names_resolve :
  let s := execM (getHospitalsByLocation withKey ordinaryBeds None) newMemStorage in
  map BedType.name (JsMap.values (bedTypes s))
    = ["ICU"; "General"; "Emergency"; "Pediatric"; "Maternity"; "Burn"]
  /\ JsMap.values (beds s)
     = [Bed.mk 1 1 (TypeRef.Id 1) 3 2 None; Bed.mk 2 1 (TypeRef.Id 6) 4 4 None].
Proof. cbv zeta. repeat split; reflexivity. Qed.

Lemma lastNamed_app key bedTypes bedType :
  lastNamed key (bedTypes ++ [bedType])
  = if Js.toLowerCase (BedType.name bedType) =? key
    then Some (BedType.id bedType) else lastNamed key bedTypes.
Proof. unfold lastNamed. now rewrite fold_left_app. Qed.

Lemma lastNamed_Some key bedTypes n :
  lastNamed key bedTypes = Some n ->
  exists bedType,
    In bedType bedTypes
    /\ Js.toLowerCase (BedType.name bedType) = key
    /\ BedType.id bedType = n.
Proof.
  induction bedTypes as [|bedType rest IH] using rev_ind; [discriminate|].
  rewrite lastNamed_app.
  destruct (Js.toLowerCase (BedType.name bedType) =? key) eqn:E.
  - intros [= <-]. apply String.eqb_eq in E. exists bedType.
    split; [apply in_or_app; right; now left | now split].
  - intros H. destruct (IH H) as (bt & Hin & Hbt). exists bt.
    split; [apply in_or_app; now left | assumption].
Qed.

Lemma lastNamed_None key bedTypes :
  lastNamed key bedTypes = None ->
  forall bedType,
    In bedType bedTypes -> Js.toLowerCase (BedType.name bedType) <> key.
Proof.
  induction bedTypes as [|bedType rest IH] using rev_ind; [intros _ ? []|].
  rewrite lastNamed_app.
  destruct (Js.toLowerCase (BedType.name bedType) =? key) eqn:E; [discriminate|].
  intros H bt Hin. apply in_app_or in Hin. destruct Hin as [Hin | [<- | []]].
  - now apply IH.
  - now apply String.eqb_neq.
Qed.

Lemma own_set bedTypeMap key n key' :
  key' <> "__proto__" ->
  Js.own (Js.set bedTypeMap key n) key'
  = if key =? key' then Some n else Js.own bedTypeMap key'.
Proof.
  intros Hne. unfold Js.set.
  destruct (key =? "__proto__") eqn:E; [|reflexivity].
  apply String.eqb_eq in E. subst key.
  destruct ("__proto__" =? key') eqn:E'; [|reflexivity].
  apply String.eqb_eq in E'. congruence.
Qed.

Lemma buildBedTypeMap_reflects (s : MemStorage) :
  reflects (buildBedTypeMap (JsMap.values (bedTypes s))) s.
Proof.
  unfold reflects. generalize (JsMap.values (bedTypes s)) as bedTypes.
  intros bedTypes key Hkey.
  induction bedTypes as [|bedType rest IH] using rev_ind; [reflexivity|].
  unfold buildBedTypeMap in *. rewrite fold_left_app. cbn [fold_left].
  rewrite own_set by assumption. rewrite lastNamed_app. now rewrite IH.
Qed.

Lemma inherited_proto key : Js.inherited key = false -> key <> "__proto__".
Proof. intros H ->. discriminate H. Qed.

(** C8 away from the inherited names. For a remote entry whose lower-cased
    type name is not a member of [Object.prototype], one turn of the loop
    resolves a stored bed type with that lower-cased name, or, when there is
    none, appends a bed type with the entry's name and the next id; then the
    bed record of (hospital, type), when there is one, has [totalBeds] and
    [availableBeds] replaced by the remote values and keeps its other fields,
    and otherwise a record with those values is appended. The next turn can
    rely on the same conditions. *)
Lemma ingestBed_ordinary
      (hospitalId : Z) (bedTypeMap : Js.Obj) (apiBed : ApiBed.t) (s : MemStorage) :
  ingestible bedTypeMap s ->
  Js.inherited (Js.toLowerCase (ApiBed.type apiBed)) = false ->
  let key := Js.toLowerCase (ApiBed.type apiBed) in
  let s' := execM (ingestBed hospitalId bedTypeMap apiBed) s in
  exists r : Z,
    ((exists bedType,
         In bedType (JsMap.values (bedTypes s))
         /\ Js.toLowerCase (BedType.name bedType) = key
         /\ BedType.id bedType = r
         /\ bedTypes s' = bedTypes s)
     \/ ((forall bedType, In bedType (JsMap.values (bedTypes s)) ->
                          Js.toLowerCase (BedType.name bedType) <> key)
         /\ r = bedTypeCurrentId s
         /\ bedTypes s'
            = (bedTypes s
               ++ [(r, BedType.mk r (ApiBed.type apiBed) None None)])%list))
    /\ match evalM (getBedByHospitalAndType hospitalId (TypeRef.Id r)) s with
       | Some existingBed =>
           beds s'
           = JsMap.set (beds s) (Bed.id existingBed)
               (Bed.mk (Bed.id existingBed) (Bed.hospitalId existingBed)
                  (Bed.bedTypeId existingBed) (ApiBed.total apiBed)
                  (ApiBed.available apiBed) (Bed.pricePerNight existingBed))
       | None =>
           beds s'
           = (beds s
              ++ [(bedCurrentId s,
                   Bed.mk (bedCurrentId s) hospitalId (TypeRef.Id r)
                     (ApiBed.total apiBed) (ApiBed.available apiBed) None)])%list
       end
    /\ ingestible (evalM (ingestBed hospitalId bedTypeMap apiBed) s) s'.
Proof.
  intros [Hreflects Htypes Hkeyed Hbelow] Hinherited. cbv zeta.
  pose proof (inherited_proto _ Hinherited) as Hproto.
  unfold typesOk in Htypes. apply andb_true_iff in Htypes.
  destruct Htypes as [Hpos Hall]. apply Z.ltb_lt in Hpos.
  assert (Hids : forall k bt, In (k, bt) (bedTypes s) ->
                   0 < BedType.id bt /\ k < bedTypeCurrentId s).
  { intros k bt Hin. rewrite forallb_forall in Hall. specialize (Hall _ Hin).
    cbn in Hall. apply andb_true_iff in Hall. destruct Hall as [H1 H2].
    apply Z.ltb_lt in H1, H2. now split. }
  assert (Htypes_below : below (bedTypeCurrentId s) (bedTypes s) = true).
  { unfold below. apply forallb_forall. intros [k bt] Hin. cbn.
    apply Z.ltb_lt. now apply (Hids k bt). }
  (* the second half, for any state that has the beds of [s] *)
  assert (Hstore : forall r s1,
             beds s1 = beds s -> bedCurrentId s1 = bedCurrentId s ->
             let s2 := execM (storeBed hospitalId (TypeRef.Id r) apiBed) s1 in
             match evalM (getBedByHospitalAndType hospitalId (TypeRef.Id r)) s with
             | Some existingBed =>
                 beds s2
                 = JsMap.set (beds s) (Bed.id existingBed)
                     (Bed.mk (Bed.id existingBed) (Bed.hospitalId existingBed)
                        (Bed.bedTypeId existingBed) (ApiBed.total apiBed)
                        (ApiBed.available apiBed) (Bed.pricePerNight existingBed))
             | None =>
                 beds s2
                 = (beds s
                    ++ [(bedCurrentId s,
                         Bed.mk (bedCurrentId s) hospitalId (TypeRef.Id r)
                           (ApiBed.total apiBed) (ApiBed.available apiBed) None)])%list
             end
             /\ bedTypes s2 = bedTypes s1
             /\ bedTypeCurrentId s2 = bedTypeCurrentId s1
             /\ keyed Bed.id (beds s2) = true
             /\ below (bedCurrentId s2) (beds s2) = true).
  { intros r s1 Hb Hn. cbv zeta.
    unfold storeBed, getBedByHospitalAndType, updateBed, getBed, putBed, createBed.
    run. rewrite Hb.
    destruct (find _ (map snd (beds s))) as [existingBed|] eqn:Hfind; cbn.
    - pose proof (find_get Bed.id (beds s) _ existingBed Hkeyed Hfind) as Hget.
      rewrite Hb, Hget. cbn. rewrite ?Hb, ?Hn.
      repeat split.
      + now apply keyed_set with (v0 := existingBed).
      + apply below_set; [assumption|].
        exact (below_In _ _ _ _ Hbelow (get_In _ _ _ Hget)).
    - rewrite ?Hb, ?Hn.
      rewrite (set_fresh _ _ _ (below_get_None _ _ Hbelow)).
      repeat split.
      + apply keyed_app; [assumption | now apply below_fresh | reflexivity].
      + now apply below_app. }
  unfold ingestBed, resolveBedType, evalM, execM, bind.
  unfold Js.get. rewrite (proj2 (String.eqb_neq _ _) Hproto).
  rewrite (Hreflects _ Hproto), Hinherited.
  destruct (lastNamed _ _) as [n|] eqn:Hlast.
  - destruct (lastNamed_Some _ _ _ Hlast) as (bt & Hin & Hname & Hid).
    assert (Hn : (n =? 0)%Z = false).
    { apply Z.eqb_neq. apply in_map_iff in Hin. destruct Hin as ([k bt'] & E & Hin).
      cbn in E. subst bt'. destruct (Hids k bt Hin). lia. }
    rewrite Hn. unfold ret. cbn [fst snd].
    destruct (Hstore n s eq_refl eq_refl) as (H1 & H2 & H3 & H4 & H5).
    unfold execM in *.
    destruct (storeBed hospitalId (TypeRef.Id n) apiBed s) as [u s2].
    cbn [fst snd ret] in *.
    exists n. split; [left; exists bt; now repeat split|].
    split; [exact H1|].
    constructor; try assumption.
    + unfold reflects. now rewrite H2.
    + unfold typesOk. rewrite H2, H3. apply andb_true_iff.
      split; [now apply Z.ltb_lt | assumption].
  - pose proof (lastNamed_None _ _ Hlast) as Hnone.
    unfold createBedType, ret.
    cbn [InsertBedType.name InsertBedType.description InsertBedType.icon
         BedType.id fst snd].
    rewrite (set_fresh _ _ _ (below_get_None _ _ Htypes_below)).
    match goal with
    | |- context [storeBed _ _ _ ?st] =>
        destruct (Hstore (bedTypeCurrentId s) st eq_refl eq_refl)
          as (H1 & H2 & H3 & H4 & H5);
        unfold execM in *;
        destruct (storeBed hospitalId (TypeRef.Id (bedTypeCurrentId s)) apiBed st)
          as [u s2]
    end.
    cbn [fst snd ret bedTypes bedTypeCurrentId] in *.
    exists (bedTypeCurrentId s). split; [right; now repeat split|].
    split; [exact H1|].
    constructor; try assumption.
    + unfold reflects. intros key' Hkey'. rewrite H2.
      unfold JsMap.values. rewrite map_app. cbn [map snd].
      rewrite lastNamed_app, own_set by assumption. cbn [BedType.name BedType.id].
      now rewrite (Hreflects _ Hkey').
    + unfold typesOk. rewrite H2, H3. apply andb_true_iff.
      split; [apply Z.ltb_lt; lia|].
      rewrite forallb_app. apply andb_true_iff. split.
      * apply forallb_forall. intros [k bt] Hin. cbn.
        destruct (Hids k bt Hin). apply andb_true_iff.
        split; apply Z.ltb_lt; lia.
      * cbn. rewrite andb_true_r. apply andb_true_iff.
        split; apply Z.ltb_lt; lia.
Qed.

(** The loop starts from conditions that hold in a fresh store and in every
    store whose ids came from the counters. *)
Lemma processHospitalBeds_start (s : MemStorage) :
  typesOk s = true ->
  keyed Bed.id (beds s) = true ->
  below (bedCurrentId s) (beds s) = true ->
  ingestible (buildBedTypeMap (evalM getAllBedTypes s)) s.
Proof.
  intros H1 H2 H3. constructor; try assumption.
  apply buildBedTypeMap_reflects.
Qed.

Example fresh_store_ingestible :
  typesOk newMemStorage = true
  /\ keyed Bed.id (beds newMemStorage) = true
  /\ below (bedCurrentId newMemStorage) (beds newMemStorage) = true.
Proof. repeat split; reflexivity. Qed.

(** [createBooking] on its own, against an exhausted bed: the booking is
    recorded and the bed records are left as they were. The refusal is the
    handler's. *)
Lemma createBooking_exhausted
      (insertBooking : InsertBooking.t) (now : Z) (s : MemStorage) (bed : Bed.t) :
  evalM (getBedByHospitalAndType (InsertBooking.hospitalId insertBooking)
           (TypeRef.Id (InsertBooking.bedTypeId insertBooking))) s = Some bed ->
  Bed.availableBeds bed <= 0 ->
  beds (execM (createBooking insertBooking now) s) = beds s
  /\ evalM (getBooking (bookingCurrentId s)) (execM (createBooking insertBooking now) s)
     = Some (evalM (createBooking insertBooking now) s).
Proof.
  intros Hbed Hzero.
  assert (Hgt : (Bed.availableBeds bed >? 0)%Z = false).
  { destruct (Bed.availableBeds bed >? 0)%Z eqn:E; [|reflexivity].
    apply Z.gtb_lt in E. lia. }
  unfold createBooking, getBedByHospitalAndType, getBooking, nextBookingId,
    putBooking in *. run.
  rewrite Hbed. cbn. rewrite Hgt. cbn.
  split; [reflexivity | apply get_set_same].
Qed.

(** ** Every reachable store is well keyed

    The conditions that the theorems on booking, bed creation and sync assume
    of the store hold when the server starts and are kept by every handler
    and by the directory sync. *)

Lemma keeps_ret {A} (a : A) : keeps (ret a).
Proof. intros s H. exact H. Qed.

Lemma keeps_gets {A} (f : MemStorage -> A) : keeps (gets f).
Proof. intros s H. exact H. Qed.

Lemma keeps_bind {A B} (c : M A) (f : A -> M B) :
  keeps c -> (forall a, keeps (f a)) -> keeps (bind c f).
Proof.
  intros Hc Hf s H. unfold execM, bind.
  specialize (Hc s H). unfold execM in Hc. destruct (c s) as [a s1].
  exact (Hf a s1 Hc).
Qed.

Lemma wellKeyed_iff (s : MemStorage) :
  wellKeyed s = true
  <-> keyed Bed.id (beds s) = true
      /\ below (bedCurrentId s) (beds s) = true
      /\ below (hospitalCurrentId s) (hospitals s) = true.
Proof. unfold wellKeyed. rewrite !andb_true_iff. tauto. Qed.

Lemma keeps_createHospital insertHospital : keeps (createHospital insertHospital).
Proof.
  intros s H. apply wellKeyed_iff in H. destruct H as (H1 & H2 & H3).
  apply wellKeyed_iff. unfold createHospital. run. repeat split; try assumption.
  rewrite (set_fresh _ _ _ (below_get_None _ _ H3)). now apply below_app.
Qed.

Lemma keeps_updateHospitalApproval id approved :
  keeps (updateHospitalApproval id approved).
Proof.
  intros s H. apply wellKeyed_iff in H. destruct H as (H1 & H2 & H3).
  apply wellKeyed_iff.
  unfold updateHospitalApproval, getHospital, putHospital. run.
  destruct (JsMap.get (hospitals s) id) eqn:Hget; cbn; [|now repeat split].
  repeat split; try assumption.
  apply below_set; [assumption|].
  exact (below_In _ _ _ _ H3 (get_In _ _ _ Hget)).
Qed.

Lemma keeps_createBedType insertBedType : keeps (createBedType insertBedType).
Proof. intros s H. exact H. Qed.

Lemma keeps_createBed insertBed : keeps (createBed insertBed).
Proof.
  intros s H. apply wellKeyed_iff in H. destruct H as (H1 & H2 & H3).
  apply wellKeyed_iff. unfold createBed. run.
  rewrite (set_fresh _ _ _ (below_get_None _ _ H2)).
  repeat split; try assumption.
  - apply keyed_app; [assumption | now apply below_fresh | reflexivity].
  - now apply below_app.
Qed.

Lemma keeps_updateBed id bedData : keeps (updateBed id bedData).
Proof.
  intros s H. apply wellKeyed_iff in H. destruct H as (H1 & H2 & H3).
  apply wellKeyed_iff. unfold updateBed, getBed, putBed. run.
  destruct (JsMap.get (beds s) id) as [bed|] eqn:Hget; cbn; [|now repeat split].
  pose proof (get_In _ _ _ Hget) as Hin.
  repeat split; try assumption.
  - apply keyed_set with (v0 := bed); [assumption | assumption |].
    cbn. exact (keyed_In Bed.id _ _ _ H1 Hin).
  - apply below_set; [assumption|]. exact (below_In _ _ _ _ H2 Hin).
Qed.

Lemma keeps_putBooking id booking : keeps (putBooking id booking).
Proof. intros s H. exact H. Qed.

Lemma keeps_nextBookingId : keeps nextBookingId.
Proof. intros s H. exact H. Qed.

(** The plumbing of a method is kept when its store calls are. *)
Ltac keep_all :=
  repeat first
    [ apply keeps_ret | apply keeps_gets | apply keeps_createHospital
    | apply keeps_updateHospitalApproval | apply keeps_createBedType
    | apply keeps_createBed | apply keeps_updateBed | apply keeps_putBooking
    | apply keeps_nextBookingId | assumption
    | apply keeps_bind; [|intros ?]
    | match goal with
      | |- keeps (match ?x with _ => _ end) => destruct x
      | |- keeps (if ?b then _ else _) => destruct b
      end ].

Lemma keeps_createBooking insertBooking now : keeps (createBooking insertBooking now).
Proof. unfold createBooking, getBedByHospitalAndType. keep_all. Qed.

Lemma keeps_updateBookingStatus id status : keeps (updateBookingStatus id status).
Proof. unfold updateBookingStatus, getBooking, getBedByHospitalAndType. keep_all. Qed.

Lemma keeps_handle r : keeps (handle r).
Proof.
  pose proof keeps_createBooking. pose proof keeps_updateBookingStatus.
  destruct r; cbn [handle];
    unfold postHospitalsRegister, patchAdminHospital, postHospitalBeds,
      patchHospitalBooking, postBookings, patchUserBookingCancel,
      getHospitalByUsername, getHospital, getBedByHospitalAndType, getBooking;
    keep_all.
  all: auto.
Qed.

Lemma keeps_ingestBeds hospitalId apiBeds :
  forall bedTypeMap, keeps (ingestBeds hospitalId bedTypeMap apiBeds).
Proof.
  induction apiBeds as [|apiBed rest IH]; intros bedTypeMap; cbn [ingestBeds].
  - apply keeps_ret.
  - apply keeps_bind; [|intros ?; apply IH].
    unfold ingestBed, resolveBedType, storeBed, getBedByHospitalAndType. keep_all.
Qed.

Lemma keeps_processHospitalBeds hospitalId apiBeds :
  keeps (processHospitalBeds hospitalId apiBeds).
Proof.
  unfold processHospitalBeds, getAllBedTypes.
  apply keeps_bind; [apply keeps_gets | intros ?; apply keeps_ingestBeds].
Qed.

Lemma keeps_syncHospitals data : forall acc, keeps (syncHospitals data acc).
Proof.
  induction data as [|apiHospital rest IH]; intros acc; cbn [syncHospitals].
  - apply keeps_ret.
  - apply keeps_bind; [|intros ?; apply IH].
    unfold syncHospital, getHospitalByUsername. keep_all.
    apply keeps_ingestBeds.
Qed.

Lemma keeps_getHospitalsByLocation apiConfig remote location :
  keeps (getHospitalsByLocation apiConfig remote location).
Proof.
  unfold getHospitalsByLocation, getApprovedHospitals.
  destruct (negb _); [apply keeps_gets|].
  destruct (listHospitals _ _); [apply keeps_syncHospitals | apply keeps_gets].
Qed.

(** Whatever requests and syncs the server has served since it started, bed
    records are stored once under their own id and all bed and hospital ids
    are below their counters. *)
Lemma reachable_wellKeyed (events : list Event) :
  wellKeyed (execM (play events) newMemStorage) = true.
Proof.
  assert (H : keeps (play events)).
  { induction events as [|[r | call] rest IH]; cbn [play].
    - apply keeps_ret.
    - apply keeps_bind; [apply keeps_handle | intros _; exact IH].
    - apply keeps_bind; [apply keeps_getHospitalsByLocation | intros _; exact IH]. }
  apply H. reflexivity.
Qed.

(** * Further properties of the server *)

(** ** Reading and writing one record *)

(** X1. [updateBed] changes at most the record stored under [id]: the keys
    of the map stay as they are; for a missing id the answer is [undefined]
    and the store is untouched; for a stored id the answer is the merged
    record, which keeps its id and is what [getBed] returns afterwards; every
    other id reads as before. *)
Theorem updateBed_in_place (id : Z) (bedData : PartialBed.t) (s : MemStorage) :
  JsMap.keys (beds (execM (updateBed id bedData) s)) = JsMap.keys (beds s)
  /\ (evalM (getBed id) s = None -> updateBed id bedData s = (None, s))
  /\ (forall bed,
        evalM (getBed id) s = Some bed ->
        evalM (updateBed id bedData) s = Some (mergeBed bed bedData)
        /\ Bed.id (mergeBed bed bedData) = Bed.id bed
        /\ evalM (getBed id) (execM (updateBed id bedData) s)
           = Some (mergeBed bed bedData))
  /\ (forall id',
        id' <> id ->
        evalM (getBed id') (execM (updateBed id bedData) s) = evalM (getBed id') s).
Proof.
  unfold updateBed, getBed, putBed. run.
  destruct (JsMap.get (beds s) id) as [bed|] eqn:Hget; cbn.
  - split; [|split; [|split]].
    + now apply keys_set_present with (v0 := bed).
    + discriminate.
    + intros bed' [= <-]. repeat split. apply get_set_same.
    + intros id' Hne. apply get_set_other. congruence.
  - split; [|split; [|split]]; try reflexivity; try discriminate.
Qed.

(** X2. In a store whose bed ids came from the counter, [createBed] stores
    the new record under an id that [getBed] then resolves to it, every
    record stored before reads as before, and the record is listed last
    for its hospital and for no other. *)
Theorem createBed_then_read (insertBed : InsertBed.t) (s : MemStorage) :
  below (bedCurrentId s) (beds s) = true ->
  let bed := evalM (createBed insertBed) s in
  let s' := execM (createBed insertBed) s in
  evalM (getBed (Bed.id bed)) s' = Some bed
  /\ (forall id stored, evalM (getBed id) s = Some stored ->
                        evalM (getBed id) s' = Some stored)
  /\ evalM (getBedsByHospital (InsertBed.hospitalId insertBed)) s'
     = (evalM (getBedsByHospital (InsertBed.hospitalId insertBed)) s ++ [bed])%list
  /\ (forall hospitalId,
        hospitalId <> InsertBed.hospitalId insertBed ->
        evalM (getBedsByHospital hospitalId) s'
        = evalM (getBedsByHospital hospitalId) s).
Proof.
  intros Hbelow. cbv zeta.
  pose proof (below_get_None _ _ Hbelow) as Hnone.
  unfold createBed, getBed, getBedsByHospital. run.
  split; [apply get_set_same|].
  split.
  { intros id stored Hget. rewrite get_set_other; [assumption|].
    intros <-. congruence. }
  rewrite (set_fresh _ _ _ Hnone), map_app.
  split.
  - rewrite filter_app. cbn. now rewrite Z.eqb_refl.
  - intros hospitalId Hne. rewrite filter_app. cbn.
    destruct (InsertBed.hospitalId insertBed =? hospitalId)%Z eqn:E.
    + apply Z.eqb_eq in E. congruence.
    + apply app_nil_r.
Qed.

Lemma createBed_then_read_witness :
  evalM (getBed 2) (execM (createBed (InsertBed.mk 1 (TypeRef.Id 2) 4 3 None))
                      oneBedStore)
  = Some (Bed.mk 2 1 (TypeRef.Id 2) 4 3 None).
Proof.
  exact (proj1 (createBed_then_read (InsertBed.mk 1 (TypeRef.Id 2) 4 3 None)
                  oneBedStore eq_refl)).
Defined.

(** ** The approval flag *)

Lemma filter_partition {A} (p : A -> bool) (l : list A) :
  Permutation (filter p l ++ filter (fun x => negb (p x)) l) l.
Proof.
  induction l as [|x l IH]; cbn; [constructor|].
  destruct (p x); cbn.
  - now constructor.
  - apply Permutation_sym, Permutation_cons_app. now apply Permutation_sym.
Qed.

(** X3. The approved and the pending hospitals split the stored hospitals:
    together they are the stored hospitals up to order, with as many
    records, and no record is in both lists. *)
Theorem approved_pending_split (s : MemStorage) :
  Permutation (evalM getApprovedHospitals s ++ evalM getPendingHospitals s)
              (evalM getAllHospitals s)
  /\ (List.length (evalM getApprovedHospitals s)
      + List.length (evalM getPendingHospitals s)
      = List.length (evalM getAllHospitals s))%nat
  /\ forall hospital,
       In hospital (evalM getApprovedHospitals s) ->
       ~ In hospital (evalM getPendingHospitals s).
Proof.
  unfold getApprovedHospitals, getPendingHospitals, getAllHospitals. run.
  pose proof (filter_partition Hospital.approved (map snd (hospitals s))) as Hp.
  split; [exact Hp|]. split.
  - rewrite <- (Permutation_length Hp). now rewrite length_app.
  - intros hospital H1 H2. apply filter_In in H1, H2.
    destruct H1 as [_ H1], H2 as [_ H2]. rewrite H1 in H2. discriminate.
Qed.

Lemma setApproved_back (hospital : Hospital.t) (approved : bool) :
  setApproved (setApproved hospital approved) (Hospital.approved hospital) = hospital.
Proof. now destruct hospital. Qed.

(** X4. [updateHospitalApproval] on a stored hospital writes the flag and
    nothing else: the answer is the hospital with the new flag, which is
    what [getHospital] returns afterwards; other hospitals, bed types, beds
    and bookings are as before (a revocation does not cascade); and setting
    the flag back to its old value gives back the store exactly. For an
    unknown id the answer is [undefined] and the store is untouched. *)
Theorem approval_writes_one_flag (id : Z) (approved : bool) (s : MemStorage) :
  (evalM (getHospital id) s = None ->
   updateHospitalApproval id approved s = (None, s))
  /\ forall hospital,
       evalM (getHospital id) s = Some hospital ->
       let s' := execM (updateHospitalApproval id approved) s in
       evalM (updateHospitalApproval id approved) s
         = Some (setApproved hospital approved)
       /\ evalM (getHospital id) s' = Some (setApproved hospital approved)
       /\ (forall id', id' <> id ->
                       evalM (getHospital id') s' = evalM (getHospital id') s)
       /\ bedTypes s' = bedTypes s /\ beds s' = beds s /\ bookings s' = bookings s
       /\ execM (updateHospitalApproval id (Hospital.approved hospital)) s' = s.
Proof.
  unfold updateHospitalApproval, getHospital, putHospital. run.
  split.
  - intros Hget. now rewrite Hget.
  - intros hospital Hget. rewrite Hget. cbn.
    rewrite !get_set_same. cbn.
    repeat split.
    + intros id' Hne. apply get_set_other. congruence.
    + rewrite set_set, setApproved_back, (set_same _ _ _ Hget). now destruct s.
Qed.

Lemma approval_writes_one_flag_witness :
  execM (updateHospitalApproval 1 true)
    (execM (updateHospitalApproval 1 false) oneBedStore)
  = oneBedStore.
Proof.
  destruct (approval_writes_one_flag 1 false oneBedStore) as [_ H].
  destruct (H (Hospital.mk 1 "city" "secret" "City Hospital" "city@example.org"
                 "1 Main St" "Springfield" "IL" "62701" "555-0100"
                 None None None true) eq_refl) as (_ & _ & _ & _ & _ & _ & Hback).
  exact Hback.
Defined.

(** ** Requests that are refused, bookings that are taken *)

(** X5. A request that a handler answers with an error status (400 and
    above) leaves the store exactly as it was: nothing is written before a
    check fails. *)
Theorem refused_request_changes_nothing (r : Request) (s : MemStorage) :
  400 <= status (evalM (handle r) s) ->
  execM (handle r) s = s.
Proof.
  destruct r as [data | hid approved | hid form | hid bid st | uid form now | uid bid];
    cbn [handle].
  - unfold postHospitalsRegister, getHospitalByUsername, createHospital. run.
    destruct (find _ _); cbn; [reflexivity | lia].
  - unfold patchAdminHospital, updateHospitalApproval, getHospital, putHospital. run.
    destruct (JsMap.get (hospitals s) hid) eqn:Hget; cbn; [|reflexivity].
    rewrite Hget. cbn. lia.
  - unfold postHospitalBeds, getBedByHospitalAndType, updateBed, getBed, putBed,
      createBed. run.
    destruct (find _ _) as [bed|]; cbn; [|lia].
    destruct (JsMap.get (beds s) (Bed.id bed)); cbn; [lia | reflexivity].
  - unfold patchHospitalBooking.
    destruct (negb _); [reflexivity|].
    unfold evalM, execM, bind, getBooking, gets, ret.
    destruct (JsMap.get (bookings s) bid) as [booking|]; [|reflexivity].
    destruct (negb _); [reflexivity|].
    destruct (updateBookingStatus bid st s). cbn. lia.
  - unfold postBookings, getHospital, getBedByHospitalAndType.
    unfold evalM, execM, bind, gets, ret.
    destruct (JsMap.get _ _) as [hospital|]; [|reflexivity].
    destruct (negb _); [reflexivity|].
    destruct (find _ _) as [bed|]; [|reflexivity].
    destruct (Bed.availableBeds bed <=? 0)%Z; [reflexivity|].
    destruct (createBooking _ _ _). cbn. lia.
  - unfold patchUserBookingCancel.
    unfold evalM, execM, bind, getBooking, gets, ret.
    destruct (JsMap.get (bookings s) bid) as [booking|]; [|reflexivity].
    destruct (negb _); [reflexivity|].
    destruct (negb _); [reflexivity|].
    destruct (updateBookingStatus bid "canceled" s). cbn. lia.
Qed.

Lemma refused_request_changes_nothing_witness :
  evalM (handle (CancelBooking 8 1)) bookedStore = statusJson 403 (JError "Forbidden")
  /\ execM (handle (CancelBooking 8 1)) bookedStore = bookedStore.
Proof.
  split; [reflexivity|].
  apply (refused_request_changes_nothing (CancelBooking 8 1) bookedStore).
  vm_compute. discriminate.
Defined.

Lemma createBooking_records (insertBooking : InsertBooking.t) (now : Z)
      (s : MemStorage) :
  let booking :=
    Booking.mk (bookingCurrentId s) (InsertBooking.userId insertBooking)
      (InsertBooking.hospitalId insertBooking)
      (InsertBooking.bedTypeId insertBooking)
      (InsertBooking.patientName insertBooking)
      (Js.orNull (InsertBooking.patientPhone insertBooking))
      (Js.orNull (InsertBooking.notes insertBooking))
      (Js.orElse (InsertBooking.status insertBooking) "pending") now in
  evalM (createBooking insertBooking now) s = booking
  /\ bookings (execM (createBooking insertBooking now) s)
     = JsMap.set (bookings s) (bookingCurrentId s) booking
  /\ bookingCurrentId (execM (createBooking insertBooking now) s)
     = bookingCurrentId s + 1
  /\ hospitals (execM (createBooking insertBooking now) s) = hospitals s
  /\ hospitalCurrentId (execM (createBooking insertBooking now) s)
     = hospitalCurrentId s.
Proof.
  unfold createBooking, getBedByHospitalAndType, nextBookingId, putBooking,
    updateBed, getBed, putBed. run.
  destruct (find _ _) as [bed|]; cbn; [|now repeat split].
  destruct (Bed.availableBeds bed >? 0)%Z; cbn; [|now repeat split].
  destruct (JsMap.get (beds s) (Bed.id bed)); cbn; now repeat split.
Qed.

Lemma In_values_set {V} (m : JsMap.t V) (k : Z) (v : V) :
  In v (JsMap.values (JsMap.set m k v)).
Proof. apply in_map_iff. exists (k, v). split; [reflexivity | apply In_set_new]. Qed.

(** X6. When POST /api/bookings answers 201, the booking it returns is owned
    by the user of the session, carries the status of the body, 'pending'
    when the body has none or an empty one, and the time of the request; it
    is what [getBooking] returns for its id, and it is listed for its user
    and for its hospital. *)
Theorem booking_taken_is_recorded
        (userId : Z) (form : BookingForm.t) (now : Z) (s : MemStorage)
        (booking : Booking.t) :
  evalM (postBookings userId form now) s = statusJson 201 (JBooking (Some booking)) ->
  let s' := execM (postBookings userId form now) s in
  Booking.userId booking = userId
  /\ Booking.hospitalId booking = BookingForm.hospitalId form
  /\ Booking.status booking = Js.orElse (BookingForm.status form) "pending"
  /\ Booking.createdAt booking = now
  /\ evalM (getBooking (Booking.id booking)) s' = Some booking
  /\ In booking (evalM (getBookingsByUser userId) s')
  /\ In booking (evalM (getBookingsByHospital (BookingForm.hospitalId form)) s').
Proof.
  cbv zeta. unfold postBookings, getHospital, getBedByHospitalAndType.
  unfold evalM, execM, bind, gets, ret.
  destruct (JsMap.get _ _) as [hospital|]; [|discriminate].
  destruct (negb _); [discriminate|].
  destruct (find _ _) as [bed|]; [|discriminate].
  destruct (Bed.availableBeds bed <=? 0)%Z; [discriminate|].
  pose proof (createBooking_records (bookingData userId form) now s) as H.
  cbv zeta in H. unfold evalM, execM in H.
  destruct (createBooking (bookingData userId form) now s) as [b s'].
  cbn [fst snd] in *. destruct H as (Hb & Hbookings & _).
  intros [= <-]. subst b. cbn [Booking.userId Booking.hospitalId Booking.status
                               Booking.createdAt Booking.id bookingData
                               InsertBooking.userId InsertBooking.hospitalId
                               InsertBooking.status].
  repeat split.
  - unfold getBooking, gets. cbn. rewrite Hbookings. apply get_set_same.
  - unfold getBookingsByUser, gets. cbn. apply filter_In. rewrite Hbookings.
    split; [apply In_values_set | cbn; apply Z.eqb_refl].
  - unfold getBookingsByHospital, gets. cbn. apply filter_In. rewrite Hbookings.
    split; [apply In_values_set | cbn; apply Z.eqb_refl].
Qed.

Lemma booking_taken_is_recorded_witness :
  evalM (getBooking 1) bookedStore
  = Some (Booking.mk 1 7 1 1 "Ada" None None "pending" 0).
Proof.
  exact (proj1 (proj2 (proj2 (proj2 (proj2
           (booking_taken_is_recorded 7 patientForm 0 oneBedStore
              (Booking.mk 1 7 1 1 "Ada" None None "pending" 0) eq_refl)))))).
Defined.

(** X7. A hospital that is unknown or not approved is not served: GET
    /api/hospitals/:id/beds and POST /api/bookings for it answer 404
    'Hospital not found', the provider is not consulted and the store is
    left as it was. *)
Theorem unapproved_hospital_is_hidden (hospitalId : Z) (s : MemStorage) :
  (forall hospital, evalM (getHospital hospitalId) s = Some hospital ->
                    Hospital.approved hospital = false) ->
  (forall apiConfig remote detail,
      getHospitalsBeds apiConfig remote detail hospitalId s
      = (NotListed 404 "Hospital not found", s))
  /\ (forall userId form now,
         BookingForm.hospitalId form = hospitalId ->
         postBookings userId form now s
         = (statusJson 404 (JError "Hospital not found"), s)).
Proof.
  intros Hhidden. unfold getHospitalsBeds, postBookings, getHospital in *. run.
  split.
  - intros apiConfig remote detail.
    destruct (JsMap.get (hospitals s) hospitalId) as [hospital|]; cbn; [|reflexivity].
    now rewrite (Hhidden hospital eq_refl).
  - intros userId form now ->.
    destruct (JsMap.get (hospitals s) hospitalId) as [hospital|];
      cbn; [|reflexivity].
    now rewrite (Hhidden hospital eq_refl).
Qed.

Lemma unapproved_hospital_is_hidden_witness :
  postBookings 7 (BookingForm.mk 2 1 "Ada" None None None) 0 twoHospitalStore
  = (statusJson 404 (JError "Hospital not found"), twoHospitalStore).
Proof.
  refine (proj2 (unapproved_hospital_is_hidden 2 twoHospitalStore _) 7
            (BookingForm.mk 2 1 "Ada" None None None) 0 eq_refl).
  intros hospital H. vm_compute in H. injection H as <-. reflexivity.
Defined.

(** ** Reasoning along a computation *)

Section Steps.

Context (R : MemStorage -> MemStorage -> Prop).
Hypothesis R_refl : forall s, R s s.
Hypothesis R_trans : forall s1 s2 s3, R s1 s2 -> R s2 s3 -> R s1 s3.

Lemma steps_ret {A} (a : A) : steps R (ret a).
Proof. intros s. apply R_refl. Qed.

Lemma steps_gets {A} (f : MemStorage -> A) : steps R (gets f).
Proof. intros s. apply R_refl. Qed.

Lemma steps_bind {A B} (c : M A) (f : A -> M B) :
  steps R c -> (forall a, steps R (f a)) -> steps R (bind c f).
Proof.
  intros Hc Hf s. unfold execM, bind.
  specialize (Hc s). unfold execM in Hc. destruct (c s) as [a s1].
  exact (R_trans _ _ _ Hc (Hf a s1)).
Qed.

End Steps.

(** Walk down a method: the plumbing by the lemmas above, the store calls by
    [prim]. *)
Ltac step_all refl trans prim :=
  repeat first
    [ apply (steps_ret _ refl)
    | apply (steps_gets _ refl)
    | prim
    | apply (steps_bind _ trans); [|intros ?]
    | match goal with
      | |- steps _ (match ?x with _ => _ end) => destruct x
      | |- steps _ (if ?b then _ else _) => destruct b
      end ].

(** A store call that does not write what the relation watches. *)
Ltac by_running :=
  let s := fresh "s" in
  intros s;
  unfold createHospital, updateHospitalApproval, getHospital, putHospital,
    createBedType, createBed, updateBed, getBed, putBed, putBooking,
    nextBookingId;
  unfold execM, bind, ret, gets, modify; cbn;
  repeat match goal with
         | |- context [match ?x with _ => _ end] => destruct x; cbn
         end;
  repeat split; reflexivity.

Lemma sameBookings_refl s : sameBookings s s.
Proof. now split. Qed.

Lemma sameBookings_trans s1 s2 s3 :
  sameBookings s1 s2 -> sameBookings s2 s3 -> sameBookings s1 s3.
Proof. unfold sameBookings. intros [] []. split; congruence. Qed.

Lemma sameHospitals_refl s : sameHospitals s s.
Proof. now split. Qed.

Lemma sameHospitals_trans s1 s2 s3 :
  sameHospitals s1 s2 -> sameHospitals s2 s3 -> sameHospitals s1 s3.
Proof. unfold sameHospitals. intros [] []. split; congruence. Qed.

Ltac bookings_kept :=
  step_all sameBookings_refl sameBookings_trans
           ltac:(first [ assumption | solve [by_running] ]).

Ltac hospitals_kept :=
  step_all sameHospitals_refl sameHospitals_trans
           ltac:(first [ assumption | solve [by_running] ]).

Lemma ingestBeds_sameBookings hospitalId apiBeds :
  forall bedTypeMap, steps sameBookings (ingestBeds hospitalId bedTypeMap apiBeds).
Proof.
  induction apiBeds as [|apiBed rest IH]; intros bedTypeMap; cbn [ingestBeds].
  - apply (steps_ret _ sameBookings_refl).
  - apply (steps_bind _ sameBookings_trans); [|intros ?; apply IH].
    unfold ingestBed, resolveBedType, storeBed, getBedByHospitalAndType.
    bookings_kept.
Qed.

Lemma processHospitalBeds_sameBookings hospitalId apiBeds :
  steps sameBookings (processHospitalBeds hospitalId apiBeds).
Proof.
  unfold processHospitalBeds, getAllBedTypes.
  apply (steps_bind _ sameBookings_trans);
    [apply (steps_gets _ sameBookings_refl) | intros ?; apply ingestBeds_sameBookings].
Qed.

Lemma syncHospitals_sameBookings data :
  forall acc, steps sameBookings (syncHospitals data acc).
Proof.
  induction data as [|apiHospital rest IH]; intros acc; cbn [syncHospitals].
  - apply (steps_ret _ sameBookings_refl).
  - apply (steps_bind _ sameBookings_trans); [|intros ?; apply IH].
    pose proof processHospitalBeds_sameBookings as Hp.
    unfold syncHospital, getHospitalByUsername.
    step_all sameBookings_refl sameBookings_trans
             ltac:(first [ apply Hp | solve [by_running] ]).
Qed.

Lemma getHospitalsByLocation_sameBookings apiConfig remote location :
  steps sameBookings (getHospitalsByLocation apiConfig remote location).
Proof.
  unfold getHospitalsByLocation, getApprovedHospitals.
  destruct (negb _); [apply (steps_gets _ sameBookings_refl)|].
  destruct (listHospitals _ _);
    [apply syncHospitals_sameBookings | apply (steps_gets _ sameBookings_refl)].
Qed.

Lemma getHospitalBeds_sameBookings apiConfig remote detail hospitalId :
  steps sameBookings (getHospitalBeds apiConfig remote detail hospitalId).
Proof.
  pose proof processHospitalBeds_sameBookings as Hp.
  unfold getHospitalBeds, getBedsByHospital, getHospital.
  step_all sameBookings_refl sameBookings_trans
           ltac:(first [ apply Hp | solve [by_running] ]).
Qed.

Lemma getHospitalById_sameBookings apiConfig remote detail id :
  steps sameBookings (getHospitalById apiConfig remote detail id).
Proof.
  pose proof processHospitalBeds_sameBookings as Hp.
  unfold getHospitalById, getHospital.
  step_all sameBookings_refl sameBookings_trans
           ltac:(first [ apply Hp | solve [by_running] ]).
Qed.

Lemma getHospitalBeds_sameHospitals apiConfig remote detail hospitalId :
  steps sameHospitals (getHospitalBeds apiConfig remote detail hospitalId).
Proof.
  assert (Hp : forall h l, steps sameHospitals (processHospitalBeds h l))
    by (intros h l s; apply processHospitalBeds_hospitals).
  unfold getHospitalBeds, getBedsByHospital, getHospital.
  step_all sameHospitals_refl sameHospitals_trans
           ltac:(first [ apply Hp | solve [by_running] ]).
Qed.

Lemma getHospitalById_sameHospitals apiConfig remote detail id :
  steps sameHospitals (getHospitalById apiConfig remote detail id).
Proof.
  assert (Hp : forall h l, steps sameHospitals (processHospitalBeds h l))
    by (intros h l s; apply processHospitalBeds_hospitals).
  unfold getHospitalById, getHospital.
  step_all sameHospitals_refl sameHospitals_trans
           ltac:(first [ apply Hp | solve [by_running] ]).
Qed.

(** X8. The calls of the hospital-data service never write a booking: after
    [getHospitalsByLocation], [getHospitalBeds] or [getHospitalById],
    whatever the provider answers, the map of bookings and its counter are
    as before; the two per-hospital calls leave the map of hospitals and its
    counter as they were, too. *)
Theorem service_never_writes_bookings
        (apiConfig : ApiConfig) (remote : Remote) (s : MemStorage) :
  (forall location,
      sameBookings s (execM (getHospitalsByLocation apiConfig remote location) s))
  /\ (forall detail hospitalId,
         sameBookings s (execM (getHospitalBeds apiConfig remote detail hospitalId) s)
         /\ sameHospitals s
              (execM (getHospitalBeds apiConfig remote detail hospitalId) s))
  /\ (forall detail id,
         sameBookings s (execM (getHospitalById apiConfig remote detail id) s)
         /\ sameHospitals s (execM (getHospitalById apiConfig remote detail id) s)).
Proof.
  split; [|split].
  - intros location. apply getHospitalsByLocation_sameBookings.
  - intros detail hospitalId.
    split; [apply getHospitalBeds_sameBookings | apply getHospitalBeds_sameHospitals].
  - intros detail id.
    split; [apply getHospitalById_sameBookings | apply getHospitalById_sameHospitals].
Qed.

(** ** What stays across everything the server does *)

Lemma setStatus_same (booking : Booking.t) :
  setStatus booking (Booking.status booking) = booking.
Proof. now destruct booking. Qed.

Lemma setStatus_twice (booking : Booking.t) (status status' : string) :
  setStatus (setStatus booking status) status' = setStatus booking status'.
Proof. reflexivity. Qed.

Lemma persists_refl s : persists s s.
Proof.
  intros Hbelow. split; [assumption|].
  intros id booking Hget. exists (Booking.status booking).
  now rewrite setStatus_same.
Qed.

Lemma persists_trans s1 s2 s3 : persists s1 s2 -> persists s2 s3 -> persists s1 s3.
Proof.
  intros H12 H23 Hbelow. destruct (H12 Hbelow) as [Hbelow2 Hkeep2].
  destruct (H23 Hbelow2) as [Hbelow3 Hkeep3]. split; [assumption|].
  intros id booking Hget. destruct (Hkeep2 id booking Hget) as [st Hget2].
  destruct (Hkeep3 id _ Hget2) as [st' Hget3]. exists st'.
  now rewrite setStatus_twice in Hget3.
Qed.

Lemma sameBookings_persists s s' : sameBookings s s' -> persists s s'.
Proof.
  intros [Hb Hn] Hbelow. rewrite Hb, Hn. split; [assumption|].
  intros id booking Hget. exists (Booking.status booking).
  now rewrite setStatus_same.
Qed.

Lemma createBooking_persists insertBooking now :
  steps persists (createBooking insertBooking now).
Proof.
  intros s Hbelow.
  destruct (createBooking_records insertBooking now s) as (_ & Hb & Hn & _).
  rewrite Hb, Hn.
  pose proof (below_get_None _ _ Hbelow) as Hnone.
  split.
  - rewrite (set_fresh _ _ _ Hnone). now apply below_app.
  - intros id booking Hget. exists (Booking.status booking).
    rewrite setStatus_same, get_set_other; [assumption|].
    intros <-. congruence.
Qed.

Lemma updateBookingStatus_records (id : Z) (status : string) (s : MemStorage) :
  let s' := execM (updateBookingStatus id status) s in
  bookings s'
  = match JsMap.get (bookings s) id with
    | Some booking => JsMap.set (bookings s) id (setStatus booking status)
    | None => bookings s
    end
  /\ bookingCurrentId s' = bookingCurrentId s
  /\ sameHospitals s s'.
Proof.
  unfold sameHospitals, updateBookingStatus, getBooking, getBedByHospitalAndType,
    updateBed, getBed, putBed, putBooking. run.
  destruct (JsMap.get (bookings s) id) as [booking|]; cbn; [|now repeat split].
  destruct ((Booking.status booking =? "pending") && (status =? "canceled")); cbn;
    [|now repeat split].
  destruct (find _ _) as [bed|]; cbn; [|now repeat split].
  destruct (JsMap.get (beds s) (Bed.id bed)); cbn; now repeat split.
Qed.

Lemma updateBookingStatus_persists id status :
  steps persists (updateBookingStatus id status).
Proof.
  intros s Hbelow.
  destruct (updateBookingStatus_records id status s) as (Hb & Hn & _).
  rewrite Hb, Hn.
  destruct (JsMap.get (bookings s) id) as [booking|] eqn:Hget.
  - split.
    + apply below_set; [assumption|].
      exact (below_In _ _ _ _ Hbelow (get_In _ _ _ Hget)).
    + intros id' booking' Hget'. destruct (Z.eq_dec id' id) as [-> | Hne].
      * exists status. rewrite get_set_same. congruence.
      * exists (Booking.status booking').
        rewrite setStatus_same, get_set_other; [assumption | congruence].
  - apply (persists_refl s Hbelow).
Qed.

Ltac bookings_persist :=
  step_all persists_refl persists_trans
           ltac:(first [ apply createBooking_persists
                       | apply updateBookingStatus_persists
                       | solve [let s0 := fresh "s" in
                                intros s0; apply sameBookings_persists;
                                revert s0; by_running] ]).

Lemma handle_persists r : steps persists (handle r).
Proof.
  destruct r; cbn [handle];
    unfold postHospitalsRegister, patchAdminHospital, postHospitalBeds,
      patchHospitalBooking, postBookings, patchUserBookingCancel,
      getHospitalByUsername, getHospital, getBedByHospitalAndType, getBooking;
    bookings_persist.
Qed.

Lemma perform_persists a : steps persists (perform a).
Proof.
  destruct a as [r | call | call | call]; cbn [perform];
    (apply (steps_bind _ persists_trans); [|intros ?; apply (steps_ret _ persists_refl)]).
  - apply handle_persists.
  - intros s. apply sameBookings_persists, getHospitalsByLocation_sameBookings.
  - intros s. apply sameBookings_persists, getHospitalBeds_sameBookings.
  - intros s. apply sameBookings_persists, getHospitalById_sameBookings.
Qed.

Lemma performAll_persists actions : steps persists (performAll actions).
Proof.
  induction actions as [|a rest IH]; cbn [performAll].
  - apply (steps_ret _ persists_refl).
  - apply (steps_bind _ persists_trans); [apply perform_persists | intros _; exact IH].
Qed.

(** X9. No booking is ever deleted or rewritten: a booking stored at some
    point of the server's life is stored under the same id at every later
    point, with the same user, hospital, bed type, patient and date; only
    its status may differ. *)
Theorem bookings_persist
        (before after : list Action) (id : Z) (booking : Booking.t) :
  evalM (getBooking id) (reached before) = Some booking ->
  exists status,
    evalM (getBooking id) (execM (performAll after) (reached before))
    = Some (setStatus booking status).
Proof.
  intros Hget.
  assert (Hbelow : below (bookingCurrentId (reached before))
                     (bookings (reached before)) = true).
  { exact (proj1 (performAll_persists before newMemStorage eq_refl)). }
  destruct (performAll_persists after (reached before) Hbelow) as [_ Hkeep].
  exact (Hkeep id booking Hget).
Qed.

Lemma bookings_persist_witness :
  exists status,
    evalM (getBooking 1)
      (execM (performAll [Handle (CancelBooking 7 1)])
         (reached (map Handle [RegisterHospital cityHospital;
                               SetHospitalApproval 1 true;
                               PostHospitalBed 1 (BedForm.mk 1 1 1 None);
                               PostBooking 7 patientForm 0])))
    = Some (setStatus (Booking.mk 1 7 1 1 "Ada" None None "pending" 0) status).
Proof.
  apply (bookings_persist
           (map Handle [RegisterHospital cityHospital;
                        SetHospitalApproval 1 true;
                        PostHospitalBed 1 (BedForm.mk 1 1 1 None);
                        PostBooking 7 patientForm 0])
           [Handle (CancelBooking 7 1)] 1).
  reflexivity.
Defined.

(** *** Usernames of hospitals *)

Lemma noDouble_same username s s' :
  sameHospitals s s' ->
  below (hospitalCurrentId s) (hospitals s) = true ->
  noDouble username s s'.
Proof.
  intros [Hh Hc] Hbelow. unfold noDouble, recordsFor. rewrite Hh, Hc.
  repeat split; [assumption | lia | lia].
Qed.

Lemma singleNames_refl s : singleNames s s.
Proof. intros Hbelow username. now apply noDouble_refl. Qed.

Lemma singleNames_trans s1 s2 s3 :
  singleNames s1 s2 -> singleNames s2 s3 -> singleNames s1 s3.
Proof.
  intros H12 H23 Hbelow username.
  pose proof (H12 Hbelow username) as Ha.
  apply noDouble_trans with (s2 := s2); [assumption|].
  apply H23. exact (proj1 Ha).
Qed.

Lemma sameHospitals_singleNames s s' : sameHospitals s s' -> singleNames s s'.
Proof. intros H Hbelow username. now apply noDouble_same. Qed.

Lemma steps_sameHospitals_singleNames {A} (c : M A) :
  steps sameHospitals c -> steps singleNames c.
Proof. intros H s. apply sameHospitals_singleNames, H. Qed.

Lemma postHospitalsRegister_singleNames data :
  steps singleNames (postHospitalsRegister data).
Proof.
  intros s Hbelow username.
  unfold postHospitalsRegister, getHospitalByUsername, createHospital. run.
  fold (sameUsername (InsertHospital.username data)).
  destruct (find _ _) eqn:Hfind; cbn; [now apply noDouble_refl|].
  unfold noDouble, recordsFor. cbn [hospitals hospitalCurrentId].
  rewrite (set_fresh _ _ _ (below_get_None _ _ Hbelow)).
  split; [now apply below_app|].
  unfold JsMap.values. rewrite map_app, filter_app, length_app. cbn [map snd filter].
  match goal with |- context [sameUsername username ?h] => set (hospital := h) end.
  destruct (sameUsername username hospital) eqn:E; cbn [List.length]; [|lia].
  apply find_none_filter in Hfind.
  assert (Hsame : filter (sameUsername username) (map snd (hospitals s))
                  = filter (sameUsername (InsertHospital.username data))
                      (map snd (hospitals s))).
  { apply filter_ext. intros h. unfold sameUsername in *.
    apply String.eqb_eq in E. cbn in E. now rewrite E. }
  rewrite Hsame, Hfind. cbn [List.length]. lia.
Qed.

Lemma updateHospitalApproval_singleNames id approved :
  steps singleNames (updateHospitalApproval id approved).
Proof.
  intros s Hbelow username.
  unfold updateHospitalApproval, getHospital, putHospital. run.
  destruct (JsMap.get (hospitals s) id) as [hospital|] eqn:Hget; cbn;
    [|now apply noDouble_refl].
  unfold noDouble, recordsFor. cbn [hospitals hospitalCurrentId].
  split.
  - apply below_set; [assumption|].
    exact (below_In _ _ _ _ Hbelow (get_In _ _ _ Hget)).
  - pose proof (count_set (sameUsername username) (hospitals s) id
                  (setApproved hospital approved) hospital Hget) as Hcount.
    change (sameUsername username (setApproved hospital approved))
      with (sameUsername username hospital) in Hcount.
    destruct (sameUsername username hospital); lia.
Qed.

Lemma createBooking_sameHospitals insertBooking now :
  steps sameHospitals (createBooking insertBooking now).
Proof.
  intros s. destruct (createBooking_records insertBooking now s) as (_ & _ & _ & H1 & H2).
  now split.
Qed.

Lemma updateBookingStatus_sameHospitals id status :
  steps sameHospitals (updateBookingStatus id status).
Proof. intros s. apply updateBookingStatus_records. Qed.

Lemma handle_singleNames r : steps singleNames (handle r).
Proof.
  destruct r; cbn [handle].
  - apply postHospitalsRegister_singleNames.
  - unfold patchAdminHospital, getHospital.
    step_all singleNames_refl singleNames_trans
             ltac:(apply updateHospitalApproval_singleNames).
  - apply steps_sameHospitals_singleNames.
    unfold postHospitalBeds, getBedByHospitalAndType. hospitals_kept.
  - apply steps_sameHospitals_singleNames.
    pose proof updateBookingStatus_sameHospitals.
    unfold patchHospitalBooking, getBooking. hospitals_kept. all: auto.
  - apply steps_sameHospitals_singleNames.
    pose proof createBooking_sameHospitals.
    unfold postBookings, getHospital, getBedByHospitalAndType. hospitals_kept.
    all: auto.
  - apply steps_sameHospitals_singleNames.
    pose proof updateBookingStatus_sameHospitals.
    unfold patchUserBookingCancel, getBooking. hospitals_kept. all: auto.
Qed.

Lemma perform_singleNames a : steps singleNames (perform a).
Proof.
  destruct a as [r | call | call | call]; cbn [perform];
    (apply (steps_bind _ singleNames_trans);
     [|intros ?; apply (steps_ret _ singleNames_refl)]).
  - apply handle_singleNames.
  - intros s Hbelow username. now apply getHospitalsByLocation_noDouble.
  - intros s. apply sameHospitals_singleNames, getHospitalBeds_sameHospitals.
  - intros s. apply sameHospitals_singleNames, getHospitalById_sameHospitals.
Qed.

Lemma performAll_singleNames actions : steps singleNames (performAll actions).
Proof.
  induction actions as [|a rest IH]; cbn [performAll].
  - apply (steps_ret _ singleNames_refl).
  - apply (steps_bind _ singleNames_trans);
      [apply perform_singleNames | intros _; exact IH].
Qed.

(** X10. Whatever the server has gone through since it started, no two
    stored hospitals have usernames that are equal up to letter case:
    registration and directory sync both look the name up, the way the
    login does, before they create a record. *)
Theorem hospital_usernames_stay_single (actions : list Action) (username : string) :
  (recordsFor username (reached actions) <= 1)%nat.
Proof.
  destruct (performAll_singleNames actions newMemStorage eq_refl username)
    as (_ & _ & H).
  exact H.
Qed.

(** *** Bed records: one per pair, counts that pass a test *)

Section Tidy.

Context (q : Z -> Z -> bool).
Hypothesis q_taken :
  forall total available, q total available = true -> available > 0 ->
                          q total (available - 1) = true.
Hypothesis q_given :
  forall total available, q total available = true ->
                          q total (available + 1) = true.

Lemma staysTidy_refl s : staysTidy q s s.
Proof. intros H. exact H. Qed.

Lemma staysTidy_trans s1 s2 s3 :
  staysTidy q s1 s2 -> staysTidy q s2 s3 -> staysTidy q s1 s3.
Proof. unfold staysTidy. auto. Qed.

(** A computation that leaves the beds alone and keeps the store well keyed. *)
Lemma staysTidy_same_beds {A} (c : M A) :
  keeps c -> (forall s, beds (execM c s) = beds s) -> steps (staysTidy q) c.
Proof.
  intros Hk Hb s (Hw & Hu & Hq). unfold tidy, uniquePairs, countsAll.
  rewrite Hb. repeat split; try assumption. now apply Hk.
Qed.

(** An update of the record that a lookup found, by fields that keep its
    pair. *)
Lemma updateBed_tidy (p : Bed.t -> bool) (bed : Bed.t) (bedData : PartialBed.t)
      (s : MemStorage) :
  tidy q s ->
  find p (JsMap.values (beds s)) = Some bed ->
  Bed.hospitalId (mergeBed bed bedData) = Bed.hospitalId bed ->
  Bed.bedTypeId (mergeBed bed bedData) = Bed.bedTypeId bed ->
  q (Bed.totalBeds (mergeBed bed bedData)) (Bed.availableBeds (mergeBed bed bedData))
    = true ->
  tidy q (execM (updateBed (Bed.id bed) bedData) s).
Proof.
  intros (Hw & Hu & Hq) Hfind Eh Et Hpass.
  split; [now apply keeps_updateBed|].
  apply wellKeyed_iff in Hw. destruct Hw as (Hk & _ & _).
  pose proof (find_get Bed.id (beds s) _ bed Hk Hfind) as Hget.
  pose proof (proj1 (find_some _ _ Hfind)) as Hin.
  set (bed' := mergeBed bed bedData) in *.
  assert (Hbeds : beds (execM (updateBed (Bed.id bed) bedData) s)
                  = JsMap.set (beds s) (Bed.id bed) bed').
  { unfold updateBed, getBed, putBed, execM, bind, gets, modify, ret. cbn.
    now rewrite Hget. }
  clearbody bed'. unfold uniquePairs, countsAll. rewrite Hbeds.
  assert (Hcases : forall x,
             In x (JsMap.values (JsMap.set (beds s) (Bed.id bed) bed')) ->
             x = bed' \/ (In x (JsMap.values (beds s)) /\ Bed.id x <> Bed.id bed)).
  { intros x Hx. now apply In_values_replaced. }
  split.
  - intros b1 b2 H1 H2 E1 E2.
    apply Hcases in H1, H2.
    destruct H1 as [-> | [H1 N1]], H2 as [-> | [H2 N2]].
    + reflexivity.
    + exfalso. apply N2. f_equal. apply Hu; try assumption; congruence.
    + exfalso. apply N1. f_equal. apply Hu; try assumption; congruence.
    + now apply Hu.
  - intros x Hx. apply Hcases in Hx. destruct Hx as [-> | [Hx _]]; [assumption|].
    now apply Hq.
Qed.

(** A record created for a pair that a lookup found to have none. *)
Lemma createBed_tidy (insertBed : InsertBed.t) (s : MemStorage) :
  tidy q s ->
  find (bedFor (InsertBed.hospitalId insertBed) (InsertBed.bedTypeId insertBed))
       (JsMap.values (beds s)) = None ->
  q (InsertBed.totalBeds insertBed) (InsertBed.availableBeds insertBed) = true ->
  tidy q (execM (createBed insertBed) s).
Proof.
  intros (Hw & Hu & Hq) Hnone Hpass.
  split; [now apply keeps_createBed|].
  apply wellKeyed_iff in Hw. destruct Hw as (_ & Hbelow & _).
  unfold uniquePairs, countsAll, createBed. run.
  rewrite (set_fresh _ _ _ (below_get_None _ _ Hbelow)), map_app. cbn [map snd].
  set (bed := Bed.mk _ _ _ _ _ _).
  assert (Hfresh : forall x, In x (map snd (beds s)) ->
                     ~ (Bed.hospitalId x = Bed.hospitalId bed
                        /\ Bed.bedTypeId x = Bed.bedTypeId bed)).
  { intros x Hx E. pose proof (find_none _ _ Hnone x Hx) as F.
    apply bedFor_true in E. cbn in E. congruence. }
  split.
  - intros b1 b2 H1 H2 E1 E2. apply in_app_or in H1, H2.
    destruct H1 as [H1 | [<- | []]], H2 as [H2 | [<- | []]].
    + now apply Hu.
    + exfalso. now apply (Hfresh b1 H1).
    + exfalso. apply (Hfresh b2 H2). now split.
    + reflexivity.
  - intros x Hx. apply in_app_or in Hx. destruct Hx as [Hx | [<- | []]].
    + now apply Hq.
    + exact Hpass.
Qed.

Lemma tidy_ext s s' :
  beds s' = beds s -> bedCurrentId s' = bedCurrentId s ->
  hospitals s' = hospitals s -> hospitalCurrentId s' = hospitalCurrentId s ->
  tidy q s -> tidy q s'.
Proof.
  intros Hb Hn Hh Hc (Hw & Hu & Hq).
  unfold tidy, wellKeyed, uniquePairs, countsAll in *.
  rewrite Hb, Hn, Hh, Hc. now repeat split.
Qed.

Arguments updateBed : simpl never.
Arguments createBed : simpl never.

Lemma createBooking_tidy insertBooking now :
  steps (staysTidy q) (createBooking insertBooking now).
Proof.
  intros s Ht. pose proof Ht as (Hw & Hu & Hq).
  unfold createBooking, nextBookingId, putBooking, getBedByHospitalAndType.
  unfold execM, bind, gets, modify, ret. cbn.
  match goal with |- context [find ?p ?l] => destruct (find p l) as [bed|] eqn:Hfind end;
    cbn; [|revert Ht; now apply tidy_ext].
  destruct (Bed.availableBeds bed >? 0)%Z eqn:Hgt; cbn;
    [|revert Ht; now apply tidy_ext].
  match goal with
  | |- context [updateBed ?i ?d ?st] =>
      pose proof (fun H1 : tidy q st => updateBed_tidy _ bed d st H1 Hfind) as Hupd;
      unfold execM in Hupd; destruct (updateBed i d st) as [u s2]
  end.
  cbn in *. apply Hupd; try reflexivity.
  - revert Ht. now apply tidy_ext.
  - apply q_taken; [|apply Z.gtb_lt in Hgt; lia].
    apply Hq. exact (proj1 (find_some _ _ Hfind)).
Qed.

Lemma updateBookingStatus_tidy id status :
  steps (staysTidy q) (updateBookingStatus id status).
Proof.
  intros s Ht. pose proof Ht as (Hw & Hu & Hq).
  unfold updateBookingStatus, getBooking, putBooking, getBedByHospitalAndType.
  unfold execM, bind, gets, modify, ret. cbn.
  destruct (JsMap.get (bookings s) id) as [booking|]; cbn; [|exact Ht].
  destruct ((Booking.status booking =? "pending") && (status =? "canceled")); cbn;
    [|revert Ht; now apply tidy_ext].
  match goal with |- context [find ?p ?l] => destruct (find p l) as [bed|] eqn:Hfind end;
    cbn; [|revert Ht; now apply tidy_ext].
  match goal with
  | |- context [updateBed ?i ?d ?st] =>
      pose proof (updateBed_tidy _ bed d st Ht Hfind) as Hupd;
      unfold execM in Hupd; destruct (updateBed i d st) as [u s2]
  end.
  cbn in *.
  assert (Hs2 : tidy q s2).
  { apply Hupd; try reflexivity.
    apply q_given. apply Hq. exact (proj1 (find_some _ _ Hfind)). }
  revert Hs2. now apply tidy_ext.
Qed.

Lemma postHospitalBeds_tidy hospitalId form s :
  q (BedForm.totalBeds form) (BedForm.availableBeds form) = true ->
  staysTidy q s (execM (postHospitalBeds hospitalId form) s).
Proof.
  intros Hpass Ht.
  unfold postHospitalBeds, getBedByHospitalAndType.
  unfold execM, bind, gets, ret. cbn.
  fold (bedFor hospitalId (TypeRef.Id (BedForm.bedTypeId form))).
  destruct (find _ _) as [bed|] eqn:Hfind.
  - pose proof (proj2 (find_some _ _ Hfind)) as Hfor.
    apply bedFor_true in Hfor. destruct Hfor as [Eh Et].
    pose proof (updateBed_tidy _ bed (asPartial (bedData hospitalId form)) s
                  Ht Hfind) as Hupd.
    unfold execM in Hupd. destruct (updateBed _ _ s) as [u s2]. cbn in *.
    apply Hupd; try assumption; congruence.
  - pose proof (createBed_tidy (bedData hospitalId form) s Ht Hfind Hpass) as Hnew.
    unfold execM in Hnew. now destruct (createBed _ s).
Qed.

Lemma storeBed_tidy hospitalId bedTypeId apiBed s :
  q (ApiBed.total apiBed) (ApiBed.available apiBed) = true ->
  staysTidy q s (execM (storeBed hospitalId bedTypeId apiBed) s).
Proof.
  intros Hpass Ht.
  unfold storeBed, getBedByHospitalAndType.
  unfold execM, bind, gets, ret. cbn.
  fold (bedFor hospitalId bedTypeId).
  destruct (find _ _) as [bed|] eqn:Hfind.
  - pose proof (updateBed_tidy _ bed (remoteCounts apiBed) s Ht Hfind) as Hupd.
    unfold execM in Hupd. destruct (updateBed _ _ s) as [u s2]. cbn in *.
    now apply Hupd.
  - pose proof (createBed_tidy
                  (InsertBed.mk hospitalId bedTypeId (ApiBed.total apiBed)
                     (ApiBed.available apiBed) None) s Ht Hfind Hpass) as Hnew.
    unfold execM in Hnew. now destruct (createBed _ s).
Qed.

Ltac tidy_kept :=
  step_all staysTidy_refl staysTidy_trans
           ltac:(first
                   [ apply createBooking_tidy
                   | apply updateBookingStatus_tidy
                   | solve [apply staysTidy_same_beds;
                            [ first [ apply keeps_createHospital
                                    | apply keeps_updateHospitalApproval
                                    | apply keeps_createBedType ]
                            | intros ?; unfold createHospital, updateHospitalApproval,
                                getHospital, putHospital, createBedType;
                              unfold execM, bind, gets, modify, ret; cbn;
                              repeat match goal with
                                     | |- context [match ?x with _ => _ end] =>
                                         destruct x; cbn
                                     end;
                              reflexivity ] ] ]).

Lemma handle_tidy r s :
  offer q (Handle r) s = true -> staysTidy q s (execM (handle r) s).
Proof.
  destruct r as [data | hid approved | hid form | hid bid st | uid form now | uid bid];
    cbn [offer handle]; intros Hoffer.
  - revert s. change (steps (staysTidy q) (postHospitalsRegister data)).
    unfold postHospitalsRegister, getHospitalByUsername. tidy_kept.
  - revert s. change (steps (staysTidy q) (patchAdminHospital hid approved)).
    unfold patchAdminHospital, getHospital. tidy_kept.
  - now apply postHospitalBeds_tidy.
  - revert s. change (steps (staysTidy q) (patchHospitalBooking hid bid st)).
    unfold patchHospitalBooking, getBooking. tidy_kept.
  - revert s. change (steps (staysTidy q) (postBookings uid form now)).
    unfold postBookings, getHospital, getBedByHospitalAndType. tidy_kept.
  - revert s. change (steps (staysTidy q) (patchUserBookingCancel uid bid)).
    unfold patchUserBookingCancel, getBooking. tidy_kept.
Qed.

Lemma ingestBeds_tidy hospitalId apiBeds :
  forall bedTypeMap s,
    bedsPass q apiBeds = true ->
    staysTidy q s (execM (ingestBeds hospitalId bedTypeMap apiBeds) s).
Proof.
  induction apiBeds as [|apiBed rest IH]; intros bedTypeMap s Hpass;
    cbn [ingestBeds].
  - apply staysTidy_refl.
  - cbn [bedsPass forallb] in Hpass. apply andb_true_iff in Hpass.
    destruct Hpass as [Hone Hrest].
    unfold ingestBed. unfold execM, bind.
    assert (Hresolve : steps (staysTidy q) (resolveBedType bedTypeMap apiBed)).
    { unfold resolveBedType. tidy_kept. }
    specialize (Hresolve s). unfold execM in Hresolve.
    destruct (resolveBedType bedTypeMap apiBed s) as [r s1].
    pose proof (storeBed_tidy hospitalId (fst r) apiBed s1 Hone) as Hstore.
    unfold execM in Hstore. destruct (storeBed hospitalId (fst r) apiBed s1) as [u s2].
    cbn [fst snd ret] in *.
    specialize (IH (snd r) s2 Hrest). unfold execM in IH.
    intros Ht. apply IH, Hstore, Hresolve, Ht.
Qed.

Lemma processHospitalBeds_tidy hospitalId apiBeds s :
  bedsPass q apiBeds = true ->
  staysTidy q s (execM (processHospitalBeds hospitalId apiBeds) s).
Proof.
  intros Hpass. unfold processHospitalBeds, getAllBedTypes, execM, bind, gets.
  now apply ingestBeds_tidy.
Qed.

Lemma syncHospitals_tidy data :
  forall acc s,
    forallb (fun apiHospital => bedsPass q (ApiHospital.beds apiHospital)) data
      = true ->
    staysTidy q s (execM (syncHospitals data acc) s).
Proof.
  induction data as [|apiHospital rest IH]; intros acc s Hpass;
    cbn [syncHospitals].
  - apply staysTidy_refl.
  - cbn [forallb] in Hpass. apply andb_true_iff in Hpass.
    destruct Hpass as [Hone Hrest].
    assert (Hsync : steps (staysTidy q) (syncHospital apiHospital)).
    { unfold syncHospital, getHospitalByUsername.
      step_all staysTidy_refl staysTidy_trans
               ltac:(first
                       [ solve [intros ?; now apply processHospitalBeds_tidy]
                       | solve [apply staysTidy_same_beds;
                                [ first [ apply keeps_createHospital
                                        | apply keeps_updateHospitalApproval ]
                                | intros ?; unfold createHospital,
                                    updateHospitalApproval, getHospital, putHospital;
                                  unfold execM, bind, gets, modify, ret; cbn;
                                  repeat match goal with
                                         | |- context [match ?x with _ => _ end] =>
                                             destruct x; cbn
                                         end;
                                  reflexivity ] ] ]). }
    unfold execM, bind. specialize (Hsync s). unfold execM in Hsync.
    destruct (syncHospital apiHospital s) as [h s1].
    specialize (IH (acc ++ [h])%list s1 Hrest). unfold execM in IH.
    intros Ht. apply IH, Hsync, Ht.
Qed.

Lemma detail_tidy call s :
  detailPasses q call s = true ->
  staysTidy q s (execM (getHospitalBeds (detailConfig call) (detailRemote call)
                          (detailAnswer call) (detailHospital call)) s)
  /\ staysTidy q s (execM (getHospitalById (detailConfig call) (detailRemote call)
                             (detailAnswer call) (detailHospital call)) s).
Proof.
  unfold detailPasses, getHospitalBeds, getHospitalById, getBedsByHospital,
    getHospital. unfold evalM, execM, bind, gets, ret. cbn.
  intros Hpass.
  destruct (negb _); cbn;
    destruct (JsMap.get _ _) as [hospital|]; cbn;
    try (split; apply staysTidy_refl).
  destruct (detailAnswer call _) as [[data|]|]; cbn;
    try (split; apply staysTidy_refl).
  pose proof (processHospitalBeds_tidy (detailHospital call)
                (ApiHospital.beds data) s Hpass) as Hp.
  unfold execM in Hp.
  destruct (processHospitalBeds _ _ s) as [u s1]. cbn in *. now split.
Qed.

Lemma perform_tidy a s :
  offer q a s = true -> staysTidy q s (execM (perform a) s).
Proof.
  destruct a as [r | call | call | call]; cbn [perform]; intros Hoffer.
  - pose proof (handle_tidy r s Hoffer) as H. unfold execM, bind in *.
    now destruct (handle r s).
  - cbn [offer] in Hoffer.
    unfold execM, bind, getHospitalsByLocation, getApprovedHospitals, gets.
    destruct (negb _); cbn; [apply staysTidy_refl|].
    destruct (listHospitals _ _) as [data|]; cbn; [|apply staysTidy_refl].
    pose proof (syncHospitals_tidy data [] s Hoffer) as H. unfold execM in H.
    now destruct (syncHospitals data [] s).
  - pose proof (proj1 (detail_tidy call s Hoffer)) as H. unfold execM, bind in *.
    now destruct (getHospitalBeds _ _ _ _ s).
  - pose proof (proj2 (detail_tidy call s Hoffer)) as H. unfold execM, bind in *.
    now destruct (getHospitalById _ _ _ _ s).
Qed.

Lemma performAll_tidy actions :
  forall s, offers q actions s = true ->
            staysTidy q s (execM (performAll actions) s).
Proof.
  induction actions as [|a rest IH]; intros s Hoffers; cbn [performAll].
  - apply staysTidy_refl.
  - cbn [offers] in Hoffers. apply andb_true_iff in Hoffers.
    destruct Hoffers as [Hone Hrest].
    pose proof (perform_tidy a s Hone) as H1.
    specialize (IH _ Hrest).
    unfold execM, bind in *. destruct (perform a s) as [u s1]. cbn in *.
    intros Ht. apply IH, H1, Ht.
Qed.

End Tidy.

Lemma offers_anyCounts actions : forall s, offers anyCounts actions s = true.
Proof.
  assert (Hbeds : forall l, bedsPass anyCounts l = true).
  { intros l. unfold bedsPass. apply forallb_forall. reflexivity. }
  assert (Hone : forall a s, offer anyCounts a s = true).
  { intros [r | call | call | call] s; cbn [offer].
    - now destruct r.
    - destruct (listHospitals _ _); [|reflexivity].
      apply forallb_forall. intros h _. apply Hbeds.
    - unfold detailPasses. destruct (evalM _ s); [|reflexivity].
      destruct (detailAnswer call _) as [[data|]|]; auto.
    - unfold detailPasses. destruct (evalM _ s); [|reflexivity].
      destruct (detailAnswer call _) as [[data|]|]; auto. }
  induction actions as [|a rest IH]; intros s; cbn [offers]; [reflexivity|].
  now rewrite Hone, IH.
Qed.

Lemma tidy_new q : tidy q newMemStorage.
Proof.
  split; [reflexivity|]. split.
  - intros b1 b2 [].
  - intros bed [].
Qed.

(** X11. Whatever the server has gone through since it started, a hospital
    has at most one bed record per bed type: the bed handler, the directory
    sync and the per-hospital refresh all look the pair up before they
    create a record, and no update moves a record to another pair. *)
Theorem one_record_per_pair
        (actions : list Action) (hospitalId : Z) (b1 b2 : Bed.t) :
  In b1 (evalM (getBedsByHospital hospitalId) (reached actions)) ->
  In b2 (evalM (getBedsByHospital hospitalId) (reached actions)) ->
  Bed.bedTypeId b1 = Bed.bedTypeId b2 ->
  b1 = b2.
Proof.
  unfold getBedsByHospital, evalM, gets. cbn [fst].
  intros H1 H2 Et. apply filter_In in H1, H2.
  destruct H1 as [H1 E1], H2 as [H2 E2]. apply Z.eqb_eq in E1, E2.
  assert (Ht : tidy anyCounts (reached actions)).
  { apply (performAll_tidy anyCounts); try reflexivity.
    - apply offers_anyCounts.
    - apply tidy_new. }
  destruct Ht as (_ & Hu & _). apply Hu; try assumption. congruence.
Qed.

Lemma one_record_per_pair_witness :
  In (Bed.mk 1 1 (TypeRef.Id 1) 9 1 None)
     (evalM (getBedsByHospital 1) (reached busyDay))
  /\ Bed.mk 1 1 (TypeRef.Id 1) 9 1 None = Bed.mk 1 1 (TypeRef.Id 1) 9 1 None.
Proof.
  split; [vm_compute; left; reflexivity|].
  apply (one_record_per_pair busyDay 1).
  - vm_compute. left. reflexivity.
  - vm_compute. left. reflexivity.
  - reflexivity.
Defined.

(** X12. No bed record ever shows a negative availability, provided the
    counts that come in do not: if every bed request and every answer of the
    provider carries [available >= 0], then after any sequence of requests,
    syncs and refreshes every record has [availableBeds >= 0]. Bookings and
    cancellations need no condition. *)
Theorem availability_never_negative (actions : list Action) (bed : Bed.t) :
  offers noneNegative actions newMemStorage = true ->
  In bed (JsMap.values (beds (reached actions))) ->
  0 <= Bed.availableBeds bed.
Proof.
  intros Hoffers Hin.
  assert (Ht : tidy noneNegative (reached actions)).
  { apply (performAll_tidy noneNegative); try assumption.
    - unfold noneNegative. intros _ a Ha Hpos. apply Z.leb_le. lia.
    - unfold noneNegative. intros _ a Ha. apply Z.leb_le in Ha. apply Z.leb_le. lia.
    - apply tidy_new. }
  destruct Ht as (_ & _ & Hq). apply Z.leb_le. exact (Hq bed Hin).
Qed.

Lemma availability_never_negative_witness :
  0 <= Bed.availableBeds (Bed.mk 1 1 (TypeRef.Id 1) 9 1 None).
Proof.
  apply (availability_never_negative busyDay).
  - reflexivity.
  - vm_compute. left. reflexivity.
Defined.

(** The beds of hospital 1 at the end of [busyDay]: the refresh has written
    the provider's counts over the booking's decrement before the booking
    was canceled. *)
Example busy_day_beds :
  evalM (getBedsByHospital 1) (reached busyDay)
  = [Bed.mk 1 1 (TypeRef.Id 1) 9 1 None;
     Bed.mk 2 1 (TypeRef.Id 6) 4 4 None;
     Bed.mk 3 1 (TypeRef.Id 2) 6 6 None].
Proof. reflexivity. Qed.

(** ** Refreshing the beds of one hospital *)

Lemma ingestBeds_last hospitalId (earlier : list ApiBed.t) (apiBed : ApiBed.t) :
  forall bedTypeMap s,
    ingestible bedTypeMap s ->
    forallb ordinary (earlier ++ [apiBed]) = true ->
    exists bed,
      In bed (JsMap.values
                (beds (execM (ingestBeds hospitalId bedTypeMap (earlier ++ [apiBed])) s)))
      /\ Bed.hospitalId bed = hospitalId
      /\ Bed.totalBeds bed = ApiBed.total apiBed
      /\ Bed.availableBeds bed = ApiBed.available apiBed.
Proof.
  induction earlier as [|first rest IH]; intros bedTypeMap s Hing Hord.
  - cbn [app forallb] in Hord. rewrite andb_true_r in Hord.
    unfold ordinary in Hord. apply negb_true_iff in Hord.
    destruct (ingestBed_ordinary hospitalId bedTypeMap apiBed s Hing Hord)
      as (r & _ & Hbeds & _).
    cbn [app ingestBeds]. unfold execM, bind, ret in *.
    destruct (ingestBed hospitalId bedTypeMap apiBed s) as [m s1]. cbn [snd] in *.
    unfold getBedByHospitalAndType, evalM, gets in Hbeds. cbn [fst] in Hbeds.
    fold (bedFor hospitalId (TypeRef.Id r)) in Hbeds.
    destruct (find _ _) as [existing|] eqn:Hfind.
    + eexists. split; [rewrite Hbeds; apply In_values_set|].
      cbn. repeat split.
      pose proof (proj2 (find_some _ _ Hfind)) as Hfor.
      apply bedFor_true in Hfor. exact (proj1 Hfor).
    + eexists. split.
      * rewrite Hbeds. unfold JsMap.values. rewrite map_app.
        apply in_or_app. right. left. reflexivity.
      * cbn. now repeat split.
  - cbn [app forallb] in Hord. apply andb_true_iff in Hord.
    destruct Hord as [Hfirst Hrest].
    unfold ordinary in Hfirst. apply negb_true_iff in Hfirst.
    destruct (ingestBed_ordinary hospitalId bedTypeMap first s Hing Hfirst)
      as (_ & _ & _ & Hnext).
    cbn [app ingestBeds]. unfold execM, evalM, bind in *.
    destruct (ingestBed hospitalId bedTypeMap first s) as [m s1]. cbn [fst snd] in *.
    exact (IH m s1 Hnext Hrest).
Qed.

(** X13. A refresh of the beds of a hospital ends with the provider's
    counts: when the provider is available and answers for the hospital with
    bed entries of ordinary type names, the beds that [getHospitalBeds]
    returns include a record of that hospital whose [totalBeds] and
    [availableBeds] are those of the last entry, whatever the record held
    before and whatever bookings are pending on it. *)
Theorem refresh_takes_remote_counts
        (apiConfig : ApiConfig) (remote : Remote) (detail : Detail)
        (hospitalId : Z) (s : MemStorage) (hospital : Hospital.t)
        (data : ApiHospital.t) (earlier : list ApiBed.t) (apiBed : ApiBed.t) :
  typesOk s = true ->
  wellKeyed s = true ->
  isApiAvailable apiConfig remote = true ->
  evalM (getHospital hospitalId) s = Some hospital ->
  detail (remoteId (Hospital.username hospital)) = Some (Some data) ->
  ApiHospital.beds data = (earlier ++ [apiBed])%list ->
  forallb ordinary (ApiHospital.beds data) = true ->
  exists bed,
    In bed (evalM (getHospitalBeds apiConfig remote detail hospitalId) s)
    /\ Bed.totalBeds bed = ApiBed.total apiBed
    /\ Bed.availableBeds bed = ApiBed.available apiBed.
Proof.
  intros Htypes Hw Havailable Hget Hdetail Hbeds Hord.
  apply wellKeyed_iff in Hw. destruct Hw as (Hk & Hb & _).
  pose proof (processHospitalBeds_start s Htypes Hk Hb) as Hing.
  rewrite Hbeds in Hord.
  destruct (ingestBeds_last hospitalId earlier apiBed _ s Hing Hord)
    as (bed & Hin & Eh & Etotal & Eavailable).
  exists bed. split; [|now split].
  unfold getHospitalBeds, getHospital, getBedsByHospital in *.
  rewrite Havailable. cbn [negb].
  unfold evalM, execM, bind, gets in *. cbn [fst snd] in *.
  rewrite Hget, Hdetail, Hbeds.
  unfold processHospitalBeds, getAllBedTypes, bind, gets.
  destruct (ingestBeds hospitalId _ (earlier ++ [apiBed]) s) as [u s1].
  cbn [fst snd] in *. apply filter_In. split; [assumption|].
  now apply Z.eqb_eq.
Qed.

Lemma refresh_takes_remote_counts_witness :
  exists bed,
    In bed (evalM (getHospitalBeds withKey (remoteOf [])
                     (fun _ => Some (Some (remoteHospital "x" [ApiBed.mk "icu" 5 5])))
                     1) bookedStore)
    /\ Bed.totalBeds bed = 5 /\ Bed.availableBeds bed = 5.
Proof.
  apply (refresh_takes_remote_counts withKey (remoteOf [])
           (fun _ => Some (Some (remoteHospital "x" [ApiBed.mk "icu" 5 5])))
           1 bookedStore
           (Hospital.mk 1 "city" "secret" "City Hospital" "city@example.org"
              "1 Main St" "Springfield" "IL" "62701" "555-0100" None None None true)
           (remoteHospital "x" [ApiBed.mk "icu" 5 5]) [] (ApiBed.mk "icu" 5 5));
    reflexivity.
Defined.




(** A username that holds 'hospital_' further in loses that part, wherever
    it is. *)
Example remoteId_of_a_registered_name :
  remoteId "cityhospital_9" = "city9" /\ remoteId "city" = "city".
Proof. split; reflexivity. Qed.

(** X15. The refresh falls back on the store and writes nothing when the
    provider is unavailable, when its answer for the hospital throws, or
    when the answer is empty: [getHospitalBeds] then returns the stored beds
    of the hospital and [getHospitalById] the stored hospital. When the
    provider is available and the hospital is unknown, [getHospitalBeds]
    returns no bed, also if beds are stored under that hospital id. *)
Theorem refresh_falls_back
        (apiConfig : ApiConfig) (remote : Remote) (detail : Detail)
        (hospitalId : Z) (s : MemStorage) :
  (isApiAvailable apiConfig remote = false
   \/ (exists hospital,
          evalM (getHospital hospitalId) s = Some hospital
          /\ (detail (remoteId (Hospital.username hospital)) = None
              \/ detail (remoteId (Hospital.username hospital)) = Some None)) ->
   getHospitalBeds apiConfig remote detail hospitalId s
   = (evalM (getBedsByHospital hospitalId) s, s)
   /\ getHospitalById apiConfig remote detail hospitalId s
      = (evalM (getHospital hospitalId) s, s))
  /\ (isApiAvailable apiConfig remote = true ->
      evalM (getHospital hospitalId) s = None ->
      getHospitalBeds apiConfig remote detail hospitalId s = ([], s)
      /\ getHospitalById apiConfig remote detail hospitalId s = (None, s)).
Proof.
  unfold getHospitalBeds, getHospitalById, getHospital, getBedsByHospital.
  unfold evalM, bind, gets, ret. cbn [fst].
  split.
  - intros [Hdown | (hospital & Hget & Hanswer)].
    + rewrite Hdown. cbn [negb].
      destruct (JsMap.get (hospitals s) hospitalId); now split.
    + rewrite Hget. destruct (negb _); [now split|].
      rewrite Hget. destruct Hanswer as [-> | ->]; rewrite ?Hget; now split.
  - intros -> Hget. cbn [negb]. rewrite Hget. now split.
Qed.

Lemma refresh_falls_back_witness :
  getHospitalBeds withKey remoteDown (fun _ => None) 1 bookedStore
  = (evalM (getBedsByHospital 1) bookedStore, bookedStore).
Proof.
  refine (proj1 (proj1 (refresh_falls_back withKey remoteDown (fun _ => None) 1
                          bookedStore) _)).
  left. reflexivity.
Defined.

(** ** What a directory sync returns and adds *)

Lemma syncHospital_result (apiHospital : ApiHospital.t) (s : MemStorage) :
  sameUsername (localUsername (ApiHospital.id apiHospital))
    (evalM (syncHospital apiHospital) s) = true.
Proof.
  unfold syncHospital, evalM, bind.
  unfold getHospitalByUsername at 1. unfold gets. cbn [fst snd].
  fold (sameUsername (localUsername (ApiHospital.id apiHospital))).
  destruct (find _ _) as [found|] eqn:Hfind.
  - exact (proj2 (find_some _ _ Hfind)).
  - unfold createHospital, updateHospitalApproval, getHospital, putHospital,
      bind, gets, modify, ret. cbn.
    rewrite get_set_same.
    match goal with
    | |- context [processHospitalBeds ?h ?l ?st] =>
        destruct (processHospitalBeds h l st)
    end.
    cbn. unfold sameUsername. cbn. apply String.eqb_refl.
Qed.

(** X16. When the provider is available and answers the listing, the
    directory sync returns one hospital per remote entry, in the order of
    the answer, and the username of each is 'hospital_<id>' of its entry up
    to letter case. *)
Theorem sync_returns_one_per_entry
        (apiConfig : ApiConfig) (remote : Remote) (location : option string)
        (data : list ApiHospital.t) (s : MemStorage) :
  isApiAvailable apiConfig remote = true ->
  listHospitals remote (params location) = Some data ->
  Forall2 (fun apiHospital hospital =>
             sameUsername (localUsername (ApiHospital.id apiHospital)) hospital = true)
          data (evalM (getHospitalsByLocation apiConfig remote location) s).
Proof.
  intros Havailable Hdata. unfold getHospitalsByLocation.
  rewrite Havailable, Hdata. cbn [negb].
  assert (H : forall acc s0,
             exists l, evalM (syncHospitals data acc) s0 = (acc ++ l)%list
                       /\ Forall2 (fun apiHospital hospital =>
                                     sameUsername
                                       (localUsername (ApiHospital.id apiHospital))
                                       hospital = true) data l).
  { clear. induction data as [|apiHospital rest IH]; intros acc s0.
    - exists []. split; [symmetry; apply app_nil_r | constructor].
    - cbn [syncHospitals]. unfold evalM, bind.
      pose proof (syncHospital_result apiHospital s0) as Hone.
      unfold evalM in Hone. destruct (syncHospital apiHospital s0) as [h s1].
      cbn [fst] in Hone.
      destruct (IH (acc ++ [h])%list s1) as (l & Hl & Hall).
      exists (h :: l). split.
      + unfold evalM in Hl. rewrite Hl. now rewrite <- app_assoc.
      + now constructor. }
  destruct (H [] s) as (l & Hl & Hall). now rewrite Hl.
Qed.

Lemma sync_returns_one_per_entry_witness :
  Forall2 (fun apiHospital hospital =>
             sameUsername (localUsername (ApiHospital.id apiHospital)) hospital = true)
          [remoteHospital "42" []; remoteHospital "CITY" []]
          (evalM (getHospitalsByLocation withKey
                    (remoteOf [remoteHospital "42" []; remoteHospital "CITY" []]) None)
             oneBedStore).
Proof.
  apply (sync_returns_one_per_entry withKey
           (remoteOf [remoteHospital "42" []; remoteHospital "CITY" []]) None
           [remoteHospital "42" []; remoteHospital "CITY" []] oneBedStore);
    reflexivity.
Defined.

Lemma appendsHospitals_refl s : appendsHospitals s s.
Proof.
  intros Hbelow. split; [assumption|].
  exists []. split; [symmetry; apply app_nil_r | constructor].
Qed.

Lemma appendsHospitals_trans s1 s2 s3 :
  appendsHospitals s1 s2 -> appendsHospitals s2 s3 -> appendsHospitals s1 s3.
Proof.
  intros H12 H23 Hbelow.
  destruct (H12 Hbelow) as (Hbelow2 & added & Hh & Hall).
  destruct (H23 Hbelow2) as (Hbelow3 & added' & Hh' & Hall').
  split; [assumption|].
  exists (added ++ added')%list. split.
  - now rewrite Hh', Hh, app_assoc.
  - apply Forall_app. now split.
Qed.

Lemma syncHospital_appends (apiHospital : ApiHospital.t) (s : MemStorage) :
  appendsHospitals s (execM (syncHospital apiHospital) s).
Proof.
  intros Hbelow.
  pose proof (below_get_None _ _ Hbelow) as Hnone.
  unfold syncHospital, execM, bind.
  unfold getHospitalByUsername, gets. cbn.
  destruct (find _ _) as [found|] eqn:Hfind.
  - exact (appendsHospitals_refl s Hbelow).
  - unfold createHospital, updateHospitalApproval, getHospital, putHospital,
      bind, gets, modify, ret. cbn.
    rewrite get_set_same. cbn. rewrite set_set.
    match goal with
    | |- context [processHospitalBeds ?h ?l ?st] =>
        pose proof (processHospitalBeds_hospitals h l st) as Hp;
        unfold execM in Hp; destruct (processHospitalBeds h l st) as [u s2]
    end.
    cbn in *. destruct Hp as [Hh Hc]. rewrite Hh, Hc.
    rewrite set_fresh by assumption. split.
    + now apply below_app.
    + eexists. split; [reflexivity|].
      constructor; [|constructor]. now split.
Qed.

Lemma syncHospitals_appends data :
  forall acc s, appendsHospitals s (execM (syncHospitals data acc) s).
Proof.
  induction data as [|apiHospital rest IH]; intros acc s; cbn [syncHospitals].
  - apply appendsHospitals_refl.
  - unfold execM, bind.
    pose proof (syncHospital_appends apiHospital s) as H1.
    unfold execM in H1. destruct (syncHospital apiHospital s) as [h s1].
    cbn [snd] in H1.
    apply appendsHospitals_trans with (s2 := s1); [assumption|].
    apply IH.
Qed.

Lemma getHospitalsByLocation_appends apiConfig remote location s :
  appendsHospitals s (execM (getHospitalsByLocation apiConfig remote location) s).
Proof.
  unfold getHospitalsByLocation.
  destruct (negb _); [apply appendsHospitals_refl|].
  destruct (listHospitals _ _); [|apply appendsHospitals_refl].
  apply syncHospitals_appends.
Qed.

(** X17. A directory sync never adds to the hospitals awaiting approval and
    never takes one away: in a store whose hospital ids came from the
    counter, [getPendingHospitals] answers the same list before and after
    [getHospitalsByLocation], and [getAllHospitals] keeps the hospitals it
    had, in their order, in front of those the sync created. *)
Theorem sync_leaves_pending_list
        (apiConfig : ApiConfig) (remote : Remote) (location : option string)
        (s : MemStorage) :
  below (hospitalCurrentId s) (hospitals s) = true ->
  let s' := execM (getHospitalsByLocation apiConfig remote location) s in
  evalM getPendingHospitals s' = evalM getPendingHospitals s
  /\ exists created,
       evalM getAllHospitals s' = (evalM getAllHospitals s ++ created)%list
       /\ evalM getApprovedHospitals s'
          = (evalM getApprovedHospitals s ++ created)%list.
Proof.
  intros Hbelow s'.
  destruct (getHospitalsByLocation_appends apiConfig remote location s Hbelow)
    as (_ & added & Hh & Hall).
  fold s' in Hh.
  assert (Hyes : filter Hospital.approved (map snd added) = map snd added).
  { clear Hh. induction Hall as [|kv rest [Happroved _] _ IH]; [reflexivity|].
    cbn [map filter]. now rewrite Happroved, IH. }
  assert (Hno : filter (fun hospital => negb (Hospital.approved hospital))
                  (map snd added) = []).
  { clear Hh Hyes. induction Hall as [|kv rest [Happroved _] _ IH]; [reflexivity|].
    cbn [map filter]. now rewrite Happroved. }
  unfold getPendingHospitals, getAllHospitals, getApprovedHospitals, evalM, gets.
  cbn [fst]. unfold JsMap.values. rewrite Hh, map_app. split.
  - now rewrite filter_app, Hno, app_nil_r.
  - exists (map snd added). split; [reflexivity|].
    now rewrite filter_app, Hyes.
Qed.

Lemma sync_leaves_pending_list_witness :
  let s := execM (serve [RegisterHospital cityHospital]) newMemStorage in
  let s' := execM (getHospitalsByLocation withKey ordinaryBeds None) s in
  evalM getPendingHospitals s' = evalM getPendingHospitals s.
Proof.
  cbv zeta.
  refine (proj1 (sync_leaves_pending_list withKey ordinaryBeds None
                   (execM (serve [RegisterHospital cityHospital]) newMemStorage)
                   _)).
  reflexivity.
Defined.

Lemma find_app {A} (p : A -> bool) (l1 l2 : list A) :
  find p (l1 ++ l2)
  = match find p l1 with Some x => Some x | None => find p l2 end.
Proof.
  induction l1 as [|x l1 IH]; [reflexivity|].
  cbn. now destruct (p x).
Qed.

(** X18. A hospital that the directory sync created can be logged into at
    once with the password 'temporary_password': when no stored hospital
    carried the username 'hospital_<id>' of a remote entry before an
    available sync that lists the entry, POST /api/auth/hospital/login with
    that username and that password answers 200 afterwards and opens a
    hospital session. *)
Theorem synced_hospital_login
        (apiConfig : ApiConfig) (remote : Remote) (location : option string)
        (data : list ApiHospital.t) (apiHospital : ApiHospital.t)
        (s : MemStorage) :
  below (hospitalCurrentId s) (hospitals s) = true ->
  isApiAvailable apiConfig remote = true ->
  listHospitals remote (params location) = Some data ->
  In apiHospital data ->
  let username := localUsername (ApiHospital.id apiHospital) in
  evalM (getHospitalByUsername username) s = None ->
  let s' := execM (getHospitalsByLocation apiConfig remote location) s in
  exists hospital,
    evalM (postAuthHospitalLogin username "temporary_password") s'
    = mkLoginResponse 200
        (LHospital (Hospital.id hospital) (Hospital.username hospital)
           (Hospital.name hospital))
        (Some (mkSession (Hospital.id hospital) true)).
Proof.
  intros Hbelow Havailable Hdata Hin username Hnone s'.
  destruct (getHospitalsByLocation_appends apiConfig remote location s Hbelow)
    as (_ & added & Hh & Hall).
  fold s' in Hh.
  assert (Hpresent : (1 <= recordsFor username s')%nat).
  { subst s'. unfold getHospitalsByLocation. rewrite Havailable, Hdata.
    cbn [negb]. now apply syncHospitals_present. }
  unfold getHospitalByUsername, evalM, gets in Hnone. cbn [fst] in Hnone.
  fold (sameUsername username) in Hnone.
  assert (Hfind : exists hospital,
             find (sameUsername username) (JsMap.values (hospitals s'))
             = Some hospital /\ syncMade hospital).
  { unfold recordsFor in Hpresent. unfold JsMap.values in *.
    rewrite Hh, map_app in *. rewrite find_app, Hnone.
    rewrite filter_app, length_app in Hpresent.
    rewrite (find_none_filter _ _ Hnone) in Hpresent. cbn [List.length] in Hpresent.
    destruct (find (sameUsername username) (map snd added)) as [hospital|] eqn:E.
    - exists hospital. split; [reflexivity|].
      apply find_some in E. destruct E as [E _].
      apply in_map_iff in E. destruct E as (kv & <- & Hkv).
      rewrite Forall_forall in Hall. now apply Hall.
    - rewrite (find_none_filter _ _ E) in Hpresent. cbn in Hpresent. lia. }
  destruct Hfind as (hospital & Hfind & Happroved & Hpassword).
  exists hospital.
  unfold postAuthHospitalLogin.
  replace (loginSchema username "temporary_password") with true by reflexivity.
  cbn [negb].
  unfold hospitalLocal, getHospitalByUsername, evalM, bind, gets, ret.
  cbn [fst snd].
  fold (sameUsername username). rewrite Hfind.
  rewrite Hpassword. cbn [negb]. rewrite String.eqb_refl. cbn [negb fst].
  rewrite Happroved. reflexivity.
Qed.

Lemma synced_hospital_login_witness :
  exists hospital,
    evalM (postAuthHospitalLogin "hospital_42" "temporary_password")
      (execM (getHospitalsByLocation withKey ordinaryBeds None) oneBedStore)
    = mkLoginResponse 200
        (LHospital (Hospital.id hospital) (Hospital.username hospital)
           (Hospital.name hospital))
        (Some (mkSession (Hospital.id hospital) true)).
Proof.
  apply (synced_hospital_login withKey ordinaryBeds None
           [remoteHospital "42" [ApiBed.mk "icu" 3 2; ApiBed.mk "Burn" 4 4]]
           (remoteHospital "42" [ApiBed.mk "icu" 3 2; ApiBed.mk "Burn" 4 4])
           oneBedStore); try reflexivity.
  left. reflexivity.
Defined.

(** ** Accounts *)

Lemma get_app {V} (m m' : JsMap.t V) (k : Z) :
  JsMap.get (m ++ m')%list k
  = match JsMap.get m k with Some v => Some v | None => JsMap.get m' k end.
Proof.
  induction m as [|[k0 v0] m IH]; [reflexivity|].
  cbn. now destruct (k0 =? k)%Z.
Qed.

Lemma createUser_appends (us : UserStore) (data : InsertUser.t) :
  below (userCurrentId us) (users us) = true ->
  users (snd (createUser us data))
  = (users us ++ [(userCurrentId us, fst (createUser us data))])%list
  /\ below (userCurrentId (snd (createUser us data)))
       (users (snd (createUser us data))) = true.
Proof.
  intros Hbelow. unfold createUser. cbn [fst snd users userCurrentId].
  rewrite set_fresh by now apply below_get_None.
  split; [reflexivity | now apply below_app].
Qed.

Lemma appendsUsers_refl us : appendsUsers us us.
Proof.
  intros Hbelow. split; [assumption|].
  exists []. symmetry. apply app_nil_r.
Qed.

Lemma appendsUsers_trans us1 us2 us3 :
  appendsUsers us1 us2 -> appendsUsers us2 us3 -> appendsUsers us1 us3.
Proof.
  intros H12 H23 Hbelow.
  destruct (H12 Hbelow) as (Hbelow2 & added & Hu).
  destruct (H23 Hbelow2) as (Hbelow3 & added' & Hu').
  split; [assumption|].
  exists (added ++ added')%list. now rewrite Hu', Hu, app_assoc.
Qed.

Lemma postUsersRegister_appends us data :
  appendsUsers us (snd (postUsersRegister us data)).
Proof.
  unfold postUsersRegister.
  destruct (getUserByUsername us _); [apply appendsUsers_refl|].
  destruct (getUserByEmail us _); [apply appendsUsers_refl|].
  intros Hbelow. destruct (createUser_appends us data Hbelow) as [Hu Hb].
  destruct (createUser us data) as [newUser us']. cbn [fst snd] in *.
  split; [assumption|]. now exists [(userCurrentId us, newUser)].
Qed.

Lemma registerAll_appends datas :
  forall us, appendsUsers us (registerAll us datas).
Proof.
  induction datas as [|data rest IH]; intros us; cbn [registerAll].
  - apply appendsUsers_refl.
  - eapply appendsUsers_trans; [apply postUsersRegister_appends | apply IH].
Qed.

Lemma sameUserName_eq username username' :
  Js.toLowerCase username' = Js.toLowerCase username ->
  forall l, filter (sameUserName username') l = filter (sameUserName username) l.
Proof.
  intros E l. apply filter_ext. intros user. unfold sameUserName. now rewrite E.
Qed.

Lemma sameUserEmail_eq email email' :
  Js.toLowerCase email' = Js.toLowerCase email ->
  forall l, filter (sameUserEmail email') l = filter (sameUserEmail email) l.
Proof.
  intros E l. apply filter_ext. intros user. unfold sameUserEmail. now rewrite E.
Qed.

Lemma postUsersRegister_single us data :
  singleAccounts us -> singleAccounts (snd (postUsersRegister us data)).
Proof.
  intros (Hbelow & Hnames & Hemails). unfold postUsersRegister.
  unfold getUserByUsername, getUserByEmail.
  fold (sameUserName (InsertUser.username data)).
  fold (sameUserEmail (InsertUser.email data)).
  destruct (find (sameUserName _) _) eqn:Hname; [now repeat split|].
  destruct (find (sameUserEmail _) _) eqn:Hemail; [now repeat split|].
  destruct (createUser_appends us data Hbelow) as [Hu Hb].
  assert (Hfst : fst (createUser us data)
                 = User.mk (userCurrentId us) (InsertUser.username data)
                     (InsertUser.password data) (InsertUser.email data)
                     (InsertUser.name data) (Js.orNull (InsertUser.phone data))
                     (Js.orElse (InsertUser.role data) "user")) by reflexivity.
  destruct (createUser us data) as [newUser us']. cbn [fst snd] in *.
  subst newUser. split; [assumption|].
  apply find_none_filter in Hname. apply find_none_filter in Hemail.
  split.
  - intros username. unfold accountsNamed, JsMap.values.
    rewrite Hu, map_app, filter_app, length_app. cbn [map snd filter].
    destruct (sameUserName username _) eqn:E.
    + unfold sameUserName in E. cbn [User.username] in E.
      apply String.eqb_eq in E. symmetry in E.
      rewrite (sameUserName_eq _ _ E). unfold JsMap.values in Hname.
      rewrite Hname. cbn. lia.
    + cbn [List.length]. specialize (Hnames username).
      unfold accountsNamed, JsMap.values in Hnames. lia.
  - intros email. unfold accountsMailed, JsMap.values.
    rewrite Hu, map_app, filter_app, length_app. cbn [map snd filter].
    destruct (sameUserEmail email _) eqn:E.
    + unfold sameUserEmail in E. cbn [User.email] in E.
      apply String.eqb_eq in E. symmetry in E.
      rewrite (sameUserEmail_eq _ _ E). unfold JsMap.values in Hemail.
      rewrite Hemail. cbn. lia.
    + cbn [List.length]. specialize (Hemails email).
      unfold accountsMailed, JsMap.values in Hemails. lia.
Qed.

Lemma registerAll_single datas :
  forall us, singleAccounts us -> singleAccounts (registerAll us datas).
Proof.
  induction datas as [|data rest IH]; intros us Hus; cbn [registerAll];
    [assumption|].
  apply IH. now apply postUsersRegister_single.
Qed.

Lemma newUserStore_single : singleAccounts newUserStore.
Proof.
  split; [reflexivity|]. split.
  - intros username. unfold accountsNamed. cbn.
    destruct (sameUserName username _); cbn; lia.
  - intros email. unfold accountsMailed. cbn.
    destruct (sameUserEmail email _); cbn; lia.
Qed.

(** X19. Whatever registration requests the server has answered since it
    started, no two accounts have usernames that are equal up to letter
    case, and no two have e-mail addresses that are equal up to letter
    case: POST /api/users/register looks both up, the way the login looks
    the username up, before it creates the account. *)
Theorem user_accounts_stay_single
        (datas : list InsertUser.t) (username email : string) :
  (accountsNamed username (registerAll newUserStore datas) <= 1)%nat
  /\ (accountsMailed email (registerAll newUserStore datas) <= 1)%nat.
Proof.
  destruct (registerAll_single datas newUserStore newUserStore_single)
    as (_ & Hnames & Hemails).
  split; [apply Hnames | apply Hemails].
Qed.

(** The username 'admin' is taken from the start, in any letter case. *)
Example admin_is_taken :
  userStatus (fst (postUsersRegister newUserStore
                     (InsertUser.mk "ADMIN" "x" "other@example.org" "Other"
                        None (Some "admin")))) = 400.
Proof. reflexivity. Qed.

(** The account that a registration creates, as the login sees it. *)
Lemma registered_account
        (us : UserStore) (data : InsertUser.t) (more : list InsertUser.t)
        (s : MemStorage) :
  below (userCurrentId us) (users us) = true ->
  userStatus (fst (postUsersRegister us data)) = 201 ->
  let us' := registerAll (snd (postUsersRegister us data)) more in
  exists user,
    userLocal us' (InsertUser.username data) (InsertUser.password data)
    = Accepted user
    /\ (forall other, other <> InsertUser.password data ->
          userLocal us' (InsertUser.username data) other
          = Refused "Incorrect username or password")
    /\ userBody (fst (postUsersRegister us data))
       = URegistered (User.id user) (InsertUser.username data)
           (InsertUser.email data) (InsertUser.name data)
    /\ User.role user = Js.orElse (InsertUser.role data) "user"
    /\ deserializeUser us' (serializeUser (AsUser user)) s
       = (Some (AsUser user), s).
Proof.
  intros Hbelow Hstatus us'.
  assert (Hreg : getUserByUsername us (InsertUser.username data) = None
                 /\ postUsersRegister us data
                    = (mkUserResponse 201
                         (URegistered (userCurrentId us) (InsertUser.username data)
                            (InsertUser.email data) (InsertUser.name data)),
                       snd (createUser us data))).
  { unfold postUsersRegister in *.
    destruct (getUserByUsername us _); [discriminate|].
    destruct (getUserByEmail us _); [discriminate|].
    now split. }
  destruct Hreg as [Hname Hreg]. subst us'. rewrite Hreg in *.
  cbn [fst snd] in *. clear Hstatus.
  destruct (createUser_appends us data Hbelow) as [Hu Hbelow1].
  assert (Hfst : fst (createUser us data)
                 = User.mk (userCurrentId us) (InsertUser.username data)
                     (InsertUser.password data) (InsertUser.email data)
                     (InsertUser.name data) (Js.orNull (InsertUser.phone data))
                     (Js.orElse (InsertUser.role data) "user")) by reflexivity.
  destruct (registerAll_appends more (snd (createUser us data)) Hbelow1)
    as (_ & added & Hu').
  destruct (createUser us data) as [newUser us1]. cbn [fst snd] in *.
  remember (registerAll us1 more) as us' eqn:Hus'. clear Hus'.
  unfold getUserByUsername in Hname.
  fold (sameUserName (InsertUser.username data)) in Hname.
  exists newUser.
  assert (Hfind : getUserByUsername us' (InsertUser.username data) = Some newUser).
  { unfold getUserByUsername. fold (sameUserName (InsertUser.username data)).
    unfold JsMap.values in *. rewrite Hu', Hu, !map_app, !find_app, Hname.
    cbn [map snd find]. subst newUser. unfold sameUserName. cbn [User.username].
    now rewrite String.eqb_refl. }
  assert (Hpassword : User.password newUser = InsertUser.password data)
    by now subst newUser.
  split; [|split; [|split; [|split]]].
  - unfold userLocal. rewrite Hfind, Hpassword. now rewrite String.eqb_refl.
  - intros other Hother. unfold userLocal. rewrite Hfind, Hpassword.
    destruct (InsertUser.password data =? other) eqn:E; [|reflexivity].
    apply String.eqb_eq in E. congruence.
  - now subst newUser.
  - now subst newUser.
  - unfold deserializeUser, serializeUser. cbn [isHospitalSession sessionId].
    assert (Hid : User.id newUser = userCurrentId us) by now subst newUser.
    unfold getUser. rewrite Hid, Hu', Hu, !get_app.
    rewrite (below_get_None _ _ Hbelow). cbn [JsMap.get].
    now rewrite Z.eqb_refl.
Qed.

(** X20. An account that POST /api/users/register has created (status 201)
    can log in from then on, whatever registrations follow: the 'user-local'
    check accepts the registered username with the registered password and
    refuses it with any other, the accepted account is the one whose id the
    registration answered, its role is the role of the request body, or
    'user' when the body has none, and the session made from it resolves
    back to it. *)
Theorem register_then_login
        (us : UserStore) (data : InsertUser.t) (more : list InsertUser.t)
        (s : MemStorage) :
  below (userCurrentId us) (users us) = true ->
  userStatus (fst (postUsersRegister us data)) = 201 ->
  let us' := registerAll (snd (postUsersRegister us data)) more in
  exists user,
    userLocal us' (InsertUser.username data) (InsertUser.password data)
    = Accepted user
    /\ (forall other, other <> InsertUser.password data ->
          userLocal us' (InsertUser.username data) other
          = Refused "Incorrect username or password")
    /\ userBody (fst (postUsersRegister us data))
       = URegistered (User.id user) (InsertUser.username data)
           (InsertUser.email data) (InsertUser.name data)
    /\ User.role user = Js.orElse (InsertUser.role data) "user"
    /\ deserializeUser us' (serializeUser (AsUser user)) s
       = (Some (AsUser user), s).
Proof. exact (registered_account us data more s). Qed.

Lemma register_then_login_witness :
  exists user,
    userLocal (registerAll (snd (postUsersRegister newUserStore ada)) [root])
      "Ada" "lovelace" = Accepted user
    /\ User.role user = "user".
Proof.
  destruct (register_then_login newUserStore ada [root] newMemStorage
              eq_refl eq_refl) as (user & Hlogin & _ & _ & Hrole & _).
  exists user. split; [exact Hlogin | exact Hrole].
Defined.

(** The role is the one the body of the registration names. *)
Example registration_names_its_role :
  isAdmin (option_map AsUser
             (getUserByUsername (snd (postUsersRegister newUserStore root)) "root"))
  = true.
Proof. reflexivity. Qed.

(** ** Hospital login *)

Lemma set_last {V} (m : JsMap.t V) (k : Z) (v v' : V) :
  JsMap.get m k = None ->
  JsMap.set (m ++ [(k, v)])%list k v' = (m ++ [(k, v')])%list.
Proof.
  intros Hnone. rewrite <- (set_fresh m k v Hnone), set_set.
  now apply set_fresh.
Qed.

Lemma patchAdminHospital_last (s : MemStorage) (rest : JsMap.t Hospital.t)
      (id : Z) (hospital : Hospital.t) (approved : bool) :
  hospitals s = (rest ++ [(id, hospital)])%list ->
  JsMap.get rest id = None ->
  hospitals (execM (patchAdminHospital id approved) s)
  = (rest ++ [(id, setApproved hospital approved)])%list.
Proof.
  intros Hh Hnone.
  assert (Hget : JsMap.get (hospitals s) id = Some hospital).
  { rewrite Hh, get_app, Hnone. cbn. now rewrite Z.eqb_refl. }
  unfold patchAdminHospital, updateHospitalApproval, getHospital, putHospital,
    execM, bind, gets, modify, ret. cbn [fst snd].
  rewrite !Hget. cbn [fst snd hospitals]. rewrite Hh. now apply set_last.
Qed.

(** The login against a store whose last hospital is the only one with its
    username. *)
Lemma login_last (s : MemStorage) (rest : JsMap.t Hospital.t) (id : Z)
      (hospital : Hospital.t) (password : string) :
  hospitals s = (rest ++ [(id, hospital)])%list ->
  find (sameUsername (Hospital.username hospital)) (JsMap.values rest) = None ->
  Hospital.username hospital <> "" -> password <> "" ->
  evalM (postAuthHospitalLogin (Hospital.username hospital) password) s
  = if negb (Hospital.password hospital =? password)
    then mkLoginResponse 401 (LError "Incorrect username or password") None
    else if negb (Hospital.approved hospital)
         then mkLoginResponse 403 (LError "Hospital not approved yet") None
         else mkLoginResponse 200
                (LHospital (Hospital.id hospital) (Hospital.username hospital)
                   (Hospital.name hospital))
                (Some (mkSession (Hospital.id hospital) true)).
Proof.
  intros Hh Hnone Hname Hpassword.
  unfold postAuthHospitalLogin, loginSchema.
  apply String.eqb_neq in Hname, Hpassword. rewrite Hname, Hpassword.
  cbn [negb andb].
  unfold hospitalLocal, getHospitalByUsername, evalM, bind, gets, ret.
  cbn [fst snd]. fold (sameUsername (Hospital.username hospital)).
  unfold JsMap.values in *. rewrite Hh, map_app, find_app, Hnone.
  cbn [map snd find]. unfold sameUsername at 1. rewrite String.eqb_refl.
  destruct (negb (Hospital.password hospital =? password)); [reflexivity|].
  cbn [fst]. now destruct (negb (Hospital.approved hospital)).
Qed.

(** X21. A hospital that POST /api/hospitals/register has just created
    cannot log in until an administrator approves it, can log in once it is
    approved, and cannot any more once it is rejected again: for its
    username and password, POST /api/auth/hospital/login answers 403 after
    the registration, 200 with a hospital session after the approval and 403
    after a later rejection; with another password it answers 401 in all
    three states. *)
Theorem hospital_login_needs_approval
        (s : MemStorage) (data : InsertHospital.t) (other : string) :
  below (hospitalCurrentId s) (hospitals s) = true ->
  evalM (getHospitalByUsername (InsertHospital.username data)) s = None ->
  InsertHospital.username data <> "" ->
  InsertHospital.password data <> "" ->
  other <> "" -> other <> InsertHospital.password data ->
  let id := hospitalCurrentId s in
  let registered := execM (postHospitalsRegister data) s in
  let approved := execM (patchAdminHospital id true) registered in
  let rejected := execM (patchAdminHospital id false) approved in
  let login password st :=
    evalM (postAuthHospitalLogin (InsertHospital.username data) password) st in
  loginStatus (login (InsertHospital.password data) registered) = 403
  /\ login (InsertHospital.password data) approved
     = mkLoginResponse 200
         (LHospital id (InsertHospital.username data) (InsertHospital.name data))
         (Some (mkSession id true))
  /\ loginStatus (login (InsertHospital.password data) rejected) = 403
  /\ loginStatus (login other registered) = 401
  /\ loginStatus (login other approved) = 401
  /\ loginStatus (login other rejected) = 401.
Proof.
  intros Hbelow Hnone Hname Hpassword Hother Hdiffers. cbv zeta.
  pose proof (below_get_None _ _ Hbelow) as Hfresh.
  set (hospital approved :=
         Hospital.mk (hospitalCurrentId s) (InsertHospital.username data)
           (InsertHospital.password data) (InsertHospital.name data)
           (InsertHospital.email data) (InsertHospital.address data)
           (InsertHospital.city data) (InsertHospital.state data)
           (InsertHospital.zipCode data) (InsertHospital.phone data)
           (InsertHospital.website data) (InsertHospital.latitude data)
           (InsertHospital.longitude data) approved).
  assert (H1 : hospitals (execM (postHospitalsRegister data) s)
               = (hospitals s ++ [(hospitalCurrentId s, hospital false)])%list).
  { unfold postHospitalsRegister, execM, bind. unfold evalM in Hnone.
    destruct (getHospitalByUsername _ s) as [found s0] eqn:E.
    cbn [fst] in Hnone. subst found.
    assert (s0 = s) as -> by (unfold getHospitalByUsername, gets in E; congruence).
    unfold createHospital, ret. cbn. now apply set_fresh. }
  set (registered := execM (postHospitalsRegister data) s) in *.
  assert (H2 : hospitals (execM (patchAdminHospital (hospitalCurrentId s) true)
                            registered)
               = (hospitals s ++ [(hospitalCurrentId s, hospital true)])%list).
  { exact (patchAdminHospital_last registered _ _ _ true H1 Hfresh). }
  set (approved := execM (patchAdminHospital (hospitalCurrentId s) true)
                     registered) in *.
  assert (H3 : hospitals (execM (patchAdminHospital (hospitalCurrentId s) false)
                            approved)
               = (hospitals s ++ [(hospitalCurrentId s, hospital false)])%list).
  { exact (patchAdminHospital_last approved _ _ _ false H2 Hfresh). }
  set (rejected := execM (patchAdminHospital (hospitalCurrentId s) false)
                     approved) in *.
  unfold getHospitalByUsername, evalM, gets in Hnone. cbn [fst] in Hnone.
  fold (sameUsername (InsertHospital.username data)) in Hnone.
  assert (Hlogin : forall st p password,
             hospitals st
             = (hospitals s ++ [(hospitalCurrentId s, hospital p)])%list ->
             password <> "" ->
             evalM (postAuthHospitalLogin (InsertHospital.username data) password) st
             = if negb (InsertHospital.password data =? password)
               then mkLoginResponse 401
                      (LError "Incorrect username or password") None
               else if negb p
                    then mkLoginResponse 403
                           (LError "Hospital not approved yet") None
                    else mkLoginResponse 200
                           (LHospital (hospitalCurrentId s)
                              (InsertHospital.username data)
                              (InsertHospital.name data))
                           (Some (mkSession (hospitalCurrentId s) true))).
  { intros st p password Hst Hpw.
    exact (login_last st (hospitals s) _ (hospital p) password Hst Hnone Hname Hpw). }
  cbv beta.
  rewrite (Hlogin registered false _ H1 Hpassword),
    (Hlogin approved true _ H2 Hpassword),
    (Hlogin rejected false _ H3 Hpassword),
    (Hlogin registered false _ H1 Hother),
    (Hlogin approved true _ H2 Hother),
    (Hlogin rejected false _ H3 Hother).
  rewrite String.eqb_refl.
  assert (Hwrong : (InsertHospital.password data =? other) = false).
  { apply String.eqb_neq. congruence. }
  rewrite Hwrong. cbn. repeat split.
Qed.

Lemma hospital_login_needs_approval_witness :
  loginStatus (evalM (postAuthHospitalLogin "Village" "hush")
                 (execM (postHospitalsRegister villageHospital) oneBedStore)) = 403
  /\ loginStatus (evalM (postAuthHospitalLogin "Village" "hush")
                    (execM (patchAdminHospital 2 true)
                       (execM (postHospitalsRegister villageHospital) oneBedStore)))
     = 200.
Proof.
  destruct (hospital_login_needs_approval oneBedStore villageHospital "guess")
    as (H1 & H2 & _); try reflexivity; try discriminate.
  split; [exact H1 | exact (f_equal loginStatus H2)].
Defined.

(** ** Sessions and guards *)

Lemma keyed_get {V} (idOf : V -> Z) (m : JsMap.t V) (k : Z) (v : V) :
  keyed idOf m = true -> JsMap.get m k = Some v -> idOf v = k.
Proof.
  intros Hk Hget. apply (keyed_In idOf m k v Hk). now apply get_In.
Qed.

(** X22. The guard of the hospital routes asks for a login and nothing
    more: with any session that [deserializeUser] resolves, a user's as
    well as a hospital's, POST /api/hospital/beds reaches its handler, which
    acts for the hospital whose id is the id in the session; with a session
    that does not resolve it answers 401 and writes nothing. *)
Theorem hospital_guard_asks_login_only
        (us : UserStore) (session : Session) (form : BedForm.t) (s : MemStorage) :
  keyed User.id (users us) = true ->
  keyed Hospital.id (hospitals s) = true ->
  let user := evalM (deserializeUser us session) s in
  (user <> None ->
   routePostHospitalBeds user form s
   = postHospitalBeds (sessionId session) form s)
  /\ (user = None ->
      routePostHospitalBeds user form s
      = (statusJson 401 (JError "Unauthorized"), s)).
Proof.
  intros Hus Hs user. split.
  - intros Hsome. destruct user as [p|] eqn:E; [|congruence]. clear Hsome.
    assert (Hid : principalId p = sessionId session).
    { subst user. unfold deserializeUser, evalM, bind, getHospital, gets, ret in E.
      destruct (isHospitalSession session).
      - cbn [fst] in E.
        destruct (JsMap.get (hospitals s) (sessionId session)) as [h|] eqn:G;
          cbn in E; [|discriminate].
        injection E as <-. exact (keyed_get _ _ _ _ Hs G).
      - unfold getUser in E.
        destruct (JsMap.get (users us) (sessionId session)) as [u|] eqn:G;
          cbn in E; [|discriminate].
        injection E as <-. exact (keyed_get _ _ _ _ Hus G). }
    unfold routePostHospitalBeds.
    replace (isHospital (Some p) "/api/hospital/beds") with true by reflexivity.
    now rewrite Hid.
  - intros ->. reflexivity.
Qed.

Lemma hospital_guard_asks_login_only_witness :
  let us := snd (postUsersRegister newUserStore ada) in
  let session := mkSession 2 false in
  routePostHospitalBeds (evalM (deserializeUser us session) oneBedStore)
    (BedForm.mk 2 4 4 None) oneBedStore
  = postHospitalBeds 2 (BedForm.mk 2 4 4 None) oneBedStore.
Proof.
  cbv zeta.
  refine (proj1 (hospital_guard_asks_login_only
                   (snd (postUsersRegister newUserStore ada)) (mkSession 2 false)
                   (BedForm.mk 2 4 4 None) oneBedStore _ _) _);
    [reflexivity | reflexivity | discriminate].
Defined.

(** X23. Rejecting a hospital does not end its session: after a login that
    opened a session, and after an administrator's rejection of that
    hospital, [deserializeUser] still resolves the session, to the hospital
    with its approval withdrawn, and the hospital routes still serve it. *)
Theorem rejection_keeps_the_session
        (us : UserStore) (s : MemStorage) (username password : string)
        (session : Session) (form : BedForm.t) :
  keyed Hospital.id (hospitals s) = true ->
  loginSession (evalM (postAuthHospitalLogin username password) s)
  = Some session ->
  let s' := execM (patchAdminHospital (sessionId session) false) s in
  exists hospital,
    evalM (deserializeUser us session) s' = Some (AsHospital hospital)
    /\ Hospital.id hospital = sessionId session
    /\ Hospital.approved hospital = false
    /\ evalM (postAuthHospitalLogin username password) s'
       = mkLoginResponse 403 (LError "Hospital not approved yet") None
    /\ routePostHospitalBeds (Some (AsHospital hospital)) form s'
       = postHospitalBeds (sessionId session) form s'.
Proof.
  intros Hkeyed Hlogin s'.
  unfold postAuthHospitalLogin in Hlogin |- *.
  destruct (negb (loginSchema username password)) eqn:Hparse;
    [discriminate|].
  unfold hospitalLocal, getHospitalByUsername, evalM, bind, gets, ret in Hlogin |- *.
  cbn [fst snd] in Hlogin |- *.
  fold (sameUsername username) in Hlogin |- *.
  destruct (find (sameUsername username) (JsMap.values (hospitals s)))
    as [h|] eqn:Hfind; [|discriminate].
  destruct (negb (Hospital.password h =? password)) eqn:Hpw; [discriminate|].
  cbn [fst] in Hlogin.
  destruct (negb (Hospital.approved h)) eqn:Happroved; [discriminate|].
  injection Hlogin as <-. cbn [sessionId isHospitalSession serializeUser] in *.
  pose proof (find_get Hospital.id _ _ _ Hkeyed Hfind) as Hget.
  assert (Hh' : hospitals s'
                = JsMap.set (hospitals s) (Hospital.id h) (setApproved h false)).
  { subst s'. unfold patchAdminHospital, updateHospitalApproval, getHospital,
      putHospital, execM, bind, gets, modify, ret. cbn [fst snd].
    rewrite !Hget. reflexivity. }
  exists (setApproved h false).
  split; [|split; [reflexivity | split; [reflexivity | split]]].
  - unfold deserializeUser. cbn [isHospitalSession sessionId].
    unfold getHospital, bind, gets, ret. cbn [fst snd].
    now rewrite Hh', get_set_same.
  - rewrite Hh'.
    rewrite (find_set Hospital.id _ (sameUsername username) h (setApproved h false)
               Hkeyed Hfind (proj2 (find_some _ _ Hfind))).
    cbn [Hospital.password setApproved]. rewrite Hpw. reflexivity.
  - reflexivity.
Qed.

Lemma rejection_keeps_the_session_witness :
  exists hospital,
    evalM (deserializeUser newUserStore (mkSession 1 true))
      (execM (patchAdminHospital 1 false) oneBedStore)
    = Some (AsHospital hospital)
    /\ Hospital.approved hospital = false.
Proof.
  destruct (rejection_keeps_the_session newUserStore oneBedStore "city" "secret"
              (mkSession 1 true) (BedForm.mk 1 1 1 None) eq_refl eq_refl)
    as (hospital & H1 & _ & H2 & _).
  exists hospital. split; [exact H1 | exact H2].
Defined.

(** ** The configuration of the provider *)

(** X24. Through POST /api/config/api-key a key can be set and replaced but
    not cleared: a request without a key, or with an empty one, answers 400
    and leaves the configuration as it is, any other answers 200 and reports
    a key; so once a key is configured, [getApiConfig] reports one after any
    sequence of requests, and an address that is not empty stays so. *)
Theorem api_key_is_never_cleared
        (apiConfig : ApiConfig)
        (posts : list (Remote * option string * option string)) :
  (forall remote bodyKey bodyUrl,
      let '(code, _, apiConfig') :=
        postConfigApiKey apiConfig remote bodyKey bodyUrl in
      (code = 400 /\ apiConfig' = apiConfig
       /\ (bodyKey = None \/ bodyKey = Some ""))
      \/ (code = 200 /\ snd (getApiConfig apiConfig') = true
          /\ bodyKey = Some (apiKey apiConfig')))
  /\ (snd (getApiConfig apiConfig) = true ->
      snd (getApiConfig (postConfigApiKeys apiConfig posts)) = true)
  /\ (apiUrl apiConfig <> "" ->
      apiUrl (postConfigApiKeys apiConfig posts) <> "").
Proof.
  split; [|split].
  - intros remote bodyKey bodyUrl. unfold postConfigApiKey, whenSet.
    destruct bodyKey as [key|]; [|left; now repeat split; left].
    destruct (key =? "") eqn:E.
    + apply String.eqb_eq in E. subst key. left. repeat split. now right.
    + right. cbn. rewrite E. now repeat split.
  - revert apiConfig. induction posts as [|[[remote bodyKey] bodyUrl] rest IH];
      intros apiConfig Hkey; [assumption|].
    cbn [postConfigApiKeys]. apply IH.
    unfold postConfigApiKey, whenSet.
    destruct bodyKey as [key|]; [|assumption].
    destruct (key =? "") eqn:E; [assumption|].
    cbn. now rewrite E.
  - revert apiConfig. induction posts as [|[[remote bodyKey] bodyUrl] rest IH];
      intros apiConfig Hurl; [assumption|].
    cbn [postConfigApiKeys]. apply IH.
    unfold postConfigApiKey, whenSet.
    destruct bodyKey as [key|]; [|assumption].
    destruct (key =? ""); [assumption|].
    cbn [snd]. unfold updateApiConfig. cbn [apiUrl over].
    destruct bodyUrl as [url|]; [|assumption].
    destruct (url =? "") eqn:E; [assumption|].
    cbn [over]. now apply String.eqb_neq.
Qed.

Lemma api_key_is_never_cleared_witness :
  snd (getApiConfig
         (postConfigApiKeys withKey
            [(remoteDown, Some "", None); (remoteDown, None, Some "");
             (remoteDown, Some "k2", Some "")])) = true.
Proof.
  refine (proj1 (proj2 (api_key_is_never_cleared withKey _)) _).
  reflexivity.
Defined.

(** X25. The role that opens the administrator's routes is the one the
    registration request names: for an account that POST /api/users/register
    has created, the approval route runs its handler when the role of the
    request body, or 'user' when the body has none, is 'admin', and answers
    403 without writing otherwise. *)
Theorem registered_role_opens_admin_routes
        (us : UserStore) (data : InsertUser.t) (hospitalId : Z) (approved : bool)
        (s : MemStorage) :
  below (userCurrentId us) (users us) = true ->
  userStatus (fst (postUsersRegister us data)) = 201 ->
  let us' := snd (postUsersRegister us data) in
  exists user,
    userLocal us' (InsertUser.username data) (InsertUser.password data)
    = Accepted user
    /\ routePatchAdminHospital (Some (AsUser user)) hospitalId approved s
       = if Js.orElse (InsertUser.role data) "user" =? "admin"
         then patchAdminHospital hospitalId approved s
         else (statusJson 403 (JError "Forbidden"), s).
Proof.
  intros Hbelow Hstatus us'.
  destruct (registered_account us data [] s Hbelow Hstatus)
    as (user & Hlogin & _ & _ & Hrole & _).
  exists user. split; [exact Hlogin|].
  unfold routePatchAdminHospital, isAdmin. rewrite Hrole.
  destruct (Js.orElse (InsertUser.role data) "user" =? "admin"); reflexivity.
Qed.

Lemma registered_role_opens_admin_routes_witness :
  exists user,
    userLocal (snd (postUsersRegister newUserStore root)) "root" "toor"
    = Accepted user
    /\ routePatchAdminHospital (Some (AsUser user)) 1 false oneBedStore
       = patchAdminHospital 1 false oneBedStore.
Proof.
  exact (registered_role_opens_admin_routes newUserStore root 1 false oneBedStore
           eq_refl eq_refl).
Defined.
